(** * InsightFinder AI SDK: the streaming response assembler and its callers

    A shallow embedding of the two clients of the repository,

    - [LLMLabs]: [insightfinder/client.py], class [LLMLabsClient];
    - [Client]:  [insightfinderai/client.py], classes [EvaluationResult],
      [ChatResponse] and [Client];

    together with the Python primitives they rely on (dynamic values,
    [str] methods, [json.loads], exceptions).

    Conventions.  A Python [str] is a Rocq [string] holding its UTF-8
    bytes; every literal of the source is ASCII, so [startswith], [in],
    [+] and the slice [line[5:]] act on bytes exactly as they act on code
    points.  Python's [None] and JSON's [null] are the same value,
    [JNull].  Decoded JSON numbers keep their exact decimal value. *)

From Stdlib Require Import ZArith Ascii DecimalString.
From stdpp Require Import base option list strings.

#[local] Set Warnings "-register-all".

(** ** Python values *)

(** The values [json.loads] can produce.  An object keeps its members in
    insertion order, each key once, like a [dict]. *)
Inductive pyval : Type :=
| JNull
| JBool (b : bool)
| JInt (z : Z)
| JFloat (m e : Z)            (* the decimal m * 10^e of a float literal *)
| JNaN
| JInf (negative : bool)
| JStr (s : string)
| JArr (items : list pyval)
| JObj (members : list (string * pyval)).

(** ** Exceptions *)

Inductive exn_class : Type :=
| Exception
| ValueError
| JSONDecodeError             (* json.JSONDecodeError, a ValueError *)
| UnicodeEncodeError          (* a ValueError *)
| TypeError
| AttributeError
| KeyError
| RequestException            (* requests.exceptions.RequestException *)
| ConnectionError
| Timeout
| ChunkedEncodingError
| ContentDecodingError
| RequestsJSONDecodeError.    (* requests.exceptions.JSONDecodeError *)

Record exn : Type := Exn { exn_cls : exn_class; exn_msg : string }.

(** [issubclass c d] for the classes above. *)
Definition issubclass (c d : exn_class) : bool :=
  match d, c with
  | Exception, _ => true
  | ValueError,
    (ValueError | JSONDecodeError | RequestsJSONDecodeError | UnicodeEncodeError) => true
  | JSONDecodeError, (JSONDecodeError | RequestsJSONDecodeError) => true
  | UnicodeEncodeError, UnicodeEncodeError => true
  | TypeError, TypeError => true
  | AttributeError, AttributeError => true
  | KeyError, KeyError => true
  | RequestException,
    (RequestException | ConnectionError | Timeout | ChunkedEncodingError
     | ContentDecodingError | RequestsJSONDecodeError) => true
  | ConnectionError, ConnectionError => true
  | Timeout, Timeout => true
  | ChunkedEncodingError, ChunkedEncodingError => true
  | ContentDecodingError, ContentDecodingError => true
  | RequestsJSONDecodeError, RequestsJSONDecodeError => true
  | _, _ => false
  end.

Definition isinstance (e : exn) (d : exn_class) : bool := issubclass (exn_cls e) d.

(** A computation that returns or raises. *)
Definition result (A : Type) : Type := exn + A.

Definition raise {A} (c : exn_class) (msg : string) : result A := inl (Exn c msg).

(** The value of a call, [None] when it raised. *)
Definition to_option {B} (r : result B) : option B :=
  match r with
  | inr b => Some b
  | inl _ => None
  end.

(** ** [str] primitives *)

Module Str.

(** [s.startswith(p)] *)
Definition startswith (p s : string) : bool := String.prefix p s.

(** [needle in hay] *)
Fixpoint contains (needle hay : string) : bool :=
  String.prefix needle hay ||
  match hay with
  | EmptyString => false
  | String _ t => contains needle t
  end.

(** [s[n:]] for an ASCII prefix of [n] characters *)
Fixpoint drop (n : nat) (s : string) : string :=
  match n, s with
  | O, _ => s
  | S n, String _ t => drop n t
  | S _, EmptyString => EmptyString
  end.

Definition bytes (l : list nat) : list ascii := map ascii_of_nat l.

(** The UTF-8 encodings of the code points [str.strip()] removes:
    U+0009..000D, U+001C..0020, U+0085, U+00A0, U+1680, U+2000..200A,
    U+2028, U+2029, U+202F, U+205F, U+3000. *)
Definition whitespace : list (list ascii) :=
  map bytes
    ([ [9]; [10]; [11]; [12]; [13]; [28]; [29]; [30]; [31]; [32];
       [194; 133]; [194; 160]; [225; 154; 128] ]
     ++ map (fun b => [226; 128; b]) [128; 129; 130; 131; 132; 133; 134; 135; 136; 137; 138]
     ++ [ [226; 128; 168]; [226; 128; 169]; [226; 128; 175];
          [226; 129; 159]; [227; 128; 128] ]).

Fixpoint strip_prefix (p s : list ascii) : option (list ascii) :=
  match p, s with
  | [], _ => Some s
  | a :: p, b :: s => if Ascii.eqb a b then strip_prefix p s else None
  | _ :: _, [] => None
  end.

Fixpoint strip_first (ws : list (list ascii)) (s : list ascii) : option (list ascii) :=
  match ws with
  | [] => None
  | w :: ws =>
      match strip_prefix w s with
      | Some r => Some r
      | None => strip_first ws s
      end
  end.

Fixpoint lstrip_with (ws : list (list ascii)) (fuel : nat) (s : list ascii) : list ascii :=
  match fuel with
  | O => s
  | S fuel =>
      match strip_first ws s with
      | Some r => lstrip_with ws fuel r
      | None => s
      end
  end.

Definition lstrip_bytes (s : list ascii) : list ascii :=
  lstrip_with whitespace (length s) s.

Definition rstrip_bytes (s : list ascii) : list ascii :=
  rev (lstrip_with (map (@rev ascii) whitespace) (length s) (rev s)).

(** [s.strip()] *)
Definition strip (s : string) : string :=
  String.string_of_list_ascii (rstrip_bytes (lstrip_bytes (String.list_ascii_of_string s))).

(** The characters of a [str], one string per code point: a UTF-8
    continuation byte (10xxxxxx) stays with the character before it. *)
Definition is_continuation (c : ascii) : bool :=
  let n := nat_of_ascii c in (128 <=? n)%nat && (n <? 192)%nat.

Fixpoint chars_from (cur : string) (s : list ascii) : list string :=
  match s with
  | [] => [cur]
  | c :: t =>
      if is_continuation c then chars_from (cur +:+ String c "") t
      else cur :: chars_from (String c "") t
  end.

Definition chars (s : string) : list string :=
  match String.list_ascii_of_string s with
  | [] => []
  | c :: t => chars_from (String c "") t
  end.

(** [content.startswith("{") and "evaluations" in content] *)
Definition starts_evaluation (content : string) : bool :=
  startswith "{" content && contains "evaluations" content.

Definition newline : string := String (ascii_of_nat 10) "".

(** [str(n)] and [f"{n}"] for an [int] *)
Definition of_int (n : Z) : string := NilZero.string_of_int (Z.to_int n).

End Str.

(** ** [json.loads]

    The decoder of Python's [json] module with its default settings: the
    grammar of RFC 8259 extended with [NaN], [Infinity] and [-Infinity],
    strict strings (no raw control character), and only space, tab, line
    feed and carriage return as insignificant whitespace.  [None] stands
    for [json.JSONDecodeError].

    The interpreter's decoder also gives up on two kinds of text that the
    grammar admits: with [RecursionError] when arrays and objects are
    nested deeper than the recursion limit allows, and, from Python 3.11,
    with a plain [ValueError] on an integer literal of more than 4300
    digits.  These depend on the interpreter and its settings and are left
    out: the decoder below is the one of an interpreter whose limits the
    text stays within. *)

Module Json.

Definition dquote : ascii := ascii_of_nat 34.
Definition backslash : ascii := ascii_of_nat 92.

Definition is_ws (c : ascii) : bool :=
  let n := nat_of_ascii c in
  (n =? 32)%nat || (n =? 9)%nat || (n =? 10)%nat || (n =? 13)%nat.

Fixpoint skip_ws (s : list ascii) : list ascii :=
  match s with
  | c :: t => if is_ws c then skip_ws t else s
  | [] => []
  end.

Definition is_digit (c : ascii) : bool :=
  let n := nat_of_ascii c in (48 <=? n)%nat && (n <=? 57)%nat.

Definition digit_val (c : ascii) : Z := Z.of_nat (nat_of_ascii c - 48).

Definition digits_val (ds : list ascii) : Z :=
  fold_left (fun acc c => 10 * acc + digit_val c)%Z ds 0%Z.

Fixpoint span_digits (s : list ascii) : list ascii * list ascii :=
  match s with
  | c :: t =>
      if is_digit c then let '(ds, r) := span_digits t in (c :: ds, r)
      else ([], s)
  | [] => ([], [])
  end.

(** Numbers: an optional minus sign, then 0 or a digit 1-9 followed by
    digits; then a fraction (a dot and at least one digit) and an exponent
    (e or E, an optional sign, at least one digit), each taken only when
    complete. *)
Definition scan_int_part (s : list ascii) : option (list ascii * list ascii) :=
  match s with
  | c :: t =>
      if Ascii.eqb c "0"%char then Some ([c], t)
      else if is_digit c then Some (span_digits s)
      else None
  | [] => None
  end.

Definition scan_frac (s : list ascii) : list ascii * list ascii :=
  match s with
  | c :: t =>
      if Ascii.eqb c "."%char then
        match span_digits t with
        | ([], _) => ([], s)
        | (ds, r) => (ds, r)
        end
      else ([], s)
  | [] => ([], s)
  end.

Definition scan_exp (s : list ascii) : option Z * list ascii :=
  match s with
  | c :: t =>
      if Ascii.eqb c "e"%char || Ascii.eqb c "E"%char then
        let '(neg, t') :=
          match t with
          | d :: u =>
              if Ascii.eqb d "-"%char then (true, u)
              else if Ascii.eqb d "+"%char then (false, u)
              else (false, t)
          | [] => (false, t)
          end in
        match span_digits t' with
        | ([], _) => (None, s)
        | (ds, r) => (Some (if neg then - digits_val ds else digits_val ds)%Z, r)
        end
      else (None, s)
  | [] => (None, s)
  end.

Definition scan_number (s : list ascii) : option (pyval * list ascii) :=
  let '(neg, s1) :=
    match s with
    | c :: t => if Ascii.eqb c "-"%char then (true, t) else (false, s)
    | [] => (false, s)
    end in
  '(ids, r1) ← scan_int_part s1;
  let '(fds, r2) := scan_frac r1 in
  let '(ex, r3) := scan_exp r2 in
  let sign (z : Z) := if neg then (- z)%Z else z in
  match fds, ex with
  | [], None => Some (JInt (sign (digits_val ids)), r3)
  | _, _ =>
      Some (JFloat (sign (digits_val (ids ++ fds)))
                   (default 0%Z ex - Z.of_nat (length fds))%Z, r3)
  end.

(** Strings. *)
Definition hex_val (c : ascii) : option Z :=
  let n := nat_of_ascii c in
  if (48 <=? n)%nat && (n <=? 57)%nat then Some (Z.of_nat (n - 48))
  else if (97 <=? n)%nat && (n <=? 102)%nat then Some (Z.of_nat (n - 87))
  else if (65 <=? n)%nat && (n <=? 70)%nat then Some (Z.of_nat (n - 55))
  else None.

Definition hex4 (s : list ascii) : option (Z * list ascii) :=
  match s with
  | a :: b :: c :: d :: r =>
      x ← hex_val a; y ← hex_val b; z ← hex_val c; w ← hex_val d;
      Some (((x * 16 + y) * 16 + z) * 16 + w, r)%Z
  | _ => None
  end.

Definition byte (z : Z) : ascii := ascii_of_N (Z.to_N z).

(** UTF-8 of a code point; a lone surrogate keeps its three-byte form. *)
Definition utf8 (cp : Z) : list ascii :=
  if (cp <? 128)%Z then [byte cp]
  else if (cp <? 2048)%Z then
    [byte (192 + cp / 64); byte (128 + cp mod 64)]
  else if (cp <? 65536)%Z then
    [byte (224 + cp / 4096); byte (128 + (cp / 64) mod 64); byte (128 + cp mod 64)]
  else
    [byte (240 + cp / 262144); byte (128 + (cp / 4096) mod 64);
     byte (128 + (cp / 64) mod 64); byte (128 + cp mod 64)].

Definition is_high_surrogate (cp : Z) : bool := (55296 <=? cp)%Z && (cp <=? 56319)%Z.
Definition is_low_surrogate (cp : Z) : bool := (56320 <=? cp)%Z && (cp <=? 57343)%Z.

(** What follows [\u]: four hex digits, and the low half of a surrogate
    pair when the first escape is a high half. *)
Definition scan_u_escape (s : list ascii) : option (Z * list ascii) :=
  '(c1, r1) ← hex4 s;
  if is_high_surrogate c1 then
    match r1 with
    | a :: b :: r2 =>
        if Ascii.eqb a backslash && Ascii.eqb b "u"%char then
          '(c2, r3) ← hex4 r2;
          if is_low_surrogate c2
          then Some (65536 + (c1 - 55296) * 1024 + (c2 - 56320), r3)%Z
          else Some (c1, r1)
        else Some (c1, r1)
    | _ => Some (c1, r1)
    end
  else Some (c1, r1).

Definition simple_escape (e : ascii) : option ascii :=
  if Ascii.eqb e dquote then Some dquote
  else if Ascii.eqb e backslash then Some backslash
  else if Ascii.eqb e "/"%char then Some "/"%char
  else if Ascii.eqb e "b"%char then Some (ascii_of_nat 8)
  else if Ascii.eqb e "f"%char then Some (ascii_of_nat 12)
  else if Ascii.eqb e "n"%char then Some (ascii_of_nat 10)
  else if Ascii.eqb e "r"%char then Some (ascii_of_nat 13)
  else if Ascii.eqb e "t"%char then Some (ascii_of_nat 9)
  else None.

(** The body of a string, after its opening quote. *)
Fixpoint scanstring (fuel : nat) (s : list ascii) : option (list ascii * list ascii) :=
  match fuel with
  | O => None
  | S fuel =>
      match s with
      | [] => None
      | c :: t =>
          if Ascii.eqb c dquote then Some ([], t)
          else if Ascii.eqb c backslash then
            match t with
            | [] => None
            | e :: t' =>
                if Ascii.eqb e "u"%char then
                  '(cp, r) ← scan_u_escape t';
                  '(rest, r') ← scanstring fuel r;
                  Some (utf8 cp ++ rest, r')
                else
                  b ← simple_escape e;
                  '(rest, r') ← scanstring fuel t';
                  Some (b :: rest, r')
            end
          else if (nat_of_ascii c <? 32)%nat then None
          else
            '(rest, r') ← scanstring fuel t;
            Some (c :: rest, r')
      end
  end.

(** [d[k] = v] on the members of an object. *)
Fixpoint dict_set (kvs : list (string * pyval)) (k : string) (v : pyval)
  : list (string * pyval) :=
  match kvs with
  | [] => [(k, v)]
  | (k', v') :: rest =>
      if String.eqb k' k then (k, v) :: rest else (k', v') :: dict_set rest k v
  end.

Definition keyword (w : string) (v : pyval) (s : list ascii) : option (pyval * list ascii) :=
  r ← Str.strip_prefix (String.list_ascii_of_string w) s; Some (v, r).

Fixpoint scan_once (fuel : nat) (s : list ascii) : option (pyval * list ascii) :=
  match fuel with
  | O => None
  | S fuel =>
      match s with
      | [] => None
      | c :: t =>
          if Ascii.eqb c dquote then
            '(str, r) ← scanstring (S (length t)) t;
            Some (JStr (String.string_of_list_ascii str), r)
          else if Ascii.eqb c "{"%char then
            match skip_ws t with
            | d :: t' =>
                if Ascii.eqb d "}"%char then Some (JObj [], t')
                else parse_members fuel (d :: t') []
            | [] => None
            end
          else if Ascii.eqb c "["%char then
            match skip_ws t with
            | d :: t' =>
                if Ascii.eqb d "]"%char then Some (JArr [], t')
                else parse_items fuel (d :: t') []
            | [] => None
            end
          else if Ascii.eqb c "n"%char then keyword "null" JNull s
          else if Ascii.eqb c "t"%char then keyword "true" (JBool true) s
          else if Ascii.eqb c "f"%char then keyword "false" (JBool false) s
          else if Ascii.eqb c "N"%char then keyword "NaN" JNaN s
          else if Ascii.eqb c "I"%char then keyword "Infinity" (JInf false) s
          else
            match keyword "-Infinity" (JInf true) s with
            | Some r => Some r
            | None => scan_number s
            end
      end
  end

(** The members of an object from its first key on: a quoted key, a colon,
    a value, then [}] or a comma and the next member. *)
with parse_members (fuel : nat) (s : list ascii) (acc : list (string * pyval))
  : option (pyval * list ascii) :=
  match fuel with
  | O => None
  | S fuel =>
      match s with
      | q :: t =>
          if Ascii.eqb q dquote then
            '(key, r) ← scanstring (S (length t)) t;
            match skip_ws r with
            | c :: r1 =>
                if Ascii.eqb c ":"%char then
                  '(v, r2) ← scan_once fuel (skip_ws r1);
                  let acc' := dict_set acc (String.string_of_list_ascii key) v in
                  match skip_ws r2 with
                  | d :: r3 =>
                      if Ascii.eqb d "}"%char then Some (JObj acc', r3)
                      else if Ascii.eqb d ","%char then parse_members fuel (skip_ws r3) acc'
                      else None
                  | [] => None
                  end
                else None
            | [] => None
            end
          else None
      | [] => None
      end
  end

(** The items of an array from its first value on. *)
with parse_items (fuel : nat) (s : list ascii) (acc : list pyval)
  : option (pyval * list ascii) :=
  match fuel with
  | O => None
  | S fuel =>
      '(v, r) ← scan_once fuel s;
      match skip_ws r with
      | d :: r1 =>
          if Ascii.eqb d "]"%char then Some (JArr (acc ++ [v]), r1)
          else if Ascii.eqb d ","%char then parse_items fuel (skip_ws r1) (acc ++ [v])
          else None
      | [] => None
      end
  end.

(** [json.loads(s)]: one value, whitespace around it, nothing after. *)
Definition loads (s : string) : option pyval :=
  let b := String.list_ascii_of_string s in
  '(v, r) ← scan_once (2 * length b + 2) (skip_ws b);
  match skip_ws r with
  | [] => Some v
  | _ :: _ => None
  end.

End Json.

(** ** Operations on dynamic values *)

Module Py.

(** [bool(v)].  A float literal is false when it rounds to zero in binary64,
    that is when its absolute value is at most 2^-1075. *)
Definition float_nonzero (m e : Z) : bool :=
  if (0 <=? e)%Z then negb (m =? 0)%Z
  else (10 ^ (- e) <? Z.abs m * 2 ^ 1075)%Z.

Definition truthy (v : pyval) : bool :=
  match v with
  | JNull => false
  | JBool b => b
  | JInt z => negb (z =? 0)%Z
  | JFloat m e => float_nonzero m e
  | JNaN | JInf _ => true
  | JStr s => negb (String.eqb s "")
  | JArr l => match l with [] => false | _ :: _ => true end
  | JObj kvs => match kvs with [] => false | _ :: _ => true end
  end.

(** An optional [str] argument: the string, or [None]. *)
Definition of_option (o : option string) : pyval :=
  match o with
  | Some s => JStr s
  | None => JNull
  end.

(** [a or b] *)
Definition or_ (a b : pyval) : pyval := if truthy a then a else b.

Fixpoint dict_lookup (kvs : list (string * pyval)) (k : string) : option pyval :=
  match kvs with
  | [] => None
  | (k', v) :: rest => if String.eqb k' k then Some v else dict_lookup rest k
  end.

Definition has_key (kvs : list (string * pyval)) (k : string) : bool :=
  match dict_lookup kvs k with
  | Some _ => true
  | None => false
  end.

Definition is_str (k : string) (v : pyval) : bool :=
  match v with
  | JStr s => String.eqb s k
  | _ => false
  end.

(** [k in v] for a string [k]: a key of a dict, an element of a list, a
    substring of a str; other types are not containers. *)
Definition contains (k : string) (v : pyval) : result bool :=
  match v with
  | JObj kvs => inr (has_key kvs k)
  | JArr l => inr (existsb (is_str k) l)
  | JStr s => inr (Str.contains k s)
  | _ => raise TypeError "argument is not iterable"
  end.

(** [v[k]] for a string [k] *)
Definition getitem (v : pyval) (k : string) : result pyval :=
  match v with
  | JObj kvs =>
      match dict_lookup kvs k with
      | Some x => inr x
      | None => raise KeyError k
      end
  | JArr _ | JStr _ => raise TypeError "indices must be integers"
  | _ => raise TypeError "object is not subscriptable"
  end.

(** [v.get(k, d)]: only a dict has the method. *)
Definition get (v : pyval) (k : string) (d : pyval) : result pyval :=
  match v with
  | JObj kvs => inr (default d (dict_lookup kvs k))
  | _ => raise AttributeError "object has no attribute 'get'"
  end.

(** What [for x in v] visits. *)
Definition iter (v : pyval) : result (list pyval) :=
  match v with
  | JArr l => inr l
  | JObj kvs => inr (map (fun kv => JStr (fst kv)) kvs)
  | JStr s => inr (map JStr (Str.chars s))
  | _ => raise TypeError "object is not iterable"
  end.

(** [json.loads] as a call that may raise, for a decoder [loads].  The
    text of the error is the decoder's business; the clients only ever
    look at its class.  [loads s = None] is [json.JSONDecodeError], the one
    failure a decoder [loads] has: a text on which the interpreter raises
    [RecursionError] or the [ValueError] of the integer digit limit (which
    [except json.JSONDecodeError], line 324 of insightfinderai/client.py,
    does not catch, and the handler of line 332 does) is outside [loads]. *)
Definition json_loads (loads : string → option pyval) (s : string) : result pyval :=
  match loads s with
  | Some v => inr v
  | None => raise JSONDecodeError "invalid JSON document"
  end.

End Py.

(** ** Statements that update local variables and may raise

    A block of statements acts on the function's local variables and
    either completes with a value or raises; the assignments made before
    the [raise] stay in effect, which is what an enclosing [except] sees. *)

Definition M (S A : Type) : Type := S → S * result A.

Definition ret {S A} (a : A) : M S A := fun s => (s, inr a).

Definition bind {S A B} (m : M S A) (k : A → M S B) : M S B :=
  fun s =>
    match m s with
    | (s', inr a) => k a s'
    | (s', inl e) => (s', inl e)
    end.

Definition lift {S A} (r : result A) : M S A := fun s => (s, r).

Definition gets {S A} (f : S → A) : M S A := fun s => (s, inr (f s)).

Definition modify {S} (f : S → S) : M S unit := fun s => (f s, inr tt).

(** [try: m  except cls: h] *)
Definition try_except {S A} (m : M S A) (cls : exn_class) (h : exn → M S A) : M S A :=
  fun s =>
    match m s with
    | (s', inl e) => if isinstance e cls then h e s' else (s', inl e)
    | r => r
    end.

(** [try: m  except: pass] with a bare [except], which catches everything. *)
Definition try_pass {S} (m : M S unit) : M S unit :=
  fun s => (fst (m s), inr tt).

(** [for x in l: body] *)
Fixpoint for_each {S A} (l : list A) (body : A → M S unit) : M S unit :=
  match l with
  | [] => ret tt
  | x :: l => bind (body x) (fun _ => for_each l body)
  end.

Definition when {S} (b : bool) (m : M S unit) : M S unit :=
  if b then m else ret tt.

Definition exec {S A} (m : M S A) (s : S) : S := fst (m s).

Declare Scope py_scope.
Delimit Scope py_scope with py.
Notation "x <- m ;; k" := (bind m (fun x => k))
  (at level 100, m at next level, k at level 200, right associativity) : py_scope.
Notation "m ;; k" := (bind m (fun _ => k))
  (at level 100, k at level 200, right associativity) : py_scope.
#[local] Open Scope py_scope.

(** [steps R m]: whatever [m] does, and whether or not it raises, the
    locals it leaves are related by [R] to those it started from. *)
Definition steps {S} (R : relation S) {A} (m : M S A) : Prop :=
  ∀ s, R s (fst (m s)).

(** A field [f] of the locals is left alone. *)
Definition keeps {S X} (f : S → X) : relation S := fun s s' => f s' = f s.

(** ** The HTTP transport

    What [requests.post] is given and what it hands back.  A streamed body
    is the lines [response.iter_lines(decode_unicode=True)] yields, in
    order, and the exception that ends the iteration when the connection
    breaks before the body is complete. *)

Record Request : Type := {
  req_url : string;
  req_headers : list (string * pyval);
  req_json : pyval;
  req_stream : bool
}.

Record Response : Type := {
  status_code : Z;
  text : string;
  lines : list string;
  broken : option exn
}.

(** [for line in response.iter_lines(...): body] *)
Definition for_lines {S} (r : Response) (body : string → M S unit) : M S unit :=
  for_each (lines r) body ;;
  match broken r with
  | Some e => lift (inl e)
  | None => ret tt
  end.

(** The result of a streaming chat: the fields of the [SimpleNamespace]
    that [LLMLabsClient.chat] returns. *)
Record AssemblyResult : Type := {
  response : string;
  evaluations : pyval;
  trace_id : pyval;
  model : pyval;
  raw_chunks : list pyval
}.

(** ** The wire format, as the statements speak of it *)

(** The payload of a line, when the line carries one: the line starts
    with [data:], and what follows, stripped, is neither empty nor the
    sentinel. *)
Definition line_payload (line : string) : option string :=
  if negb (String.eqb line "") && Str.startswith "data:" line then
    let json_part := Str.strip (Str.drop 5 line) in
    if negb (String.eqb json_part "") && negb (String.eqb json_part "[START]")
    then Some json_part
    else None
  else None.

(** The chunk a line decodes to, and the chunks of a body in arrival order. *)
Definition line_chunk (loads : string → option pyval) (line : string) : option pyval :=
  line_payload line ≫= loads.

Definition chunks_of (loads : string → option pyval) (ls : list string) : list pyval :=
  omap (line_chunk loads) ls.

(** The data model.  A Choice is an object whose [delta], when present, is
    an object whose [content], when present, is a string; a Chunk is an
    object whose [choices], when present, is an array of Choices. *)
Definition choice_content (choice : pyval) : option string :=
  match choice with
  | JObj kvs =>
      match default (JObj []) (Py.dict_lookup kvs "delta") with
      | JObj d =>
          match default (JStr "") (Py.dict_lookup d "content") with
          | JStr s => Some s
          | _ => None
          end
      | _ => None
      end
  | _ => None
  end.

(** The [delta.content] fragments of a Chunk, one per choice. *)
Definition chunk_fragments (chunk : pyval) : option (list string) :=
  match chunk with
  | JObj kvs =>
      match Py.dict_lookup kvs "choices" with
      | None => Some []
      | Some (JArr cs) => mapM choice_content cs
      | Some _ => None
      end
  | _ => None
  end.

(** A line is valid when it carries no payload or a payload that decodes
    to a Chunk. *)
Definition valid_line (loads : string → option pyval) (line : string) : Prop :=
  match line_payload line with
  | None => True
  | Some p => ∃ chunk fs, loads p = Some chunk ∧ chunk_fragments chunk = Some fs
  end.

(** Every content fragment of a body, across all chunks and choices. *)
Definition fragments_of (loads : string → option pyval) (ls : list string) : list string :=
  flat_map (fun chunk => default [] (chunk_fragments chunk)) (chunks_of loads ls).

(** Concatenation with no separator. *)
Definition join (l : list string) : string := foldr String.append "" l.

(** The [model] values a body carries, in arrival order. *)
Definition chunk_model (chunk : pyval) : option pyval :=
  match chunk with
  | JObj kvs => Py.dict_lookup kvs "model"
  | _ => None
  end.

Definition models_of (loads : string → option pyval) (ls : list string) : list pyval :=
  omap chunk_model (chunks_of loads ls).

Definition is_null (v : pyval) : bool :=
  match v with
  | JNull => true
  | _ => false
  end.

(** The first value that is not null, [None] when there is none. *)
Definition first_non_null (vs : list pyval) : pyval :=
  default JNull (List.find (fun v => negb (is_null v)) vs).

(** The first true value; when no value is true, the last value; [None]
    when there is no value at all. *)
Definition first_true_else_last (vs : list pyval) : pyval :=
  match List.find Py.truthy vs with
  | Some v => v
  | None => default JNull (last vs)
  end.

(** First-wins capture, as a fold over the values offered. *)
Definition capture (m : pyval) (vs : list pyval) : pyval :=
  foldl (fun m v => if Py.truthy m then m else v) m vs.

(** What a chunk does to the captured model. *)
Definition offer (chunk : pyval) (m : pyval) : pyval :=
  if Py.truthy m then m else default m (chunk_model chunk).

(** The choices the loop over [chunk["choices"]] visits. *)
Definition chunk_choices (chunk : pyval) : list pyval :=
  match Py.contains "choices" chunk with
  | inr true =>
      match Py.getitem chunk "choices" with
      | inr v =>
          match Py.iter v with
          | inr cs => cs
          | inl _ => []
          end
      | inl _ => []
      end
  | _ => []
  end.

(** The kinds of HTTP status error. *)
Inductive error_kind : Type :=
| ClientErrorKind
| ServerErrorKind
| UnexpectedStatusKind.

(** The kind a non-2xx status calls for. *)
Definition kind_of_status (code : Z) : error_kind :=
  if (400 <=? code)%Z && (code <? 500)%Z then ClientErrorKind
  else if (500 <=? code)%Z && (code <? 600)%Z then ServerErrorKind
  else UnexpectedStatusKind.

(** The words that open the message of each kind. *)
Definition kind_label (k : error_kind) : string :=
  match k with
  | ClientErrorKind => "Client error "
  | ServerErrorKind => "Server error "
  | UnexpectedStatusKind => "Unexpected status code "
  end.

(** The kind an exception announces: the clients tell the kinds apart by
    the words that open the message of a [ValueError]. *)
Definition kind_of_error (e : exn) : option error_kind :=
  if negb (isinstance e ValueError) then None
  else if Str.startswith "Client error " (exn_msg e) then Some ClientErrorKind
  else if Str.startswith "Server error " (exn_msg e) then Some ServerErrorKind
  else if Str.startswith "Unexpected status code " (exn_msg e) then Some UnexpectedStatusKind
  else None.

(** ** [insightfinder/client.py] *)

Module LLMLabs.

Record Auth : Type := { username : pyval; api_key : pyval }.

(** The local variables of [chat], and what it has printed. *)
Record locals : Type := {
  results : list pyval;
  stitched_response : string;
  l_evaluations : pyval;
  l_trace_id : pyval;
  l_model : pyval;
  stdout : list string
}.

Definition init : locals :=
  {| results := []; stitched_response := ""; l_evaluations := JNull;
     l_trace_id := JNull; l_model := JNull; stdout := [] |}.

Definition append_result (c : pyval) (l : locals) : locals :=
  {| results := results l ++ [c]; stitched_response := stitched_response l;
     l_evaluations := l_evaluations l; l_trace_id := l_trace_id l;
     l_model := l_model l; stdout := stdout l |}.
Definition append_response (s : string) (l : locals) : locals :=
  {| results := results l; stitched_response := stitched_response l +:+ s;
     l_evaluations := l_evaluations l; l_trace_id := l_trace_id l;
     l_model := l_model l; stdout := stdout l |}.
Definition set_evaluations (v : pyval) (l : locals) : locals :=
  {| results := results l; stitched_response := stitched_response l;
     l_evaluations := v; l_trace_id := l_trace_id l;
     l_model := l_model l; stdout := stdout l |}.
Definition set_trace_id (v : pyval) (l : locals) : locals :=
  {| results := results l; stitched_response := stitched_response l;
     l_evaluations := l_evaluations l; l_trace_id := v;
     l_model := l_model l; stdout := stdout l |}.
Definition set_model (v : pyval) (l : locals) : locals :=
  {| results := results l; stitched_response := stitched_response l;
     l_evaluations := l_evaluations l; l_trace_id := l_trace_id l;
     l_model := v; stdout := stdout l |}.
(** [print(s)]: the text and a line feed go to standard output, which is
    taken to accept them. *)
Definition print (s : string) (l : locals) : locals :=
  {| results := results l; stitched_response := stitched_response l;
     l_evaluations := l_evaluations l; l_trace_id := l_trace_id l;
     l_model := l_model l; stdout := stdout l ++ [s +:+ Str.newline] |}.

Section WithDecoder.

Variable loads : string → option pyval.

(** Lines 73-85: one choice of a chunk. *)
Definition process_choice (choice : pyval) : M locals unit :=
  delta <- lift (Py.get choice "delta" (JObj [])) ;;
  content <- lift (Py.get delta "content" (JStr "")) ;;
  match content with
  | JStr s =>
      if Str.starts_evaluation s then
        try_except
          (eval_obj <- lift (Py.json_loads loads s) ;;
           ev <- lift (Py.get eval_obj "evaluations" JNull) ;;
           modify (set_evaluations ev) ;;
           old <- gets l_trace_id ;;
           t <- lift (Py.get eval_obj "traceId" old) ;;
           modify (set_trace_id t))
          Exception (fun _ => ret tt)
      else modify (append_response s)
  | _ => lift (raise AttributeError "object has no attribute 'startswith'")
  end.

(** Lines 65-69: "Extract model and trace_id if present". *)
Definition extract_metadata (chunk : pyval) : M locals unit :=
  m <- gets l_model ;;
  has_model <- (if negb (Py.truthy m) then lift (Py.contains "model" chunk)
                else ret false) ;;
  when has_model (v <- lift (Py.getitem chunk "model") ;; modify (set_model v)) ;;
  has_id <- lift (Py.contains "id" chunk) ;;
  when has_id (v <- lift (Py.getitem chunk "id") ;; modify (set_trace_id v)).

(** Lines 70-85: "Handle choices". *)
Definition process_choices (chunk : pyval) : M locals unit :=
  has_choices <- lift (Py.contains "choices" chunk) ;;
  when has_choices
    (choices <- lift (Py.getitem chunk "choices") ;;
     cs <- lift (Py.iter choices) ;;
     for_each cs process_choice).

(** Lines 64-85: a decoded chunk. *)
Definition process_chunk (chunk : pyval) : M locals unit :=
  modify (append_result chunk) ;;
  extract_metadata chunk ;;
  process_choices chunk.

(** Lines 59-87: one line of the body. *)
Definition process_line (line : string) : M locals unit :=
  when (negb (String.eqb line "") && Str.startswith "data:" line)
    (let json_part := Str.strip (Str.drop 5 line) in
     when (negb (String.eqb json_part "") && negb (String.eqb json_part "[START]"))
       (try_except
          (chunk <- lift (Py.json_loads loads json_part) ;;
           process_chunk chunk)
          Exception (fun _ => ret tt))).

(** Lines 57-89: the loop over the body and its handler. *)
Definition consume (r : Response) : M locals unit :=
  try_except (for_lines r process_line)
    ChunkedEncodingError
    (fun e => modify (print ("Stream broken: " +:+ exn_msg e))).

(** Lines 41-49. *)
Definition check_status (r : Response) : result unit :=
  let code := status_code r in
  if (200 <=? code)%Z && (code <? 300)%Z then inr tt
  else if (400 <=? code)%Z && (code <? 500)%Z then
    raise ValueError ("Client error " +:+ Str.of_int code +:+ ": " +:+ text r)
  else if (500 <=? code)%Z && (code <? 600)%Z then
    raise ValueError ("Server error " +:+ Str.of_int code +:+ ": " +:+ text r)
  else
    raise ValueError ("Unexpected status code " +:+ Str.of_int code +:+ ": " +:+ text r).

Definition namespace (l : locals) : AssemblyResult :=
  {| response := stitched_response l; evaluations := l_evaluations l;
     trace_id := l_trace_id l; model := l_model l; raw_chunks := results l |}.

(** The namespace a body of [ls] lines read to its end leaves. *)
Definition assemble (ls : list string) : AssemblyResult :=
  namespace (exec (for_each ls process_line) init).

(** The locals after the lines [ls], read from the locals [l]. *)
Definition run (ls : list string) (l : locals) : locals :=
  foldl (fun l line => exec (process_line line) l) l ls.

Definition chat_url : string :=
  "https://ai.insightfinder.com/api/external/v1/chatbot/stream-with-type".

(** Lines 22-39: the request. *)
Definition chat_request (auth : Auth) (prompt : string)
    (model_version user_created_model_name model_id_type : option string) : Request :=
  {| req_url := chat_url;
     req_headers := [("X-Api-Key", api_key auth); ("X-User-Name", username auth)];
     req_json := JObj [("prompt", JStr prompt);
                       ("modelVersion", Py.of_option model_version);
                       ("userCreatedModelName", Py.of_option user_created_model_name);
                       ("modelIdType", Py.of_option model_id_type)];
     req_stream := true |}.

(** [LLMLabsClient.chat]: what is printed, and the value returned or the
    exception raised. *)
Definition chat (auth : Auth) (post : Request → result Response)
    (prompt : string) (model_version user_created_model_name model_id_type : option string)
  : list string * result AssemblyResult :=
  if String.eqb prompt "" then ([], raise ValueError "Prompt cannot be empty.")
  else if bool_decide (model_version = None) then
    ([], raise ValueError "Model version must be specified.")
  else if bool_decide (model_id_type = None) then
    ([], raise ValueError "Model ID type must be specified.")
  else if bool_decide (user_created_model_name = None) then
    ([], raise ValueError "User created model name must be specified.")
  else
    match post (chat_request auth prompt model_version user_created_model_name
                  model_id_type) with
    | inl e => ([], inl e)
    | inr r =>
        match check_status r with
        | inl e => ([], inl e)
        | inr _ =>
            match consume r init with
            | (l, inr _) => (stdout l, inr (namespace l))
            | (l, inl e) => (stdout l, inl e)
            end
        end
    end.

End WithDecoder.

End LLMLabs.

(** ** [insightfinderai/client.py] *)

Module Client.

(** [class EvaluationResult] *)
Record EvaluationResult : Type := {
  er_evaluations : pyval;
  er_trace_id : pyval;
  er_prompt : pyval;
  er_response : pyval
}.

(** [EvaluationResult.__init__], lines 17-21. *)
Definition new_EvaluationResult (evaluation_data trace_id prompt response : pyval)
  : result EvaluationResult :=
  match Py.get evaluation_data "evaluations" (JArr []) with
  | inl e => inl e
  | inr evs =>
      (* [a or b] evaluates [b] only when [a] is false *)
      let tid :=
        if Py.truthy trace_id then inr trace_id
        else Py.get evaluation_data "traceId" (JStr "") in
      match tid with
      | inl e => inl e
      | inr t => inr {| er_evaluations := evs; er_trace_id := t;
                        er_prompt := prompt; er_response := response |}
      end
  end.

(** [class ChatResponse] *)
Record ChatResponse : Type := {
  cr_response : string;
  cr_prompt : pyval;
  cr_evaluations : option EvaluationResult;
  cr_enable_evaluations : bool;
  cr_trace_id : pyval;
  cr_model : pyval;
  cr_raw_chunks : list pyval
}.

(** [ChatResponse.__init__], lines 86-93. *)
Definition new_ChatResponse (response : string) (prompt evaluations trace_id model : pyval)
    (raw_chunks : list pyval) (enable_evaluations : bool) : result ChatResponse :=
  let ev :=
    if Py.truthy evaluations then
      match new_EvaluationResult
              (JObj [("evaluations", Py.or_ evaluations (JArr []))])
              trace_id prompt (JStr response) with
      | inl e => inl e
      | inr r => inr (Some r)
      end
    else inr None in
  match ev with
  | inl e => inl e
  | inr ev =>
      inr {| cr_response := response; cr_prompt := prompt; cr_evaluations := ev;
             cr_enable_evaluations := enable_evaluations; cr_trace_id := trace_id;
             cr_model := model; cr_raw_chunks := raw_chunks |}
  end.

(** The attributes of a [Client] that its methods read. *)
Record client : Type := {
  username : string;
  api_key : string;
  session_name : string;
  enable_evaluations : bool;
  chat_url : string;
  evaluation_url : string;
  safety_url : string;
  project_name : string
}.

(** What one call observes of the outside world: the server behind
    [requests.post], [uuid.uuid4()] and the clock in milliseconds. *)
Record world : Type := {
  post : Request → result Response;
  uuid4 : string;
  timestamp : Z
}.

(** [_get_headers] *)
Definition get_headers (c : client) : list (string * pyval) :=
  [("X-Api-Key", JStr (api_key c)); ("X-User-Name", JStr (username c));
   ("Content-Type", JStr "application/json")].

(** The local variables of [chat], and what it has printed. *)
Record locals : Type := {
  results : list pyval;
  stitched_response : string;
  l_evaluations : pyval;
  l_trace_id : pyval;
  l_model : pyval;
  evaluation_buffer : string;
  in_evaluation_block : bool;
  stdout : list string
}.

Definition init : locals :=
  {| results := []; stitched_response := ""; l_evaluations := JNull;
     l_trace_id := JNull; l_model := JNull; evaluation_buffer := "";
     in_evaluation_block := false; stdout := [] |}.

Definition append_result (c : pyval) (l : locals) : locals :=
  {| results := results l ++ [c]; stitched_response := stitched_response l;
     l_evaluations := l_evaluations l; l_trace_id := l_trace_id l;
     l_model := l_model l; evaluation_buffer := evaluation_buffer l;
     in_evaluation_block := in_evaluation_block l; stdout := stdout l |}.
Definition append_response (s : string) (l : locals) : locals :=
  {| results := results l; stitched_response := stitched_response l +:+ s;
     l_evaluations := l_evaluations l; l_trace_id := l_trace_id l;
     l_model := l_model l; evaluation_buffer := evaluation_buffer l;
     in_evaluation_block := in_evaluation_block l; stdout := stdout l |}.
Definition set_evaluations (v : pyval) (l : locals) : locals :=
  {| results := results l; stitched_response := stitched_response l;
     l_evaluations := v; l_trace_id := l_trace_id l;
     l_model := l_model l; evaluation_buffer := evaluation_buffer l;
     in_evaluation_block := in_evaluation_block l; stdout := stdout l |}.
Definition set_trace_id (v : pyval) (l : locals) : locals :=
  {| results := results l; stitched_response := stitched_response l;
     l_evaluations := l_evaluations l; l_trace_id := v;
     l_model := l_model l; evaluation_buffer := evaluation_buffer l;
     in_evaluation_block := in_evaluation_block l; stdout := stdout l |}.
Definition set_model (v : pyval) (l : locals) : locals :=
  {| results := results l; stitched_response := stitched_response l;
     l_evaluations := l_evaluations l; l_trace_id := l_trace_id l;
     l_model := v; evaluation_buffer := evaluation_buffer l;
     in_evaluation_block := in_evaluation_block l; stdout := stdout l |}.
Definition set_block (b : bool) (buf : string) (l : locals) : locals :=
  {| results := results l; stitched_response := stitched_response l;
     l_evaluations := l_evaluations l; l_trace_id := l_trace_id l;
     l_model := l_model l; evaluation_buffer := buf;
     in_evaluation_block := b; stdout := stdout l |}.
Definition append_buffer (s : string) (l : locals) : locals :=
  {| results := results l; stitched_response := stitched_response l;
     l_evaluations := l_evaluations l; l_trace_id := l_trace_id l;
     l_model := l_model l; evaluation_buffer := evaluation_buffer l +:+ s;
     in_evaluation_block := in_evaluation_block l; stdout := stdout l |}.
(** The locals once [s] has gone to standard output. *)
Definition written (s : string) (l : locals) : locals :=
  {| results := results l; stitched_response := stitched_response l;
     l_evaluations := l_evaluations l; l_trace_id := l_trace_id l;
     l_model := l_model l; evaluation_buffer := evaluation_buffer l;
     in_evaluation_block := in_evaluation_block l; stdout := stdout l ++ [s] |}.

Section WithDecoder.

Variable loads : string → option pyval.

(** Standard output: [write out s] is the exception that writing and
    flushing the text [s] raises once the texts [out] have been written (a
    [UnicodeEncodeError] for a text the encoding of the stream cannot
    express, such as a lone surrogate; an error from a closed pipe), and
    [None] when [s] is written. *)
Variable write : list string → string → option exn.

(** [print(s, end='', flush=True)] *)
Definition print (s : string) : M locals unit :=
  out <- gets stdout ;;
  match write out s with
  | Some e => lift (inl e)
  | None => modify (written s)
  end.

(** Lines 319-326: the attempt to decode the accumulated buffer. *)
Definition try_commit : M locals unit :=
  try_except
    (buf <- gets evaluation_buffer ;;
     eval_obj <- lift (Py.json_loads loads buf) ;;
     ev <- lift (Py.get eval_obj "evaluations" JNull) ;;
     modify (set_evaluations ev) ;;
     old <- gets l_trace_id ;;
     t <- lift (Py.get eval_obj "traceId" old) ;;
     modify (set_trace_id t) ;;
     modify (set_block false ""))
    JSONDecodeError (fun _ => ret tt).

(** Lines 310-331: one content fragment. *)
Definition process_content (stream : bool) (s : string) : M locals unit :=
  if Str.starts_evaluation s then
    modify (set_block true s)
  else
    in_block <- gets in_evaluation_block ;;
    if (in_block : bool) then
      modify (append_buffer s) ;;
      try_commit
    else
      modify (append_response s) ;;
      when (stream && negb (String.eqb s "")) (print s).

(** Lines 306-331: one choice of a chunk. *)
Definition process_choice (stream : bool) (choice : pyval) : M locals unit :=
  delta <- lift (Py.get choice "delta" (JObj [])) ;;
  content <- lift (Py.get delta "content" (JStr "")) ;;
  match content with
  | JStr s => process_content stream s
  | _ => lift (raise AttributeError "object has no attribute 'startswith'")
  end.

(** Lines 297-301: "Extract metadata". *)
Definition extract_metadata (chunk : pyval) : M locals unit :=
  m <- gets l_model ;;
  has_model <- (if negb (Py.truthy m) then lift (Py.contains "model" chunk)
                else ret false) ;;
  when has_model (v <- lift (Py.getitem chunk "model") ;; modify (set_model v)) ;;
  has_id <- lift (Py.contains "id" chunk) ;;
  when has_id (v <- lift (Py.getitem chunk "id") ;; modify (set_trace_id v)).

(** Lines 303-331: "Process content". *)
Definition process_choices (stream : bool) (chunk : pyval) : M locals unit :=
  has_choices <- lift (Py.contains "choices" chunk) ;;
  when has_choices
    (choices <- lift (Py.getitem chunk "choices") ;;
     cs <- lift (Py.iter choices) ;;
     for_each cs (process_choice stream)).

(** Lines 295-331: a decoded chunk. *)
Definition process_chunk (stream : bool) (chunk : pyval) : M locals unit :=
  modify (append_result chunk) ;;
  extract_metadata chunk ;;
  process_choices stream chunk.

(** Lines 290-333: one line of the body. *)
Definition process_line (stream : bool) (line : string) : M locals unit :=
  when (negb (String.eqb line "") && Str.startswith "data:" line)
    (let json_part := Str.strip (Str.drop 5 line) in
     when (negb (String.eqb json_part "") && negb (String.eqb json_part "[START]"))
       (try_pass
          (chunk <- lift (Py.json_loads loads json_part) ;;
           process_chunk stream chunk))).

(** Lines 289-333: the loop over the body. *)
Definition consume (stream : bool) (r : Response) : M locals unit :=
  for_lines r (process_line stream).

(** The five values the loop leaves for the caller. *)
Definition assembled (l : locals) : AssemblyResult :=
  {| response := stitched_response l; evaluations := l_evaluations l;
     trace_id := l_trace_id l; model := l_model l; raw_chunks := results l |}.

(** The five values a body of [ls] lines read to its end leaves. *)
Definition assemble (stream : bool) (ls : list string) : AssemblyResult :=
  assembled (exec (for_each ls (process_line stream)) init).

(** The locals after the lines [ls], read from the locals [l]. *)
Definition run (stream : bool) (ls : list string) (l : locals) : locals :=
  foldl (fun l line => exec (process_line stream line) l) l ls.

(** Lines 330-331: [print] when echoing a fragment that is not empty. *)
Definition echo (stream : bool) (s : string) : M locals unit :=
  when (stream && negb (String.eqb s "")) (print s).

(** Standard output takes every text. *)
Definition accepts : Prop := ∀ out s, write out s = None.

(** Nothing is echoed, or standard output takes every text. *)
Definition echo_succeeds (stream : bool) : Prop := stream = false ∨ accepts.

(** The locals after an echo that standard output has taken. *)
Definition shown (stream : bool) (s : string) (l : locals) : locals :=
  if stream && negb (String.eqb s "") then written s l else l.

(** The [ChatResponse] made of the locals the loop leaves. *)
Definition chat_response (c : client) (prompt : string) (l : locals) : ChatResponse :=
  let evs := if enable_evaluations c then l_evaluations l else JNull in
  {| cr_response := stitched_response l;
     cr_prompt := JStr prompt;
     cr_evaluations :=
       if Py.truthy evs
       then Some {| er_evaluations := evs;
                    er_trace_id := Py.or_ (l_trace_id l) (JStr "");
                    er_prompt := JStr prompt;
                    er_response := JStr (stitched_response l) |}
       else None;
     cr_enable_evaluations := enable_evaluations c;
     cr_trace_id := l_trace_id l;
     cr_model := l_model l;
     cr_raw_chunks := results l |}.

(** The trace identifier an evaluation goes by: the caller's when it is a
    string that is not empty, a fresh UUID otherwise. *)
Definition chosen_trace_id (w : world) (trace_id : option string) : string :=
  match trace_id with
  | Some s => if String.eqb s "" then uuid4 w else s
  | None => uuid4 w
  end.

(** [except requests.exceptions.RequestException as e: raise ValueError(...)] *)
Definition wrap_request_error {A} (label : string) (r : result A) : result A :=
  match r with
  | inl e =>
      if isinstance e RequestException
      then raise ValueError (label +:+ exn_msg e)
      else inl e
  | inr a => inr a
  end.

Definition is_2xx (code : Z) : bool := (200 <=? code)%Z && (code <? 300)%Z.

Definition api_error (label : string) (r : Response) : exn :=
  Exn ValueError (label +:+ Str.of_int (status_code r) +:+ ": " +:+ text r).

(** Lines 264-275: the request of [chat]. *)
Definition chat_request (c : client) (prompt : string) : Request :=
  {| req_url := chat_url c; req_headers := get_headers c;
     req_json := JObj [("prompt", JStr prompt);
                       ("userCreatedModelName", JStr (session_name c))];
     req_stream := true |}.

(** [Client.chat], lines 245-349: what is printed, and the value returned
    or the exception raised. *)
Definition chat (c : client) (w : world) (prompt : string) (stream : bool)
  : list string * result ChatResponse :=
  if String.eqb (Str.strip prompt) "" then ([], raise ValueError "Prompt cannot be empty")
  else
    match post w (chat_request c prompt) with
    | inl e => ([], wrap_request_error "Request failed: " (inl e))
    | inr r =>
        if negb (is_2xx (status_code r)) then ([], inl (api_error "API error " r))
        else
          match consume stream r init with
          | (l, inl e) => (stdout l, wrap_request_error "Request failed: " (inl e))
          | (l, inr _) =>
              (stdout l,
               wrap_request_error "Request failed: "
                 (new_ChatResponse (stitched_response l) (JStr prompt)
                    (if enable_evaluations c then l_evaluations l else JNull)
                    (l_trace_id l) (l_model l) (results l) (enable_evaluations c)))
          end
    end.

(** [response.json()] *)
Definition response_json (r : Response) : result pyval :=
  match loads (text r) with
  | Some v => inr v
  | None => raise RequestsJSONDecodeError "invalid JSON document"
  end.

(** Lines 418-431: the request of [evaluate]. *)
Definition evaluate_request (c : client) (w : world) (prompt response : string)
    (trace_id : pyval) : Request :=
  {| req_url := evaluation_url c; req_headers := get_headers c;
     req_json := JObj [("projectName", JStr (project_name c));
                       ("traceId", trace_id);
                       ("prompt", JStr prompt);
                       ("response", JStr response);
                       ("timestamp", JInt (timestamp w))];
     req_stream := false |}.

(** Lines 508-520: the request of [safety_evaluation]. *)
Definition safety_request (c : client) (w : world) (prompt : string)
    (trace_id : pyval) : Request :=
  {| req_url := safety_url c; req_headers := get_headers c;
     req_json := JObj [("projectName", JStr (project_name c));
                       ("traceId", trace_id);
                       ("prompt", JStr prompt);
                       ("timestamp", JInt (timestamp w))];
     req_stream := false |}.

(** [Client.evaluate], lines 395-440. *)
Definition evaluate (c : client) (w : world) (prompt response : string)
    (trace_id : option string) : result EvaluationResult :=
  if String.eqb (Str.strip prompt) "" then raise ValueError "Prompt cannot be empty"
  else if String.eqb (Str.strip response) "" then raise ValueError "Response cannot be empty"
  else
    let trace_id := Py.or_ (Py.of_option trace_id) (JStr (uuid4 w)) in
    wrap_request_error "Evaluation request failed: "
      match post w (evaluate_request c w prompt response trace_id) with
      | inl e => inl e
      | inr r =>
          if negb (is_2xx (status_code r)) then inl (api_error "Evaluation API error " r)
          else
            match response_json r with
            | inl e => inl e
            | inr result_data =>
                new_EvaluationResult result_data trace_id (JStr prompt) (JStr response)
            end
      end.

(** [Client.safety_evaluation], lines 488-529. *)
Definition safety_evaluation (c : client) (w : world) (prompt : string)
    (trace_id : option string) : result EvaluationResult :=
  if String.eqb (Str.strip prompt) "" then raise ValueError "Prompt cannot be empty"
  else
    let trace_id := Py.or_ (Py.of_option trace_id) (JStr (uuid4 w)) in
    wrap_request_error "Safety evaluation request failed: "
      match post w (safety_request c w prompt trace_id) with
      | inl e => inl e
      | inr r =>
          if negb (is_2xx (status_code r)) then inl (api_error "Safety API error " r)
          else
            match response_json r with
            | inl e => inl e
            | inr result_data =>
                new_EvaluationResult result_data trace_id (JStr prompt) JNull
            end
      end.

(** What the loop does with the fragments it reaches, read off the run:
    each fragment, whether it was taken as part of an evaluation payload
    (it opens a block, or a block is open), and whether a block is open
    once it has been handled. *)
Record event : Type := {
  fragment : string;
  as_evaluation : bool;
  open_after : bool
}.

Definition observe (stream : bool) (s : string) (l : locals) : event :=
  {| fragment := s;
     as_evaluation := Str.starts_evaluation s || in_evaluation_block l;
     open_after := in_evaluation_block (exec (process_content stream s) l) |}.

Fixpoint choice_events (stream : bool) (cs : list pyval) (l : locals) : list event :=
  match cs with
  | [] => []
  | c :: cs =>
      match choice_content c with
      | Some s =>
          observe stream s l ::
          match process_content stream s l with
          | (l', inr _) => choice_events stream cs l'
          | (_, inl _) => []
          end
      | None => []
      end
  end.

Definition chunk_events (stream : bool) (chunk : pyval) (l : locals) : list event :=
  match (modify (append_result chunk) ;; extract_metadata chunk) l with
  | (l1, inr _) => choice_events stream (chunk_choices chunk) l1
  | (_, inl _) => []
  end.

Definition line_events (stream : bool) (line : string) (l : locals) : list event :=
  match line_chunk loads line with
  | Some chunk => chunk_events stream chunk l
  | None => []
  end.

Fixpoint events (stream : bool) (ls : list string) (l : locals) : list event :=
  match ls with
  | [] => []
  | line :: ls =>
      line_events stream line l ++ events stream ls (exec (process_line stream line) l)
  end.

(** The fragments that were not taken as part of an evaluation payload. *)
Definition plain_fragments (evs : list event) : list string :=
  map fragment (List.filter (fun e => negb (as_evaluation e)) evs).

(** The batch operations.  Item [i] is submitted to the pool as future
    [i]; [completed] is the order in which [as_completed] yields the
    futures; [worlds i] is what the [i]-th call sees of the outside. *)

(** Lines 384-391: the slots, written as the futures complete. *)
Definition collect {B} (n : nat) (outcome : nat → result B) (completed : list nat)
  : list (option B) :=
  foldl (fun results i =>
           match outcome i with
           | inr r => <[i := Some r]> results
           | inl _ => <[i := None]> results
           end)
        (replicate n None) completed.

(** Lines 369-393, shared by the three operations: the check of the
    input, the pool, the slots and the final list comprehension. *)
Definition batch {A B} (empty_msg : string) (call : nat → A → result B)
    (items : list A) (max_workers : Z) (completed : list nat) : result (list B) :=
  match items with
  | [] => raise ValueError empty_msg
  | _ :: _ =>
      if (max_workers <=? 0)%Z then raise ValueError "max_workers must be greater than 0"
      else
        let outcome i :=
          match items !! i with
          | Some a => call i a
          | None => raise KeyError "no such future"
          end in
        inr (omap id (collect (length items) outcome completed))
  end.

Definition batch_chat (c : client) (worlds : nat → world) (prompts : list string)
    (max_workers : Z) (completed : list nat) : result (list ChatResponse) :=
  batch "Prompts list cannot be empty"
    (fun i prompt => snd (chat c (worlds i) prompt false))
    prompts max_workers completed.

Definition batch_evaluate (c : client) (worlds : nat → world)
    (prompt_response_pairs : list (string * string))
    (max_workers : Z) (completed : list nat) : result (list EvaluationResult) :=
  batch "Prompt-response pairs list cannot be empty"
    (fun i pair => evaluate c (worlds i) (fst pair) (snd pair) None)
    prompt_response_pairs max_workers completed.

Definition batch_safety_evaluation (c : client) (worlds : nat → world)
    (prompts : list string)
    (max_workers : Z) (completed : list nat) : result (list EvaluationResult) :=
  batch "Prompts list cannot be empty"
    (fun i prompt => safety_evaluation c (worlds i) prompt None)
    prompts max_workers completed.

End WithDecoder.

End Client.

(** ** Concrete streams

    JSON text is written with an apostrophe where the wire has a double
    quote; [wire] puts the double quotes back. *)

Definition wire (s : string) : string :=
  String.string_of_list_ascii
    (map (fun c => if Ascii.eqb c "'"%char then Json.dquote else c)
         (String.list_ascii_of_string s)).

Module Examples.

(** The evaluation payload of the specification. *)
Definition payload : string :=
  wire "{'evaluations':[{'evaluationType':'toxicity','score':0.1,'explanation':'ok'}],'traceId':'abc'}".

Definition payload_evaluations : pyval :=
  JArr [JObj [("evaluationType", JStr "toxicity"); ("score", JFloat 1 (-1));
              ("explanation", JStr "ok")]].

(** The same payload, as the JSON string literal a chunk carries. *)
Definition payload_literal : string :=
  wire "'{\'evaluations\':[{\'evaluationType\':\'toxicity\',\'score\':0.1,\'explanation\':\'ok\'}],\'traceId\':\'abc\'}'".

Definition payload_literal_1 : string :=
  wire "'{\'evaluations\':[{\'evaluationType\':\'toxicity\','".
Definition payload_literal_2 : string :=
  wire "'\'score\':0.1,\'explanation\':\'ok\'}],\'traceId\':\'abc\'}'".

(** A line carrying one chunk with one content fragment. *)
Definition content_line (literal : string) : string :=
  wire "data: {'choices':[{'delta':{'content':" +:+ literal +:+ "}}]}".

Definition single_fragment : list string := [content_line payload_literal].

Definition split_fragments : list string :=
  [content_line payload_literal_1; content_line payload_literal_2].

Definition a_client : Client.client :=
  {| Client.username := "user"; Client.api_key := "key";
     Client.session_name := "session"; Client.enable_evaluations := true;
     Client.chat_url := "https://ai.insightfinder.com/chat";
     Client.evaluation_url := "https://ai.insightfinder.com/evaluation";
     Client.safety_url := "https://ai.insightfinder.com/safety";
     Client.project_name := "project-Prompt" |}.

(** A server that answers every request with the same response. *)
Definition serving (r : Response) : Client.world :=
  {| Client.post := fun _ => inr r;
     Client.uuid4 := "3f2b8c1e-5d4a-4e6f-9a7b-0c1d2e3f4a5b";
     Client.timestamp := 1700000000000 |}.

Definition ok_stream (ls : list string) (end_ : option exn) : Response :=
  {| status_code := 200; text := ""; lines := ls; broken := end_ |}.

(** Two chunks of ordinary text around a sentinel and a blank line. *)
Definition hello_lines : list string :=
  [content_line (wire "'Hel'"); "data: [START]"; ""; content_line (wire "'lo'")].

Definition bad_line : string := "data: not-json".

(** What [iter_lines] raises when the connection drops mid-body. *)
Definition broken_end : exn :=
  Exn ChunkedEncodingError "Connection broken: IncompleteRead".

Definition broken_stream : Response :=
  ok_stream [content_line (wire "'Hel'")] (Some broken_end).

(** A chunk whose first choice has a content that is not a string. *)
Definition null_content_line : string :=
  wire "data: {'choices':[{'delta':{'content':null}},{'delta':{'content':'x'}}]}".

(** Two chunks that name different models. *)
Definition model_lines (first second : string) : list string :=
  [wire ("data: {'model':'" +:+ first +:+ "'}");
   wire ("data: {'model':'" +:+ second +:+ "'}")].

Definition an_auth : LLMLabs.Auth :=
  {| LLMLabs.username := JStr "user"; LLMLabs.api_key := JStr "key" |}.

Definition not_found : Response :=
  {| status_code := 404; text := "not found"; lines := []; broken := None |}.

Definition unavailable : Response :=
  {| status_code := 503; text := "not found"; lines := []; broken := None |}.

(** The reply of the evaluation endpoint: the payload, under its own
    trace identifier. *)
Definition evaluation_reply : Response :=
  {| status_code := 200; text := payload; lines := []; broken := None |}.

(** Three calls, of which the second fails. *)
Definition batch_worlds (i : nat) : Client.world :=
  if (i =? 1)%nat then serving unavailable else serving (ok_stream hello_lines None).

(** The text holds a surrogate code point: as the decoder leaves it, three
    bytes that start with 237 and go on with a byte from 160 up. *)
Fixpoint has_surrogate (s : string) : bool :=
  match s with
  | String a ((String b _) as t) =>
      ((nat_of_ascii a =? 237)%nat && (160 <=? nat_of_ascii b)%nat) || has_surrogate t
  | _ => false
  end.

(** Standard output in UTF-8: it writes every text but one that holds a
    lone surrogate, for which [print] raises [UnicodeEncodeError]. *)
Definition terminal (out : list string) (s : string) : option exn :=
  if has_surrogate s then Some (Exn UnicodeEncodeError "surrogates not allowed")
  else None.

(** U+D800 as the decoder leaves it. *)
Definition lone_surrogate : string :=
  String (ascii_of_nat 237) (String (ascii_of_nat 160) (String (ascii_of_nat 128) "")).

(** A chunk with two choices, of which the first has a lone surrogate for
    content. *)
Definition surrogate_line : string :=
  wire "data: {'choices':[{'delta':{'content':'\ud800'}},{'delta':{'content':'x'}}]}".

End Examples.

(** ** Further vocabulary *)

(** The [id] a chunk carries, and the ids of a body in arrival order. *)
Definition chunk_id (chunk : pyval) : option pyval :=
  match chunk with
  | JObj kvs => Py.dict_lookup kvs "id"
  | _ => None
  end.

Definition ids_of (loads : string → option pyval) (ls : list string) : list pyval :=
  omap chunk_id (chunks_of loads ls).

(** The inner loop of [Client.chat] over a sequence of content fragments. *)
Definition feed (loads : string → option pyval)
    (write : list string → string → option exn) (stream : bool) (fs : list string)
    (l : Client.locals) : Client.locals :=
  foldl (fun l s => exec (Client.process_content loads write stream s) l) l fs.

(** The locals of [Client.chat] with what has been printed left out. *)
Definition quiet (l : Client.locals) : Client.locals :=
  {| Client.results := Client.results l;
     Client.stitched_response := Client.stitched_response l;
     Client.l_evaluations := Client.l_evaluations l;
     Client.l_trace_id := Client.l_trace_id l;
     Client.l_model := Client.l_model l;
     Client.evaluation_buffer := Client.evaluation_buffer l;
     Client.in_evaluation_block := Client.in_evaluation_block l;
     Client.stdout := [] |}.

(** Two blocks of statements that, from locals related by [R], raise or
    return alike and leave locals related by [R]. *)
Definition sim {S A} (R : relation S) (m m' : M S A) : Prop :=
  ∀ s s', R s s' → R (fst (m s)) (fst (m' s')) ∧ snd (m s) = snd (m' s').

(** The same locals but for what has been printed. *)
Definition same_but_stdout : relation Client.locals :=
  fun l l' => quiet l = quiet l'.

(** A fragment that does not look like an evaluation payload. *)
Definition plain (s : string) : bool := negb (Str.starts_evaluation s).

(** Lines 77-83 of [insightfinder/client.py]: the attempt to decode a
    fragment that looks like an evaluation payload. *)
Definition labs_decode (loads : string → option pyval) (s : string)
  : M LLMLabs.locals unit :=
  try_except
    (eval_obj <- lift (Py.json_loads loads s) ;;
     ev <- lift (Py.get eval_obj "evaluations" JNull) ;;
     modify (LLMLabs.set_evaluations ev) ;;
     old <- gets LLMLabs.l_trace_id ;;
     t <- lift (Py.get eval_obj "traceId" old) ;;
     modify (LLMLabs.set_trace_id t))
    Exception (fun _ => ret tt).

(** The object a content fragment hands to [LLMLabsClient.chat] as an
    evaluation payload: the fragment looks like a payload and decodes to
    an object. *)
Definition payload_object (loads : string → option pyval) (s : string)
  : option (list (string * pyval)) :=
  if Str.starts_evaluation s then
    match loads s with
    | Some (JObj kvs) => Some kvs
    | _ => None
    end
  else None.

(** The payload objects of a body, in arrival order. *)
Definition payloads_of (loads : string → option pyval) (ls : list string)
  : list (list (string * pyval)) :=
  omap (payload_object loads) (fragments_of loads ls).

(** [eval_obj.get("evaluations")] *)
Definition payload_evaluations_of (kvs : list (string * pyval)) : pyval :=
  default JNull (Py.dict_lookup kvs "evaluations").

(** What a content fragment does to the evaluations of
    [LLMLabsClient.chat]. *)
Definition labs_offer (loads : string → option pyval) (s : string) (ev : pyval) : pyval :=
  match payload_object loads s with
  | Some kvs => payload_evaluations_of kvs
  | None => ev
  end.

(** [s.strip()] is a true value. *)
Definition not_blank (s : string) : bool := negb (String.eqb (Str.strip s) "").

(** What has been printed is the response so far; [echoed] relates two
    states of the loop when the second has this property if the first has. *)
Definition echo_in_step (l : Client.locals) : Prop :=
  join (Client.stdout l) = Client.stitched_response l.

Definition echoed : relation Client.locals :=
  fun l l' => echo_in_step l → echo_in_step l'.

(** ** More [str] primitives *)

Module PyStr.

(** [s[:n]], on bytes. *)
Fixpoint take (n : nat) (s : string) : string :=
  match n, s with
  | S n, String c t => String c (take n t)
  | _, _ => EmptyString
  end.

(** [s.endswith(p)] *)
Definition endswith (p s : string) : bool :=
  (String.length p <=? String.length s)%nat &&
  String.eqb (Str.drop (String.length s - String.length p) s) p.

(** [s[:-n]] for [n > 0], where the last [n] characters of [s] are ASCII. *)
Definition drop_end (n : nat) (s : string) : string :=
  take (String.length s - n) s.

(** [s.split(sep)] for a separator of one ASCII character. *)
Fixpoint split (sep : ascii) (s : string) : list string :=
  match s with
  | EmptyString => [EmptyString]
  | String c t =>
      if Ascii.eqb c sep then EmptyString :: split sep t
      else
        match split sep t with
        | p :: ps => String c p :: ps
        | [] => [String c EmptyString]
        end
  end.

(** [sep.join(parts)] *)
Fixpoint join (sep : string) (parts : list string) : string :=
  match parts with
  | [] => EmptyString
  | [p] => p
  | p :: ps => p +:+ sep +:+ join sep ps
  end.

(** [s * n] *)
Fixpoint repeat (s : string) (n : nat) : string :=
  match n with
  | O => EmptyString
  | S n => s +:+ repeat s n
  end.

(** [sep not in s] for a separator of one ASCII character. *)
Fixpoint free_of (sep : ascii) (s : string) : bool :=
  match s with
  | EmptyString => true
  | String c t => negb (Ascii.eqb c sep) && free_of sep t
  end.

End PyStr.

(** ** [insightfinder/auth.py] *)

Module AuthFile.

(** [Auth.__init__] *)
Definition new_Auth : LLMLabs.Auth :=
  {| LLMLabs.username := JNull; LLMLabs.api_key := JNull |}.

(** [Auth.set_credentials]: the object after the call. *)
Definition set_credentials (username api_key : pyval) (self : LLMLabs.Auth) : LLMLabs.Auth :=
  {| LLMLabs.username := username; LLMLabs.api_key := api_key |}.

(** [Auth.get_credentials] *)
Definition get_credentials (self : LLMLabs.Auth) : pyval * pyval :=
  (LLMLabs.username self, LLMLabs.api_key self).

(** [Auth.is_authenticated] *)
Definition is_authenticated (self : LLMLabs.Auth) : bool :=
  negb (is_null (LLMLabs.username self)) && negb (is_null (LLMLabs.api_key self)).

(** A sequence of [set_credentials] calls on one object. *)
Definition set_all (calls : list (pyval * pyval)) (self : LLMLabs.Auth) : LLMLabs.Auth :=
  foldl (fun a call => set_credentials (fst call) (snd call) a) self calls.

End AuthFile.

(** ** [insightfinderai/model/chat_response.py] *)

Module ModelChatResponse.

(** Lines 58-67 of [_extract_model_version]: the fallback. *)
Definition fallback (project_name : string) : option string :=
  let parts := PyStr.split "-" project_name in
  if (length parts <? 2)%nat then Some project_name
  else if (1 <? length parts)%nat then Some (PyStr.join "-" (tail parts))
  else None.

(** [ChatResponse._extract_model_version], lines 31-70, for a [str]
    project name and a session name that is a [str] or [None]; on such
    arguments nothing in its body raises.  The slices are taken under
    guards that make the part cut off ASCII, where bytes and characters
    coincide. *)
Definition extract_model_version (project_name : string) (session_name : option string)
  : option string :=
  if String.eqb project_name "" then None
  else
    let project_name :=
      if PyStr.endswith "-Prompt" project_name then PyStr.drop_end 7 project_name
      else project_name in
    let project_name :=
      if PyStr.endswith "-llmTrace" project_name then PyStr.drop_end 9 project_name
      else project_name in
    match session_name with
    | Some s =>
        if negb (String.eqb s "") && Str.startswith (s +:+ "-") project_name then
          let model_version := Str.drop (String.length s + 1) project_name in
          if String.eqb model_version "" then None else Some model_version
        else fallback project_name
    | None => fallback project_name
    end.

End ModelChatResponse.

(** ** [Client.__init__] and [Client._get_project_name] *)

Module ClientInit.

Section WithConfig.

(** The constants of [insightfinderai/config.py]. *)
Variables DEFAULT_API_URL CHATBOT_ENDPOINT EVALUATION_ENDPOINT
          SAFETY_EVALUATION_ENDPOINT TRACE_PROJECT_NAME_ENDPOINT : string.

(** [os.getenv] and [requests.post]. *)
Variable getenv : string → option string.
Variable post : Request → result Response.

(** [a or b] for an optional [str] and the value of [os.getenv]. *)
Definition or_env (a : option string) (b : option string) : option string :=
  match a with
  | Some s => if String.eqb s "" then b else Some s
  | None => b
  end.

(** [not v] for an optional [str]. *)
Definition missing (v : option string) : bool :=
  match v with
  | Some s => String.eqb s ""
  | None => true
  end.

(** Lines 186-188: the base URL. *)
Definition base_url (url : option string) : string :=
  let base := if missing url then DEFAULT_API_URL else default "" url in
  if negb (PyStr.endswith "/" base) then base +:+ "/" else base.

Definition trace_project_name_url (url : option string) : string :=
  base_url url +:+ TRACE_PROJECT_NAME_ENDPOINT.

(** Lines 222-231: the request of [_get_project_name]. *)
Definition project_name_request (url : option string) (self : Client.client) : Request :=
  {| req_url := trace_project_name_url url;
     req_headers := Client.get_headers self;
     req_json := JObj [("userCreatedModelName", JStr (Client.session_name self))];
     req_stream := false |}.

(** [Client._get_project_name], lines 215-243, on the object under
    construction. *)
Definition get_project_name (url : option string) (self : Client.client) : result string :=
  Client.wrap_request_error "Failed to get trace project name: "
    match post (project_name_request url self) with
    | inl e => inl e
    | inr response =>
        if negb (Client.is_2xx (status_code response)) then
          inl (Client.api_error "Trace project name API error " response)
        else inr (Str.strip (text response) +:+ "-Prompt")
    end.

(** The object once every attribute but [project_name] is assigned. *)
Definition under_construction (session_name username api_key : string)
    (url : option string) (enable_chat_evaluation : bool) : Client.client :=
  {| Client.username := username; Client.api_key := api_key;
     Client.session_name := session_name;
     Client.enable_evaluations := enable_chat_evaluation;
     Client.chat_url := base_url url +:+ CHATBOT_ENDPOINT;
     Client.evaluation_url := base_url url +:+ EVALUATION_ENDPOINT;
     Client.safety_url := base_url url +:+ SAFETY_EVALUATION_ENDPOINT;
     Client.project_name := "" |}.

Definition set_project_name (name : string) (self : Client.client) : Client.client :=
  {| Client.username := Client.username self; Client.api_key := Client.api_key self;
     Client.session_name := Client.session_name self;
     Client.enable_evaluations := Client.enable_evaluations self;
     Client.chat_url := Client.chat_url self;
     Client.evaluation_url := Client.evaluation_url self;
     Client.safety_url := Client.safety_url self;
     Client.project_name := name |}.

(** [Client.__init__], lines 134-197: the object, or the exception. *)
Definition new_Client (session_name : string) (url username api_key : option string)
    (enable_chat_evaluation : bool) : result Client.client :=
  let username := or_env username (getenv "INSIGHTFINDER_USERNAME") in
  let api_key := or_env api_key (getenv "INSIGHTFINDER_API_KEY") in
  if missing username then
    raise ValueError "Username must be provided either as parameter or INSIGHTFINDER_USERNAME environment variable"
  else if missing api_key then
    raise ValueError "API key must be provided either as parameter or INSIGHTFINDER_API_KEY environment variable"
  else if String.eqb session_name "" then
    raise ValueError "Session name cannot be empty"
  else
    let self := under_construction session_name (default "" username) (default "" api_key)
                  url enable_chat_evaluation in
    match get_project_name url self with
    | inl e => inl e
    | inr name => inr (set_project_name name self)
    end.

End WithConfig.

End ClientInit.

(** ** [__str__] and [format_for_chat] of [insightfinderai/client.py] *)

Module Display.

Section WithStr.

(** [str(v)], which is what an f-string makes of [{v}]. *)
Variable str : pyval → string.

Definition nl : string := Str.newline.

(** ["-" * 40] *)
Definition rule : string := PyStr.repeat "-" 40.

(** Lines 45-54 of [__str__] and lines 70-79 of [format_for_chat], which
    are the same text: the loop over [enumerate(self.evaluations, 1)],
    from item [i] on; [len] is [len(self.evaluations)]. *)
Fixpoint format_items (i len : nat) (items : list pyval) (text : string) : result string :=
  match items with
  | [] => inr text
  | eval_item :: rest =>
      match Py.get eval_item "evaluationType" (JStr "Unknown") with
      | inl e => inl e
      | inr eval_type =>
          match Py.get eval_item "score" (JInt 0) with
          | inl e => inl e
          | inr score =>
              match Py.get eval_item "explanation" (JStr "No explanation provided") with
              | inl e => inl e
              | inr explanation =>
                  let text := text +:+ (Str.of_int (Z.of_nat i) +:+ ". Type        : "
                                        +:+ str eval_type +:+ nl) in
                  let text := text +:+ ("   Score       : " +:+ str score +:+ nl) in
                  let text := text +:+ ("   Explanation : " +:+ str explanation +:+ nl) in
                  let text := if (i <? len)%nat then text +:+ nl else text in
                  format_items (S i) len rest text
              end
          end
      end
  end.

(** The loop, entered with [text] built so far. *)
Definition format_evaluations (evaluations : pyval) (text : string) : result string :=
  match Py.iter evaluations with
  | inl e => inl e
  | inr items => format_items 1 (length items) items text
  end.

(** Lines 25-38 of [EvaluationResult.__str__]: what precedes the
    evaluations. *)
Definition evaluation_heading (self : Client.EvaluationResult) : string :=
  let text := "[Evaluation Results]" +:+ nl in
  let text := text +:+ ("Trace ID : " +:+ str (Client.er_trace_id self) +:+ nl) in
  let text := text +:+ nl in
  let text :=
    if Py.truthy (Client.er_prompt self) then
      let text := text +:+ ("Prompt:" +:+ nl) in
      let text := text +:+ (">> " +:+ str (Client.er_prompt self) +:+ nl) in
      text +:+ nl
    else text in
  if Py.truthy (Client.er_response self) then
    let text := text +:+ ("Response:" +:+ nl) in
    let text := text +:+ (">> " +:+ str (Client.er_response self) +:+ nl) in
    text +:+ nl
  else text.

(** [EvaluationResult.__str__], lines 23-60. *)
Definition EvaluationResult_str (self : Client.EvaluationResult) : result string :=
  let text := evaluation_heading self in
  if Py.truthy (Client.er_evaluations self) then
    let text := text +:+ ("Evaluations:" +:+ nl) in
    let text := text +:+ (rule +:+ nl) in
    format_evaluations (Client.er_evaluations self) text
  else
    let text := text +:+ ("Evaluations:" +:+ nl) in
    let text := text +:+ (rule +:+ nl) in
    inr (text +:+ "PASSED").

(** [EvaluationResult.format_for_chat], lines 62-81. *)
Definition format_for_chat (self : Client.EvaluationResult) : result string :=
  if negb (Py.truthy (Client.er_evaluations self)) then
    inr (("Evaluations:" +:+ nl) +:+ rule +:+ (nl +:+ "PASSED"))
  else
    let text := "Evaluations:" +:+ nl in
    let text := text +:+ (rule +:+ nl) in
    format_evaluations (Client.er_evaluations self) text.

(** Lines 97-108 of [ChatResponse.__str__]: what precedes the
    evaluations. *)
Definition chat_heading (self : Client.ChatResponse) : string :=
  let text := "[Chat Response]" +:+ nl in
  let text := text +:+ ("Trace ID : "
                        +:+ str (Py.or_ (Client.cr_trace_id self) (JStr "N/A")) +:+ nl) in
  let text := text +:+ ("Model    : "
                        +:+ str (Py.or_ (Client.cr_model self) (JStr "Unknown")) +:+ nl) in
  let text := text +:+ nl in
  let text :=
    if Py.truthy (Client.cr_prompt self) then
      let text := text +:+ ("Prompt:" +:+ nl) in
      let text := text +:+ (">> " +:+ str (Client.cr_prompt self) +:+ nl) in
      text +:+ nl
    else text in
  let text := text +:+ ("Response:" +:+ nl) in
  text +:+ (">> " +:+ Client.cr_response self +:+ nl).

(** Lines 115-117: what is added for evaluations that are enabled and
    absent. *)
Definition passed (text : string) : string :=
  let text := text +:+ (nl +:+ nl +:+ "Evaluations:" +:+ nl) in
  let text := text +:+ (rule +:+ nl) in
  text +:+ "PASSED".

(** [ChatResponse.__str__], lines 95-119.  An [EvaluationResult] is a
    true value, as the class defines neither [__bool__] nor [__len__]. *)
Definition ChatResponse_str (self : Client.ChatResponse) : result string :=
  let text := chat_heading self in
  match Client.cr_evaluations self with
  | Some evaluations =>
      if Py.truthy (Client.er_evaluations evaluations) then
        match format_for_chat evaluations with
        | inl e => inl e
        | inr block => inr (text +:+ (nl +:+ block))
        end
      else if Client.cr_enable_evaluations self then inr (passed text)
      else inr text
  | None =>
      if Client.cr_enable_evaluations self then inr (passed text)
      else inr text
  end.

End WithStr.

End Display.

Module MoreExamples.

(** A standard output that takes every text, as one opened with
    [errors='backslashreplace'] does. *)
Definition lenient (out : list string) (s : string) : option exn := None.

(** The evaluation payload of the specification in three fragments. *)
Definition opening : string := wire "{'evaluations':[{'evaluationType':'toxicity',".
Definition middle : string := wire "'score':0.1,".
Definition closing : string := wire "'explanation':'ok'}],'traceId':'abc'}".

(** A server that answers with the two chunks of [Examples.hello_lines]. *)
Definition hello_world : Client.world :=
  Examples.serving (Examples.ok_stream Examples.hello_lines None).

(** Two chunks that carry an [id] and a third that carries none. *)
Definition id_lines : list string :=
  [wire "data: {'id':'t1','choices':[{'delta':{'content':'Hel'}}]}";
   wire "data: {'id':'t2','choices':[{'delta':{'content':'lo'}}]}";
   wire "data: {'model':'m'}"].

(** [str] on the values that the examples display: a string, [None], a
    boolean and an integer; the examples display no other value. *)
Definition str_scalar (v : pyval) : string :=
  match v with
  | JStr s => s
  | JNull => "None"
  | JBool true => "True"
  | JBool false => "False"
  | JInt z => Str.of_int z
  | _ => "?"
  end.

(** A chunk that closes a body: an [id] and no choices. *)
Definition closing_line : string := wire "data: {'id':'final'}".

(** A server that cannot be reached. *)
Definition refused : exn := Exn ConnectionError "Connection refused".

Definition unreachable : Client.world :=
  {| Client.post := fun _ => inl refused;
     Client.uuid4 := "3f2b8c1e-5d4a-4e6f-9a7b-0c1d2e3f4a5b";
     Client.timestamp := 1700000000000 |}.

(** A reply whose body is JSON and not an object. *)
Definition list_reply : Response :=
  {| status_code := 200; text := "[]"; lines := []; broken := None |}.

(** [Examples.a_client] with evaluations disabled. *)
Definition plain_client : Client.client :=
  {| Client.username := "user"; Client.api_key := "key";
     Client.session_name := "session"; Client.enable_evaluations := false;
     Client.chat_url := "https://ai.insightfinder.com/chat";
     Client.evaluation_url := "https://ai.insightfinder.com/evaluation";
     Client.safety_url := "https://ai.insightfinder.com/safety";
     Client.project_name := "project-Prompt" |}.

(** A server that answers with the evaluation payload in two fragments. *)
Definition evaluating_world : Client.world :=
  Examples.serving (Examples.ok_stream Examples.split_fragments None).

(** Values for the constants of [insightfinderai/config.py], which the
    properties of the constructor leave open, with an environment and a
    server. *)
Definition api_url : string := "https://ai.insightfinder.com".
Definition chatbot_endpoint : string := "api/external/v1/chatbot/stream-with-type".
Definition evaluation_endpoint : string := "api/external/v1/evaluation".
Definition safety_endpoint : string := "api/external/v1/safety-evaluation".
Definition trace_endpoint : string := "api/external/v1/trace-project-name".

Definition environment (name : string) : option string :=
  if String.eqb name "INSIGHTFINDER_USERNAME" then Some "env-user"
  else if String.eqb name "INSIGHTFINDER_API_KEY" then Some "env-key"
  else None.

Definition project_reply : Response :=
  {| status_code := 200;
     text := " demo-gpt-4o-mini-llmTrace" +:+ Str.newline;
     lines := []; broken := None |}.

Definition construct (url username api_key : option string) : result Client.client :=
  ClientInit.new_Client api_url chatbot_endpoint evaluation_endpoint safety_endpoint
    trace_endpoint environment (fun _ => inr project_reply)
    "demo" url username api_key true.

End MoreExamples.

(** * Theory *)

(** ** Blocks of statements *)

Section Blocks.

Context {S : Type}.

Lemma exec_bind {A B} (m : M S A) (k : A → M S B) s :
  exec (bind m k) s =
  match m s with
  | (s', inr a) => exec (k a) s'
  | (s', inl _) => s'
  end.
Proof. unfold exec, bind. destruct (m s) as [s' [e|a]]; reflexivity. Qed.

Lemma for_each_app {A} (l1 l2 : list A) (body : A → M S unit) s :
  for_each (l1 ++ l2) body s =
  match for_each l1 body s with
  | (s', inr _) => for_each l2 body s'
  | (s', inl e) => (s', inl e)
  end.
Proof.
  revert s. induction l1 as [|x l1 IH]; intros s; simpl.
  - reflexivity.
  - unfold bind. destruct (body x s) as [s' [e|[]]]; [reflexivity|]. apply IH.
Qed.

(** A loop whose body never raises is a fold. *)
Lemma for_each_total {A} (l : list A) (body : A → M S unit) s :
  (∀ x s, snd (body x s) = inr tt) →
  for_each l body s = (foldl (fun s x => exec (body x) s) s l, inr tt).
Proof.
  intros Hbody. revert s. induction l as [|x l IH]; intros s; simpl.
  - reflexivity.
  - unfold bind, exec. specialize (Hbody x s).
    destruct (body x s) as [s' r]; simpl in *. subst r. apply IH.
Qed.

Section Steps.

Context (R : relation S) `{!PreOrder R}.

Lemma steps_ret {A} (a : A) : steps R (ret a).
Proof. intros s. reflexivity. Qed.

Lemma steps_lift {A} (r : result A) : steps R (lift r).
Proof. intros s. reflexivity. Qed.

Lemma steps_gets {A} (f : S → A) : steps R (gets f).
Proof. intros s. reflexivity. Qed.

Lemma steps_modify (f : S → S) : (∀ s, R s (f s)) → steps R (modify f).
Proof. intros H s. apply H. Qed.

Lemma steps_bind {A B} (m : M S A) (k : A → M S B) :
  steps R m → (∀ a, steps R (k a)) → steps R (bind m k).
Proof.
  intros Hm Hk s. unfold bind. specialize (Hm s).
  destruct (m s) as [s' [e|a]]; simpl in *; [assumption|].
  etrans; [exact Hm | apply Hk].
Qed.

Lemma steps_try_except {A} (m : M S A) cls (h : exn → M S A) :
  steps R m → (∀ e, steps R (h e)) → steps R (try_except m cls h).
Proof.
  intros Hm Hh s. unfold try_except. specialize (Hm s).
  destruct (m s) as [s' [e|a]]; simpl in *; [|assumption].
  destruct (isinstance e cls); [|assumption].
  etrans; [exact Hm | apply Hh].
Qed.

Lemma steps_try_pass (m : M S unit) : steps R m → steps R (try_pass m).
Proof. intros Hm s. apply Hm. Qed.

Lemma steps_when (b : bool) (m : M S unit) : steps R m → steps R (when b m).
Proof. intros Hm. destruct b; [assumption | apply steps_ret]. Qed.

Lemma steps_for_each {A} (l : list A) (body : A → M S unit) :
  (∀ x, steps R (body x)) → steps R (for_each l body).
Proof.
  intros Hb. induction l as [|x l IH]; simpl.
  - apply steps_ret.
  - apply steps_bind; [apply Hb | intros _; exact IH].
Qed.

End Steps.

End Blocks.

#[export] Instance keeps_preorder {S X} (f : S → X) : PreOrder (keeps f).
Proof. split; [intros s; reflexivity | intros a b c H1 H2; unfold keeps in *; congruence]. Qed.

Ltac steps_step :=
  lazymatch goal with
  | |- steps _ (ret _) => apply steps_ret
  | |- steps _ (lift _) => apply steps_lift
  | |- steps _ (gets _) => apply steps_gets
  | |- steps _ (bind _ _) => apply steps_bind; [..|intros ?]
  | |- steps _ (try_except _ _ _) => apply steps_try_except; [..|intros ?]
  | |- steps _ (try_pass _) => apply steps_try_pass
  | |- steps _ (when _ _) => apply steps_when
  | |- steps _ (for_each _ _) => apply steps_for_each; [..|intros ?]
  | |- steps _ (modify _) =>
      apply steps_modify; [..|intros ?; unfold keeps; try reflexivity; auto]
  | |- steps _ (if ?b then _ else _) => destruct b
  | |- steps _ (match ?x with _ => _ end) => destruct x
  | |- PreOrder _ => typeclasses eauto
  end.

Ltac steps_tac := repeat steps_step.

(** ** Values *)

Lemma append_cons c s t : String c s +:+ t = String c (s +:+ t).
Proof. reflexivity. Qed.

Lemma append_nil_r s : s +:+ "" = s.
Proof. induction s as [|c s IH]; [reflexivity | by rewrite append_cons, IH]. Qed.

Lemma append_assoc (a b c : string) : (a +:+ b) +:+ c = a +:+ (b +:+ c).
Proof. induction a as [|x a IH]; [reflexivity | by rewrite !append_cons, IH]. Qed.

Lemma join_app l1 l2 : join (l1 ++ l2) = join l1 +:+ join l2.
Proof.
  unfold join. induction l1 as [|x l1 IH]; [reflexivity|].
  cbn [foldr app]. by rewrite IH, append_assoc.
Qed.

Lemma capture_true m vs : Py.truthy m = true → capture m vs = m.
Proof.
  intros Hm. induction vs as [|v vs IH]; simpl; [reflexivity|].
  unfold capture in *. simpl. by rewrite Hm.
Qed.

Lemma capture_false m vs :
  Py.truthy m = false →
  capture m vs =
  match List.find Py.truthy vs with
  | Some v => v
  | None => default m (last vs)
  end.
Proof.
  revert m. induction vs as [|v vs IH]; intros m Hm; [reflexivity|].
  unfold capture in *. simpl. rewrite Hm.
  destruct (Py.truthy v) eqn:Hv.
  - apply (capture_true v vs Hv).
  - rewrite (IH v Hv). destruct (List.find Py.truthy vs); [reflexivity|].
    destruct vs as [|w vs]; [reflexivity|]. rewrite last_cons_cons.
    destruct (last (w :: vs)) eqn:E; [reflexivity|].
    apply last_None in E. discriminate.
Qed.

Lemma capture_first_true_else_last vs : capture JNull vs = first_true_else_last vs.
Proof. by rewrite capture_false. Qed.

Lemma foldl_offer chunks m :
  foldl (fun m c => offer c m) m chunks = capture m (omap chunk_model chunks).
Proof.
  revert m. induction chunks as [|c chunks IH]; intros m; [reflexivity|].
  simpl. rewrite IH. unfold offer.
  destruct (chunk_model c) as [v|]; simpl.
  - unfold capture. simpl. reflexivity.
  - by destruct (Py.truthy m).
Qed.

Lemma chunk_fragments_choices chunk fs :
  chunk_fragments chunk = Some fs →
  mapM choice_content (chunk_choices chunk) = Some fs.
Proof.
  destruct chunk as [| | | | | | |?|kvs]; try discriminate. simpl.
  unfold chunk_choices, Py.has_key. simpl. unfold Py.has_key.
  destruct (Py.dict_lookup kvs "choices") as [v|] eqn:Hl; simpl; [|done].
  destruct v; try discriminate. done.
Qed.

Lemma line_chunk_payload loads line p :
  line_payload line = Some p → line_chunk loads line = loads p.
Proof. unfold line_chunk. by intros ->. Qed.

(** ** [LLMLabsClient.chat] *)

Module LLMLabsFacts.
Import LLMLabs.

Section WithDecoder.

Variable loads : string → option pyval.

Lemma labs_process_line_total line l : snd (process_line loads line l) = inr tt.
Proof.
  unfold process_line, when.
  destruct (_ && _); [|reflexivity].
  destruct (_ && _); [|reflexivity].
  unfold try_except.
  destruct (bind _ _ l) as [l' [e|[]]]; reflexivity.
Qed.

Lemma labs_exec_process_line line l :
  exec (process_line loads line) l =
  match line_chunk loads line with
  | Some chunk => exec (process_chunk loads chunk) l
  | None => l
  end.
Proof.
  unfold process_line, line_chunk, line_payload, when.
  destruct (_ && _); [|reflexivity].
  destruct (_ && _); [|reflexivity]. simpl.
  unfold exec, try_except, bind at 1, lift, Py.json_loads.
  destruct (loads _) as [chunk|]; simpl; [|reflexivity].
  destruct (process_chunk loads chunk l) as [l' [e|[]]]; reflexivity.
Qed.

Lemma labs_run_lines ls l :
  for_each ls (process_line loads) l =
  (foldl (fun l line => exec (process_line loads line) l) l ls, inr tt).
Proof. apply for_each_total. intros; apply labs_process_line_total. Qed.

Lemma labs_process_choice_keeps_results c : steps (keeps results) (process_choice loads c).
Proof. unfold process_choice. steps_tac. Qed.

Lemma labs_process_choice_keeps_model c : steps (keeps l_model) (process_choice loads c).
Proof. unfold process_choice. steps_tac. Qed.

Lemma labs_process_chunk_results chunk l :
  results (exec (process_chunk loads chunk) l) = results l ++ [chunk].
Proof.
  unfold process_chunk. rewrite exec_bind. simpl.
  assert (steps (keeps results) (extract_metadata chunk ;; process_choices loads chunk)) as H.
  { unfold extract_metadata, process_choices. steps_tac.
    apply labs_process_choice_keeps_results. }
  specialize (H (append_result chunk l)). apply H.
Qed.

Lemma labs_extract_metadata_model chunk l :
  l_model (exec (extract_metadata chunk) l) = offer chunk (l_model l).
Proof.
  unfold offer, extract_metadata, exec, bind, gets. simpl.
  destruct (Py.truthy (l_model l)) eqn:Hm; simpl.
  - unfold lift. destruct (Py.contains "id" chunk) as [e|[]]; simpl; try reflexivity.
    destruct (Py.getitem chunk "id"); reflexivity.
  - destruct chunk as [| | | | | | s | items | kvs]; simpl; try reflexivity.
    + destruct (Str.contains "model" s); simpl; [reflexivity|].
      destruct (Str.contains "id" s); reflexivity.
    + destruct (existsb _ items); simpl; [reflexivity|].
      destruct (existsb _ items); reflexivity.
    + unfold Py.has_key.
      destruct (Py.dict_lookup kvs "model") as [v|]; simpl;
        destruct (Py.dict_lookup kvs "id"); reflexivity.
Qed.

Lemma labs_process_chunk_model chunk l :
  l_model (exec (process_chunk loads chunk) l) = offer chunk (l_model l).
Proof.
  unfold process_chunk. rewrite exec_bind. simpl. rewrite exec_bind.
  pose proof (labs_extract_metadata_model chunk (append_result chunk l)) as Hm.
  unfold exec in Hm.
  destruct (extract_metadata chunk (append_result chunk l)) as [l1 [e|[]]]; simpl in *;
    [exact Hm|].
  rewrite <- Hm.
  assert (steps (keeps l_model) (process_choices loads chunk)) as H.
  { unfold process_choices. steps_tac. apply labs_process_choice_keeps_model. }
  apply H.
Qed.

Lemma labs_run_results ls l :
  results (foldl (fun l line => exec (process_line loads line) l) l ls)
  = results l ++ chunks_of loads ls.
Proof.
  revert l. induction ls as [|line ls IH]; intros l; simpl.
  - by rewrite app_nil_r.
  - rewrite IH, labs_exec_process_line. unfold chunks_of. simpl.
    destruct (line_chunk loads line) as [chunk|]; [|reflexivity].
    rewrite labs_process_chunk_results, <- app_assoc. reflexivity.
Qed.

Lemma labs_run_model ls l :
  l_model (foldl (fun l line => exec (process_line loads line) l) l ls)
  = capture (l_model l) (models_of loads ls).
Proof.
  unfold models_of. rewrite <- foldl_offer.
  revert l. induction ls as [|line ls IH]; intros l; simpl; [reflexivity|].
  rewrite IH, labs_exec_process_line. unfold chunks_of. simpl.
  destruct (line_chunk loads line) as [chunk|]; [|reflexivity].
  simpl. by rewrite labs_process_chunk_model.
Qed.

(** The loop over the choices, for any chunk. *)
Lemma labs_exec_process_choices chunk l :
  exec (process_choices loads chunk) l
  = exec (for_each (chunk_choices chunk) (process_choice loads)) l.
Proof.
  unfold process_choices, chunk_choices, exec, bind, lift, when.
  destruct (Py.contains "choices" chunk) as [e|[]]; simpl; try reflexivity.
  destruct (Py.getitem chunk "choices") as [e|v]; simpl; [reflexivity|].
  destruct (Py.iter v) as [e|cs]; reflexivity.
Qed.

(** The metadata of an object are read without an exception. *)
Lemma labs_extract_metadata_object kvs l : snd (extract_metadata (JObj kvs) l) = inr tt.
Proof.
  unfold extract_metadata, bind, gets, lift, when, Py.contains, Py.getitem, Py.has_key.
  destruct (negb _); simpl;
    destruct (Py.dict_lookup kvs "model"); simpl;
    destruct (Py.dict_lookup kvs "id"); reflexivity.
Qed.

Lemma labs_extract_metadata_keeps_response chunk :
  steps (keeps stitched_response) (extract_metadata chunk).
Proof. unfold extract_metadata. steps_tac. Qed.

Lemma labs_append_response_nil l : append_response "" l = l.
Proof. destruct l. unfold append_response. simpl. by rewrite append_nil_r. Qed.

Lemma labs_append_response_append a b l :
  append_response b (append_response a l) = append_response (a +:+ b) l.
Proof. unfold append_response. simpl. by rewrite append_assoc. Qed.

Lemma labs_process_choice_plain c s l :
  choice_content c = Some s → Str.starts_evaluation s = false →
  process_choice loads c l = (append_response s l, inr tt).
Proof.
  intros Hc Hs. unfold choice_content in Hc. unfold process_choice, bind, lift.
  destruct c as [| | | | | | | |kvs]; try discriminate. simpl.
  destruct (default (JObj []) (Py.dict_lookup kvs "delta")) as [| | | | | | | |d];
    try discriminate. simpl.
  destruct (default (JStr "") (Py.dict_lookup d "content")); try discriminate.
  injection Hc as ->. by rewrite Hs.
Qed.

Lemma labs_choices_plain cs fs l :
  mapM choice_content cs = Some fs →
  Forall (fun s => Str.starts_evaluation s = false) fs →
  for_each cs (process_choice loads) l = (append_response (join fs) l, inr tt).
Proof.
  revert fs l. induction cs as [|c cs IH]; intros fs l Hfs Hplain.
  - injection Hfs as <-. simpl. by rewrite labs_append_response_nil.
  - rewrite mapM_Some in Hfs. destruct fs as [|f fs]; [inversion Hfs|].
    apply Forall2_cons_1 in Hfs as [Hc Hfs]. apply mapM_Some in Hfs.
    apply Forall_cons in Hplain as [Hf Hplain].
    simpl. unfold bind. rewrite (labs_process_choice_plain c f l Hc Hf).
    rewrite (IH fs _ Hfs Hplain). by rewrite labs_append_response_append.
Qed.

Lemma labs_process_chunk_plain chunk fs l :
  chunk_fragments chunk = Some fs →
  Forall (fun s => Str.starts_evaluation s = false) fs →
  stitched_response (exec (process_chunk loads chunk) l)
  = stitched_response l +:+ join fs.
Proof.
  intros Hfs Hplain. unfold process_chunk. rewrite exec_bind. simpl. rewrite exec_bind.
  assert (∃ kvs, chunk = JObj kvs) as [kvs ->].
  { destruct chunk; try discriminate. eauto. }
  pose proof (labs_extract_metadata_object kvs (append_result (JObj kvs) l)) as Hok.
  pose proof (labs_extract_metadata_keeps_response (JObj kvs) (append_result (JObj kvs) l)) as Hk.
  destruct (extract_metadata _ _) as [l1 r]. simpl in Hok, Hk. subst r.
  rewrite labs_exec_process_choices.
  apply chunk_fragments_choices in Hfs.
  unfold exec. rewrite (labs_choices_plain _ fs l1 Hfs Hplain). simpl.
  unfold keeps in Hk. simpl in Hk. by rewrite Hk.
Qed.

Lemma labs_run_plain ls l :
  Forall (valid_line loads) ls →
  Forall (fun s => Str.starts_evaluation s = false) (fragments_of loads ls) →
  stitched_response (foldl (fun l line => exec (process_line loads line) l) l ls)
  = stitched_response l +:+ join (fragments_of loads ls).
Proof.
  revert l. induction ls as [|line ls IH]; intros l Hvalid Hplain.
  - simpl. unfold fragments_of. simpl. by rewrite append_nil_r.
  - apply Forall_cons in Hvalid as [Hline Hvalid].
    simpl. rewrite labs_exec_process_line.
    unfold fragments_of, chunks_of in *. simpl in *.
    unfold valid_line in Hline. unfold line_chunk in *.
    destruct (line_payload line) as [p|]; simpl in *; [|by apply IH].
    destruct Hline as (chunk & fs & Hl & Hfs). rewrite Hl in *. simpl in *.
    rewrite Hfs in *. simpl in *.
    apply Forall_app in Hplain as [Hfs_plain Hplain].
    rewrite (IH _ Hvalid Hplain), (labs_process_chunk_plain chunk fs l Hfs Hfs_plain).
    by rewrite join_app, append_assoc.
Qed.

End WithDecoder.
End LLMLabsFacts.

(** ** [Client.chat] *)

Module ClientFacts.
Import Client.

Section WithDecoder.

Variable loads : string → option pyval.
Variable write : list string → string → option exn.

Lemma process_line_total stream line l : snd (process_line loads write stream line l) = inr tt.
Proof.
  unfold process_line, when.
  destruct (_ && _); [|reflexivity].
  destruct (_ && _); reflexivity.
Qed.

Lemma exec_process_line stream line l :
  exec (process_line loads write stream line) l =
  match line_chunk loads line with
  | Some chunk => exec (process_chunk loads write stream chunk) l
  | None => l
  end.
Proof.
  unfold process_line, line_chunk, line_payload, when.
  destruct (_ && _); [|reflexivity].
  destruct (_ && _); [|reflexivity]. simpl.
  unfold exec, try_pass, bind at 1, lift, Py.json_loads. simpl.
  destruct (loads _) as [chunk|]; reflexivity.
Qed.

Lemma run_lines stream ls l :
  for_each ls (process_line loads write stream) l = (run loads write stream ls l, inr tt).
Proof. apply for_each_total. intros; apply process_line_total. Qed.

Lemma run_cons stream line ls l :
  run loads write stream (line :: ls) l = run loads write stream ls (exec (process_line loads write stream line) l).
Proof. reflexivity. Qed.

Lemma run_app stream ls1 ls2 l :
  run loads write stream (ls1 ++ ls2) l = run loads write stream ls2 (run loads write stream ls1 l).
Proof. apply foldl_app. Qed.

Lemma assemble_run stream ls : assemble loads write stream ls = assembled (run loads write stream ls init).
Proof. unfold assemble, exec. by rewrite run_lines. Qed.

(** *** One fragment *)

Lemma try_commit_pending l :
  loads (evaluation_buffer l) = None → try_commit loads l = (l, inr tt).
Proof.
  intros H. unfold try_commit, try_except, bind, gets, lift, Py.json_loads. simpl.
  by rewrite H.
Qed.

Lemma try_commit_object l kvs :
  loads (evaluation_buffer l) = Some (JObj kvs) →
  try_commit loads l =
  (set_block false ""
     (set_trace_id (default (l_trace_id l) (Py.dict_lookup kvs "traceId"))
        (set_evaluations (default JNull (Py.dict_lookup kvs "evaluations")) l)),
   inr tt).
Proof.
  intros H. unfold try_commit, try_except, bind, gets, lift, Py.json_loads. simpl.
  by rewrite H.
Qed.

Lemma try_commit_other l v :
  loads (evaluation_buffer l) = Some v → (∀ kvs, v ≠ JObj kvs) →
  ∃ e, try_commit loads l = (l, inl e).
Proof.
  intros H Hv. unfold try_commit, try_except, bind, gets, lift, Py.json_loads. simpl.
  rewrite H. destruct v; simpl; eauto. by destruct (Hv members).
Qed.

Lemma process_content_start stream s l :
  Str.starts_evaluation s = true →
  process_content loads write stream s l = (set_block true s l, inr tt).
Proof. intros H. unfold process_content. by rewrite H. Qed.

Lemma process_content_accumulate stream s l :
  Str.starts_evaluation s = false → in_evaluation_block l = true →
  process_content loads write stream s l = try_commit loads (append_buffer s l).
Proof.
  intros H Hb. unfold process_content. rewrite H.
  unfold bind at 1, gets. simpl. rewrite Hb. reflexivity.
Qed.

Lemma process_content_plain stream s l :
  Str.starts_evaluation s = false → in_evaluation_block l = false →
  process_content loads write stream s l = echo write stream s (append_response s l).
Proof.
  intros H Hb. unfold process_content. rewrite H.
  unfold bind at 1, gets. cbn [fst snd]. rewrite Hb. reflexivity.
Qed.

(** An echo changes what has been printed and nothing else. *)
Lemma echo_keeps {X} (f : locals → X) stream s :
  (∀ t l, f (written t l) = f l) → steps (keeps f) (echo write stream s).
Proof. intros Hf. unfold echo, print. steps_tac. Qed.

(** An echo that is not refused. *)
Lemma echo_shown stream s l :
  echo_succeeds write stream → echo write stream s l = (shown stream s l, inr tt).
Proof.
  unfold echo, shown, print, when. intros [->|Hw]; [reflexivity|].
  destruct (stream && _); [|reflexivity].
  unfold bind, gets. cbn [fst snd]. by rewrite Hw.
Qed.

(** A fragment taken as part of an evaluation payload leaves the response
    alone; any other is appended to it. *)
Lemma process_content_response stream s l :
  stitched_response (exec (process_content loads write stream s) l)
  = stitched_response l +:+
    (if Str.starts_evaluation s || in_evaluation_block l then "" else s).
Proof.
  unfold exec. destruct (Str.starts_evaluation s) eqn:Hs; simpl.
  - rewrite process_content_start by done. simpl. by rewrite append_nil_r.
  - destruct (in_evaluation_block l) eqn:Hb.
    + rewrite process_content_accumulate by done. rewrite append_nil_r.
      assert (steps (keeps stitched_response) (try_commit loads)) as H.
      { unfold try_commit. steps_tac. }
      apply (H (append_buffer s l)).
    + rewrite process_content_plain by done.
      by rewrite (echo_keeps stitched_response stream s (fun _ _ => eq_refl)).
Qed.

(** While a block stays open the evaluations do not change. *)
Lemma process_content_open stream s l :
  in_evaluation_block (exec (process_content loads write stream s) l) = true →
  l_evaluations (exec (process_content loads write stream s) l) = l_evaluations l.
Proof.
  unfold exec. destruct (Str.starts_evaluation s) eqn:Hs.
  { rewrite process_content_start by done. reflexivity. }
  destruct (in_evaluation_block l) eqn:Hb.
  - rewrite process_content_accumulate by done.
    destruct (loads (evaluation_buffer (append_buffer s l))) as [v|] eqn:Hl.
    + assert ((∃ kvs, v = JObj kvs) ∨ ∀ kvs, v ≠ JObj kvs) as [[kvs ->]|Hv].
      { destruct v; eauto; right; discriminate. }
      * rewrite (try_commit_object _ kvs Hl). discriminate.
      * destruct (try_commit_other _ v Hl Hv) as [e ->]. reflexivity.
    + rewrite (try_commit_pending _ Hl). reflexivity.
  - rewrite process_content_plain by done. intros _.
    by rewrite (echo_keeps l_evaluations stream s (fun _ _ => eq_refl)).
Qed.

(** *** One choice *)

Lemma process_choice_content stream c s l :
  choice_content c = Some s →
  process_choice loads write stream c l = process_content loads write stream s l.
Proof.
  intros Hc. unfold choice_content in Hc. unfold process_choice, bind, lift.
  destruct c as [| | | | | | | |kvs]; try discriminate. simpl.
  destruct (default (JObj []) (Py.dict_lookup kvs "delta")) as [| | | | | | | |d];
    try discriminate. simpl.
  destruct (default (JStr "") (Py.dict_lookup d "content")); try discriminate.
  by injection Hc as ->.
Qed.

Lemma process_choice_ill stream c l :
  choice_content c = None → ∃ e, process_choice loads write stream c l = (l, inl e).
Proof.
  intros Hc. unfold choice_content in Hc. unfold process_choice, bind, lift.
  destruct c as [| | | | | | | |kvs]; simpl; eauto.
  destruct (default (JObj []) (Py.dict_lookup kvs "delta")) as [| | | | | | | |d];
    simpl; eauto.
  destruct (default (JStr "") (Py.dict_lookup d "content")); simpl; eauto.
  discriminate.
Qed.

Lemma process_choice_keeps_results stream c :
  steps (keeps results) (process_choice loads write stream c).
Proof. unfold process_choice, process_content, print, try_commit. steps_tac. Qed.

Lemma process_choice_keeps_model stream c :
  steps (keeps l_model) (process_choice loads write stream c).
Proof. unfold process_choice, process_content, print, try_commit. steps_tac. Qed.

(** *** One chunk *)

Lemma exec_process_choices stream chunk l :
  exec (process_choices loads write stream chunk) l
  = exec (for_each (chunk_choices chunk) (process_choice loads write stream)) l.
Proof.
  unfold process_choices, chunk_choices, exec, bind, lift, when.
  destruct (Py.contains "choices" chunk) as [e|[]]; simpl; try reflexivity.
  destruct (Py.getitem chunk "choices") as [e|v]; simpl; [reflexivity|].
  destruct (Py.iter v) as [e|cs]; reflexivity.
Qed.

Lemma extract_metadata_object kvs l : snd (extract_metadata (JObj kvs) l) = inr tt.
Proof.
  unfold extract_metadata, bind, gets, lift, when, Py.contains, Py.getitem, Py.has_key.
  destruct (negb _); simpl;
    destruct (Py.dict_lookup kvs "model"); simpl;
    destruct (Py.dict_lookup kvs "id"); reflexivity.
Qed.

Lemma extract_metadata_keeps {X} (f : locals → X) chunk :
  (∀ v l, f (set_model v l) = f l) → (∀ v l, f (set_trace_id v l) = f l) →
  steps (keeps f) (extract_metadata chunk).
Proof.
  intros Hm Ht. unfold extract_metadata. steps_tac.
Qed.

Lemma process_chunk_results stream chunk l :
  results (exec (process_chunk loads write stream chunk) l) = results l ++ [chunk].
Proof.
  unfold process_chunk. rewrite exec_bind. simpl.
  assert (steps (keeps results)
            (extract_metadata chunk ;; process_choices loads write stream chunk)) as H.
  { unfold extract_metadata, process_choices. steps_tac.
    apply process_choice_keeps_results. }
  specialize (H (append_result chunk l)). apply H.
Qed.

Lemma extract_metadata_model chunk l :
  l_model (exec (extract_metadata chunk) l) = offer chunk (l_model l).
Proof.
  unfold offer, extract_metadata, exec, bind, gets. simpl.
  destruct (Py.truthy (l_model l)) eqn:Hm; simpl.
  - unfold lift. destruct (Py.contains "id" chunk) as [e|[]]; simpl; try reflexivity.
    destruct (Py.getitem chunk "id"); reflexivity.
  - destruct chunk as [| | | | | | s | items | kvs]; simpl; try reflexivity.
    + destruct (Str.contains "model" s); simpl; [reflexivity|].
      destruct (Str.contains "id" s); reflexivity.
    + destruct (existsb _ items); simpl; [reflexivity|].
      destruct (existsb _ items); reflexivity.
    + unfold Py.has_key.
      destruct (Py.dict_lookup kvs "model") as [v|]; simpl;
        destruct (Py.dict_lookup kvs "id"); reflexivity.
Qed.

Lemma process_chunk_model stream chunk l :
  l_model (exec (process_chunk loads write stream chunk) l) = offer chunk (l_model l).
Proof.
  unfold process_chunk. rewrite exec_bind. simpl. rewrite exec_bind.
  pose proof (extract_metadata_model chunk (append_result chunk l)) as Hm.
  unfold exec in Hm.
  destruct (extract_metadata chunk (append_result chunk l)) as [l1 [e|[]]]; simpl in *;
    [exact Hm|].
  rewrite <- Hm.
  assert (steps (keeps l_model) (process_choices loads write stream chunk)) as H.
  { unfold process_choices. steps_tac. apply process_choice_keeps_model. }
  apply H.
Qed.

(** *** A whole body *)

Lemma run_results stream ls l :
  results (run loads write stream ls l) = results l ++ chunks_of loads ls.
Proof.
  revert l. induction ls as [|line ls IH]; intros l; simpl.
  - by rewrite app_nil_r.
  - rewrite IH, exec_process_line. unfold chunks_of. simpl.
    destruct (line_chunk loads line) as [chunk|]; [|reflexivity].
    rewrite process_chunk_results, <- app_assoc. reflexivity.
Qed.

Lemma run_model stream ls l :
  l_model (run loads write stream ls l) = capture (l_model l) (models_of loads ls).
Proof.
  unfold models_of. rewrite <- foldl_offer.
  revert l. induction ls as [|line ls IH]; intros l; simpl; [reflexivity|].
  rewrite IH, exec_process_line. unfold chunks_of. simpl.
  destruct (line_chunk loads line) as [chunk|]; [|reflexivity].
  simpl. by rewrite process_chunk_model.
Qed.

(** A chunk: its metadata, then its choices unless the metadata raised. *)
Lemma process_chunk_cases stream chunk l :
  match extract_metadata chunk (append_result chunk l) with
  | (l1, inl _) =>
      exec (process_chunk loads write stream chunk) l = l1 ∧
      chunk_events loads write stream chunk l = []
  | (l1, inr _) =>
      exec (process_chunk loads write stream chunk) l
      = exec (for_each (chunk_choices chunk) (process_choice loads write stream)) l1 ∧
      chunk_events loads write stream chunk l
      = choice_events loads write stream (chunk_choices chunk) l1
  end.
Proof.
  unfold process_chunk, chunk_events. rewrite exec_bind. cbn [modify].
  rewrite exec_bind.
  change ((modify (append_result chunk) ;; extract_metadata chunk) l)
    with (extract_metadata chunk (append_result chunk l)).
  destruct (extract_metadata chunk (append_result chunk l)) as [l1 [e|[]]].
  - done.
  - split; [apply exec_process_choices | reflexivity].
Qed.

(** *** The fragments that reach the response *)

Lemma choices_response stream cs l :
  stitched_response (exec (for_each cs (process_choice loads write stream)) l)
  = stitched_response l +:+ join (plain_fragments (choice_events loads write stream cs l)).
Proof.
  revert l. induction cs as [|c cs IH]; intros l.
  - simpl. by rewrite append_nil_r.
  - cbn [for_each choice_events]. rewrite exec_bind.
    destruct (choice_content c) as [s|] eqn:Hc.
    + rewrite (process_choice_content stream c s l Hc).
      pose proof (process_content_response stream s l) as Hr. unfold exec in Hr.
      unfold plain_fragments. cbn [List.filter observe as_evaluation].
      destruct (process_content loads write stream s l) as [l' [e|[]]]; simpl in Hr.
      * rewrite Hr. destruct (_ || _); simpl; [reflexivity|].
        cbn [join foldr]. by rewrite append_nil_r.
      * rewrite IH, Hr. unfold plain_fragments.
        destruct (_ || _); simpl; [by rewrite append_nil_r|].
        cbn [join foldr]. by rewrite append_assoc.
    + destruct (process_choice_ill stream c l Hc) as [e ->]. by rewrite append_nil_r.
Qed.

Lemma process_chunk_response stream chunk l :
  stitched_response (exec (process_chunk loads write stream chunk) l)
  = stitched_response l +:+ join (plain_fragments (chunk_events loads write stream chunk l)).
Proof.
  pose proof (process_chunk_cases stream chunk l) as Hc.
  pose proof (extract_metadata_keeps stitched_response chunk
                (fun _ _ => eq_refl) (fun _ _ => eq_refl) (append_result chunk l)) as Hk.
  destruct (extract_metadata chunk (append_result chunk l)) as [l1 [e|[]]];
    unfold keeps in Hk; simpl in Hk; destruct Hc as [-> ->].
  - rewrite Hk. by rewrite append_nil_r.
  - rewrite choices_response. by rewrite Hk.
Qed.

Lemma run_response stream ls l :
  stitched_response (run loads write stream ls l)
  = stitched_response l +:+ join (plain_fragments (events loads write stream ls l)).
Proof.
  revert l. induction ls as [|line ls IH]; intros l.
  - simpl. by rewrite append_nil_r.
  - rewrite run_cons. cbn [events]. rewrite IH.
    unfold plain_fragments. rewrite List.filter_app, List.map_app, join_app, <- append_assoc.
    f_equal. rewrite exec_process_line. unfold line_events.
    destruct (line_chunk loads line) as [chunk|]; [|by rewrite append_nil_r].
    apply process_chunk_response.
Qed.

(** *** Runs whose every fragment satisfies a condition *)

Section Guarded.

Context (R : relation locals) `{!PreOrder R} (P : event → Prop) (stream : bool).
Hypothesis R_append : ∀ chunk l, R l (append_result chunk l).
Hypothesis R_metadata : ∀ chunk, steps R (extract_metadata chunk).
Hypothesis R_content :
  ∀ s l, P (observe loads write stream s l) → R l (exec (process_content loads write stream s) l).

Lemma choices_guarded cs l :
  Forall P (choice_events loads write stream cs l) →
  R l (exec (for_each cs (process_choice loads write stream)) l).
Proof.
  revert l. induction cs as [|c cs IH]; intros l Hev.
  - reflexivity.
  - cbn [for_each choice_events] in *. rewrite exec_bind.
    destruct (choice_content c) as [s|] eqn:Hc.
    + rewrite (process_choice_content stream c s l Hc).
      apply Forall_cons in Hev as [Hs Hev]. apply R_content in Hs. unfold exec in Hs.
      destruct (process_content loads write stream s l) as [l' [e|[]]]; simpl in Hs;
        [exact Hs|].
      etrans; [exact Hs | by apply IH].
    + destruct (process_choice_ill stream c l Hc) as [e ->]. reflexivity.
Qed.

Lemma process_chunk_guarded chunk l :
  Forall P (chunk_events loads write stream chunk l) →
  R l (exec (process_chunk loads write stream chunk) l).
Proof.
  pose proof (process_chunk_cases stream chunk l) as Hc.
  pose proof (R_metadata chunk (append_result chunk l)) as Hm.
  pose proof (R_append chunk l) as Ha.
  destruct (extract_metadata chunk (append_result chunk l)) as [l1 [e|[]]];
    simpl in Hm; destruct Hc as [-> ->].
  - intros _. by etrans.
  - intros Hev. etrans; [exact Ha|]. etrans; [exact Hm|]. by apply choices_guarded.
Qed.

Lemma run_guarded ls l :
  Forall P (events loads write stream ls l) → R l (run loads write stream ls l).
Proof.
  revert l. induction ls as [|line ls IH]; intros l Hev.
  - reflexivity.
  - rewrite run_cons. cbn [events] in Hev.
    apply Forall_app in Hev as [Hline Hev].
    etrans; [|by apply IH].
    rewrite exec_process_line. unfold line_events in Hline.
    destruct (line_chunk loads line) as [chunk|]; [|reflexivity].
    by apply process_chunk_guarded.
Qed.

End Guarded.

(** A run in which every fragment is taken as part of an evaluation
    payload and leaves the block open changes neither the response nor the
    evaluations. *)
Lemma run_unterminated stream ls l :
  Forall (fun e => as_evaluation e = true ∧ open_after e = true)
         (events loads write stream ls l) →
  stitched_response (run loads write stream ls l) = stitched_response l ∧
  l_evaluations (run loads write stream ls l) = l_evaluations l.
Proof.
  intros Hev. split.
  - rewrite run_response.
    assert (plain_fragments (events loads write stream ls l) = []) as ->;
      [|by rewrite append_nil_r].
    unfold plain_fragments. induction Hev as [|e evs [He _] _ IH]; [reflexivity|].
    simpl. by rewrite He.
  - apply (run_guarded (keeps l_evaluations) (fun e => open_after e = true)).
    + reflexivity.
    + intros chunk. by apply extract_metadata_keeps.
    + intros s l' Ho. by apply process_content_open.
    + eapply Forall_impl; [exact Hev|]. by intros e [_ ?].
Qed.

(** *** Bodies without evaluation payloads *)

Lemma events_plain_choices stream cs fs l :
  echo_succeeds write stream →
  mapM choice_content cs = Some fs →
  Forall (fun s => Str.starts_evaluation s = false) fs →
  in_evaluation_block l = false →
  plain_fragments (choice_events loads write stream cs l) = fs ∧
  in_evaluation_block (exec (for_each cs (process_choice loads write stream)) l) = false.
Proof.
  intros Hw. revert fs l. induction cs as [|c cs IH]; intros fs l Hfs Hplain Hb.
  - injection Hfs as <-. done.
  - rewrite mapM_Some in Hfs. destruct fs as [|f fs]; [inversion Hfs|].
    apply Forall2_cons_1 in Hfs as [Hc Hfs]. apply mapM_Some in Hfs.
    apply Forall_cons in Hplain as [Hf Hplain].
    cbn [for_each choice_events]. rewrite exec_bind, Hc.
    rewrite (process_choice_content stream c f l Hc).
    rewrite (process_content_plain stream f l Hf Hb).
    rewrite (echo_shown stream f (append_response f l) Hw).
    assert (in_evaluation_block (shown stream f (append_response f l)) = false) as Hb'.
    { unfold shown. by destruct (stream && _). }
    destruct (IH fs _ Hfs Hplain Hb') as [IH1 IH2]. split; [|exact IH2].
    unfold plain_fragments in *. cbn [List.filter observe as_evaluation].
    rewrite Hf, Hb. simpl. by rewrite IH1.
Qed.

Lemma process_chunk_plain stream chunk fs l :
  echo_succeeds write stream →
  chunk_fragments chunk = Some fs →
  Forall (fun s => Str.starts_evaluation s = false) fs →
  in_evaluation_block l = false →
  stitched_response (exec (process_chunk loads write stream chunk) l)
  = stitched_response l +:+ join fs ∧
  in_evaluation_block (exec (process_chunk loads write stream chunk) l) = false.
Proof.
  intros Hw Hfs Hplain Hb.
  assert (∃ kvs, chunk = JObj kvs) as [kvs ->].
  { destruct chunk; try discriminate. eauto. }
  apply chunk_fragments_choices in Hfs.
  rewrite process_chunk_response.
  pose proof (process_chunk_cases stream (JObj kvs) l) as Hc.
  pose proof (extract_metadata_object kvs (append_result (JObj kvs) l)) as Hok.
  pose proof (extract_metadata_keeps in_evaluation_block (JObj kvs)
                (fun _ _ => eq_refl) (fun _ _ => eq_refl) (append_result (JObj kvs) l)) as Hk.
  destruct (extract_metadata _ _) as [l1 r]. simpl in Hok, Hk. subst r.
  destruct Hc as [-> ->].
  unfold keeps in Hk. simpl in Hk. rewrite Hb in Hk.
  destruct (events_plain_choices stream _ fs l1 Hw Hfs Hplain Hk) as [-> ->]. done.
Qed.

Lemma run_plain stream ls l :
  echo_succeeds write stream →
  Forall (valid_line loads) ls →
  Forall (fun s => Str.starts_evaluation s = false) (fragments_of loads ls) →
  in_evaluation_block l = false →
  stitched_response (run loads write stream ls l)
  = stitched_response l +:+ join (fragments_of loads ls).
Proof.
  intros Hw. revert l. induction ls as [|line ls IH]; intros l Hvalid Hplain Hb.
  - simpl. unfold fragments_of. simpl. by rewrite append_nil_r.
  - apply Forall_cons in Hvalid as [Hline Hvalid].
    rewrite run_cons, exec_process_line.
    unfold fragments_of, chunks_of in *. simpl in *.
    unfold valid_line in Hline. unfold line_chunk in *.
    destruct (line_payload line) as [p|]; simpl in *; [|by apply IH].
    destruct Hline as (chunk & fs & Hl & Hfs). rewrite Hl in *. simpl in *.
    rewrite Hfs in *. simpl in *.
    apply Forall_app in Hplain as [Hfs_plain Hplain].
    destruct (process_chunk_plain stream chunk fs l Hw Hfs Hfs_plain Hb) as [Hr Hb'].
    rewrite (IH _ Hvalid Hplain Hb'), Hr.
    by rewrite join_app, append_assoc.
Qed.

End WithDecoder.
End ClientFacts.

(** ** The calls as a whole *)

Module LLMLabsCalls.
Import LLMLabs LLMLabsFacts.

Section WithDecoder.

Variable loads : string → option pyval.

Lemma labs_assemble_run ls : assemble loads ls = namespace (run loads ls init).
Proof. unfold assemble, exec. by rewrite labs_run_lines. Qed.

Lemma labs_run_app ls1 ls2 l : run loads (ls1 ++ ls2) l = run loads ls2 (run loads ls1 l).
Proof. apply foldl_app. Qed.

Lemma labs_run_cons line ls l :
  run loads (line :: ls) l = run loads ls (exec (process_line loads line) l).
Proof. reflexivity. Qed.

Lemma labs_process_line_keeps_stdout line : steps (keeps stdout) (process_line loads line).
Proof.
  unfold process_line, process_chunk, extract_metadata, process_choices, process_choice.
  steps_tac.
Qed.

Lemma labs_run_stdout ls l : stdout (run loads ls l) = stdout l.
Proof.
  revert l. induction ls as [|line ls IH]; intros l; [reflexivity|].
  simpl. rewrite IH. apply labs_process_line_keeps_stdout.
Qed.

(** The loop and its handler. *)
Lemma labs_consume_spec r :
  consume loads r init =
  match broken r with
  | None => (run loads (lines r) init, inr tt)
  | Some e =>
      if isinstance e ChunkedEncodingError
      then (print ("Stream broken: " +:+ exn_msg e) (run loads (lines r) init), inr tt)
      else (run loads (lines r) init, inl e)
  end.
Proof.
  unfold consume, try_except, for_lines, bind. rewrite labs_run_lines. fold (run loads (lines r) init).
  destruct (broken r) as [e|]; simpl; [|reflexivity].
  destruct (isinstance e ChunkedEncodingError); reflexivity.
Qed.

(** The call, once the request has been answered with a 2xx status. *)
Lemma labs_chat_answered auth post prompt mv name mt r :
  prompt ≠ "" →
  post (chat_request auth prompt (Some mv) (Some name) (Some mt)) = inr r →
  (200 <= status_code r < 300)%Z →
  chat loads auth post prompt (Some mv) (Some name) (Some mt) =
  match broken r with
  | None => ([], inr (assemble loads (lines r)))
  | Some e =>
      if isinstance e ChunkedEncodingError
      then (["Stream broken: " +:+ exn_msg e +:+ Str.newline],
            inr (assemble loads (lines r)))
      else ([], inl e)
  end.
Proof.
  intros Hp Hpost Hcode. unfold chat.
  apply String.eqb_neq in Hp. rewrite Hp. simpl. rewrite Hpost.
  unfold check_status.
  replace (200 <=? status_code r)%Z with true by (symmetry; apply Z.leb_le; lia).
  replace (status_code r <? 300)%Z with true by (symmetry; apply Z.ltb_lt; lia).
  simpl. rewrite labs_consume_spec, labs_assemble_run.
  destruct (broken r) as [e|]; simpl.
  - unfold isinstance. destruct (exn_cls e); simpl; by rewrite labs_run_stdout.
  - by rewrite labs_run_stdout.
Qed.

(** The status check, lines 41-49. *)
Lemma labs_check_status_error r :
  ¬ (200 <= status_code r < 300)%Z →
  check_status r =
  inl (Exn ValueError (kind_label (kind_of_status (status_code r))
                       +:+ Str.of_int (status_code r) +:+ ": " +:+ text r)).
Proof.
  intros Hcode. unfold check_status, kind_of_status.
  destruct ((200 <=? status_code r)%Z && (status_code r <? 300)%Z) eqn:H2.
  { apply andb_true_iff in H2 as [?%Z.leb_le ?%Z.ltb_lt]. lia. }
  clear H2. destruct (_ && _); [reflexivity|]. destruct (_ && _); reflexivity.
Qed.

Lemma labs_startswith_append p rest : Str.startswith p (p +:+ rest) = true.
Proof.
  unfold Str.startswith. induction p as [|a p IH].
  - by destruct rest.
  - rewrite append_cons. cbn [String.prefix].
    destruct (ascii_dec a a); [exact IH | congruence].
Qed.

Lemma labs_kind_of_labelled k rest :
  kind_of_error (Exn ValueError (kind_label k +:+ rest)) = Some k.
Proof.
  unfold kind_of_error. cbn [isinstance exn_cls exn_msg issubclass negb].
  destruct k; cbn [kind_label].
  - by rewrite labs_startswith_append.
  - rewrite (labs_startswith_append "Server error "). reflexivity.
  - rewrite (labs_startswith_append "Unexpected status code "). reflexivity.
Qed.

(** A fragment that holds a whole evaluation payload is decoded at once. *)
Lemma labs_process_choice_evaluation c s kvs l :
  choice_content c = Some s →
  Str.starts_evaluation s = true →
  loads s = Some (JObj kvs) →
  process_choice loads c l =
  (set_trace_id (default (l_trace_id l) (Py.dict_lookup kvs "traceId"))
     (set_evaluations (default JNull (Py.dict_lookup kvs "evaluations")) l),
   inr tt).
Proof.
  intros Hc Hs Hl. unfold choice_content in Hc. unfold process_choice, bind, lift.
  destruct c as [| | | | | | | |ckvs]; try discriminate. simpl.
  destruct (default (JObj []) (Py.dict_lookup ckvs "delta")) as [| | | | | | | |d];
    try discriminate. simpl.
  destruct (default (JStr "") (Py.dict_lookup d "content")); try discriminate.
  injection Hc as ->. rewrite Hs.
  unfold try_except, bind, lift, gets, modify, Py.json_loads. by rewrite Hl.
Qed.

(** A body of one line whose single fragment is a whole payload. *)
Lemma labs_single_fragment line m content kvs :
  line_chunk loads line = Some (JObj m) →
  chunk_fragments (JObj m) = Some [content] →
  Str.starts_evaluation content = true →
  loads content = Some (JObj kvs) →
  evaluations (assemble loads [line]) = default JNull (Py.dict_lookup kvs "evaluations") ∧
  trace_id (assemble loads [line])
  = default (default JNull (Py.dict_lookup m "id")) (Py.dict_lookup kvs "traceId") ∧
  response (assemble loads [line]) = "".
Proof.
  intros Hline Hfs Hstart Hloads. rewrite labs_assemble_run. unfold run. simpl.
  rewrite labs_exec_process_line, Hline.
  pose proof (chunk_fragments_choices _ _ Hfs) as Hcs.
  unfold process_chunk. rewrite exec_bind. cbn [modify]. rewrite exec_bind.
  pose proof (labs_extract_metadata_object m (append_result (JObj m) init)) as Hok.
  assert (l_trace_id (fst (extract_metadata (JObj m) (append_result (JObj m) init)))
          = default JNull (Py.dict_lookup m "id") ∧
          l_evaluations (fst (extract_metadata (JObj m) (append_result (JObj m) init))) = JNull ∧
          stitched_response (fst (extract_metadata (JObj m) (append_result (JObj m) init))) = "")
    as Hmeta.
  { unfold extract_metadata, bind, gets, lift, when, Py.contains, Py.getitem, Py.has_key.
    simpl. destruct (Py.dict_lookup m "model"); simpl;
      destruct (Py.dict_lookup m "id"); simpl; done. }
  destruct (extract_metadata _ _) as [l1 rr]. simpl in Hok, Hmeta. subst rr.
  destruct Hmeta as (Ht & He & Hr).
  rewrite labs_exec_process_choices.
  apply mapM_Some in Hcs.
  inversion Hcs as [|c s cs' fs' Hc Hrest Heq1 Heq2]; subst.
  inversion Hrest; subst.
  cbn [for_each]. unfold exec, bind.
  rewrite (labs_process_choice_evaluation c content kvs l1 Hc Hstart Hloads). simpl.
  by rewrite Ht, Hr.
Qed.

End WithDecoder.
End LLMLabsCalls.

Module ClientCalls.
Import Client ClientFacts.

Section WithDecoder.

Variable loads : string → option pyval.
Variable write : list string → string → option exn.

Lemma new_ChatResponse_spec c prompt l :
  new_ChatResponse (stitched_response l) (JStr prompt)
    (if enable_evaluations c then l_evaluations l else JNull)
    (l_trace_id l) (l_model l) (results l) (enable_evaluations c)
  = inr (chat_response c prompt l).
Proof.
  unfold new_ChatResponse, chat_response, new_EvaluationResult, Py.or_. simpl.
  destruct (Py.truthy (if enable_evaluations c then l_evaluations l else JNull)) eqn:Ht;
    [|reflexivity].
  simpl. destruct (Py.truthy (l_trace_id l)); reflexivity.
Qed.

(** The call, once the request has been answered with a 2xx status. *)
Lemma client_chat_answered c w prompt stream r :
  Str.strip prompt ≠ "" →
  post w (chat_request c prompt) = inr r →
  is_2xx (status_code r) = true →
  chat loads write c w prompt stream =
  (stdout (run loads write stream (lines r) init),
   match broken r with
   | None => inr (chat_response c prompt (run loads write stream (lines r) init))
   | Some e => wrap_request_error "Request failed: " (inl e)
   end).
Proof.
  intros Hp Hpost Hcode. unfold chat.
  apply String.eqb_neq in Hp. rewrite Hp, Hpost, Hcode. simpl.
  unfold consume, for_lines, bind. rewrite run_lines.
  destruct (broken r) as [e|]; simpl; [reflexivity|].
  by rewrite new_ChatResponse_spec.
Qed.

Lemma or_chosen w tid :
  Py.or_ (Py.of_option tid) (JStr (uuid4 w)) = JStr (chosen_trace_id w tid).
Proof.
  unfold Py.or_, chosen_trace_id. destruct tid as [s|]; simpl; [|reflexivity].
  by destruct (String.eqb s "").
Qed.

Lemma chosen_truthy w tid :
  uuid4 w ≠ "" → Py.truthy (JStr (chosen_trace_id w tid)) = true.
Proof.
  intros Hu%String.eqb_neq. unfold chosen_trace_id. simpl.
  destruct tid as [s|]; [|by rewrite Hu].
  destruct (String.eqb s "") eqn:Hs; [by rewrite Hu | by rewrite Hs].
Qed.

(** [evaluate], once the request has been answered. *)
Lemma evaluate_answered c w prompt response tid r :
  Str.strip prompt ≠ "" → Str.strip response ≠ "" →
  post w (evaluate_request c w prompt response (JStr (chosen_trace_id w tid))) = inr r →
  evaluate loads c w prompt response tid =
  if is_2xx (status_code r) then
    wrap_request_error "Evaluation request failed: "
      match response_json loads r with
      | inl e => inl e
      | inr data =>
          new_EvaluationResult data (JStr (chosen_trace_id w tid))
            (JStr prompt) (JStr response)
      end
  else inl (api_error "Evaluation API error " r).
Proof.
  intros Hp%String.eqb_neq Hr%String.eqb_neq Hpost. unfold evaluate.
  rewrite Hp, Hr, or_chosen, Hpost. by destruct (is_2xx (status_code r)).
Qed.

(** [safety_evaluation], once the request has been answered. *)
Lemma safety_answered c w prompt tid r :
  Str.strip prompt ≠ "" →
  post w (safety_request c w prompt (JStr (chosen_trace_id w tid))) = inr r →
  safety_evaluation loads c w prompt tid =
  if is_2xx (status_code r) then
    wrap_request_error "Safety evaluation request failed: "
      match response_json loads r with
      | inl e => inl e
      | inr data =>
          new_EvaluationResult data (JStr (chosen_trace_id w tid)) (JStr prompt) JNull
      end
  else inl (api_error "Safety API error " r).
Proof.
  intros Hp%String.eqb_neq Hpost. unfold safety_evaluation.
  rewrite Hp, or_chosen, Hpost. by destruct (is_2xx (status_code r)).
Qed.

(** The result built from a decoded object when the trace identifier
    passed is true. *)
Lemma new_EvaluationResult_object kvs tid prompt response :
  Py.truthy tid = true →
  new_EvaluationResult (JObj kvs) tid prompt response
  = inr {| er_evaluations := default (JArr []) (Py.dict_lookup kvs "evaluations");
           er_trace_id := tid; er_prompt := prompt; er_response := response |}.
Proof. intros Ht. unfold new_EvaluationResult. simpl. by rewrite Ht. Qed.

(** *** The slots of a batch *)

Lemma collect_step {B} (outcome : nat → result B) (results : list (option B)) i :
  match outcome i with
  | inr r => <[i := Some r]> results
  | inl _ => <[i := None]> results
  end = <[i := to_option (outcome i)]> results.
Proof. by destruct (outcome i). Qed.

Lemma collect_lookup {B} (outcome : nat → result B) completed (acc : list (option B)) j :
  j < length acc →
  foldl (fun results i =>
           match outcome i with
           | inr r => <[i := Some r]> results
           | inl _ => <[i := None]> results
           end) acc completed !! j
  = if decide (j ∈ completed) then Some (to_option (outcome j)) else acc !! j.
Proof.
  revert acc. induction completed as [|i completed IH]; intros acc Hj.
  - cbn [foldl]. destruct (decide (j ∈ [])) as [H|_]; [|reflexivity].
    by apply elem_of_nil in H.
  - cbn [foldl]. rewrite collect_step, IH by (by rewrite length_insert).
    destruct (decide (j ∈ completed)) as [Hin|Hnin];
      destruct (decide (j ∈ i :: completed)) as [Hin'|Hnin'].
    + reflexivity.
    + destruct Hnin'. by apply elem_of_cons; right.
    + apply elem_of_cons in Hin' as [->|?]; [|done].
      by rewrite list_lookup_insert_eq.
    + apply list_lookup_insert_ne. intros ->. destruct Hnin'. by apply elem_of_cons; left.
Qed.

Lemma collect_length {B} (outcome : nat → result B) n completed :
  length (collect n outcome completed) = n.
Proof.
  unfold collect. rewrite <- (length_replicate n (@None B)) at 2.
  generalize (replicate n (@None B)) as acc.
  induction completed as [|i completed IH]; intros acc; [reflexivity|].
  cbn [foldl]. rewrite IH, collect_step. apply length_insert.
Qed.

(** Once every future has completed, in whatever order, slot [i] holds the
    outcome of item [i]. *)
Lemma collect_spec {B} (outcome : nat → result B) n completed :
  (∀ j, j < n → j ∈ completed) →
  collect n outcome completed = (fun i => to_option (outcome i)) <$> seq 0 n.
Proof.
  intros Hall. apply list_eq. intros j.
  destruct (decide (j < n)) as [Hlt|Hge].
  - unfold collect. rewrite collect_lookup by (by rewrite length_replicate).
    rewrite decide_True by auto.
    rewrite list_lookup_fmap, lookup_seq_lt by done. reflexivity.
  - rewrite !lookup_ge_None_2; [reflexivity | |].
    + rewrite length_fmap, length_seq. lia.
    + rewrite collect_length. lia.
Qed.

Lemma batch_spec {A B} msg (call : nat → A → result B) items max_workers completed :
  items ≠ [] → (0 < max_workers)%Z →
  completed ≡ₚ seq 0 (length items) →
  batch msg call items max_workers completed
  = inr (omap id (imap (fun i a => to_option (call i a)) items)).
Proof.
  intros Hne Hw Hperm. unfold batch.
  destruct items as [|a0 items0] eqn:Hitems; [done|]. rewrite <- Hitems in *.
  replace (max_workers <=? 0)%Z with false by (symmetry; apply Z.leb_gt; lia).
  f_equal. f_equal. rewrite collect_spec.
  - apply list_eq. intros j.
    rewrite list_lookup_fmap, list_lookup_imap.
    destruct (decide (j < length items)) as [Hlt|Hge].
    + rewrite lookup_seq_lt by done. simpl.
      destruct (lookup_lt_is_Some_2 items j Hlt) as [a Ha]. by rewrite Ha.
    + rewrite lookup_seq_ge by lia. rewrite lookup_ge_None_2 by lia. reflexivity.
  - intros j Hj. rewrite Hperm. apply elem_of_seq. lia.
Qed.

End WithDecoder.
End ClientCalls.

(** ** The decoder *)

Lemma parse_members_object fuel s acc v r :
  Json.parse_members fuel s acc = Some (v, r) → ∃ kvs, v = JObj kvs.
Proof.
  revert s acc. induction fuel as [|fuel IH]; intros s acc H; [discriminate|].
  cbn [Json.parse_members] in H.
  destruct s as [|q t]; [discriminate|].
  destruct (Ascii.eqb q Json.dquote); [|discriminate].
  destruct (Json.scanstring _ t) as [[key r0]|]; [|discriminate]. cbn in H.
  destruct (Json.skip_ws r0) as [|c r1]; [discriminate|].
  destruct (Ascii.eqb c ":"); [|discriminate].
  destruct (Json.scan_once fuel _) as [[v' r2]|]; [|discriminate]. cbn in H.
  destruct (Json.skip_ws r2) as [|d r3]; [discriminate|].
  destruct (Ascii.eqb d "}").
  - injection H as <- _. eauto.
  - destruct (Ascii.eqb d ","); [|discriminate]. by apply IH in H.
Qed.

(** A text that starts with a brace decodes, when it does, to an object:
    on the buffers of [Client.chat] the decoder never hands back a value
    without a [get] method. *)
Lemma loads_brace_object s v :
  Str.startswith "{" s = true → Json.loads s = Some v → ∃ kvs, v = JObj kvs.
Proof.
  intros Hs H. destruct s as [|c s]; [discriminate|].
  unfold Str.startswith in Hs. cbn [String.prefix] in Hs.
  destruct (ascii_dec "{" c) as [<-|]; [|discriminate].
  unfold Json.loads in H. cbn [String.list_ascii_of_string] in H.
  change (Json.skip_ws ("{"%char :: String.list_ascii_of_string s))
    with ("{"%char :: String.list_ascii_of_string s) in H.
  remember (String.list_ascii_of_string s) as t.
  replace (2 * length ("{"%char :: t) + 2) with (S (2 * length t + 3)) in H
    by (cbn [length]; lia).
  cbn [Json.scan_once] in H.
  change (Ascii.eqb "{" Json.dquote) with false in H.
  change (Ascii.eqb "{" "{") with true in H. cbn match in H.
  destruct (Json.skip_ws t) as [|d t']; [discriminate|].
  destruct (Ascii.eqb d "}").
  - cbn in H. destruct (Json.skip_ws t'); [|discriminate]. injection H as <-. eauto.
  - destruct (Json.parse_members _ _ _) as [[v' r]|] eqn:Hm; [|discriminate].
    cbn in H. destruct (Json.skip_ws r); [|discriminate]. injection H as <-.
    by apply parse_members_object in Hm.
Qed.


(** * The properties of the specification *)

(** ** Evaluation payloads in one fragment and in two *)

(** In [Client.chat] a fragment that opens a block is only stored: the
    buffer is decoded when a later fragment is added to it. *)
Lemma client_split_reassembled loads write stream a b kvs l :
  Str.starts_evaluation a = true →
  Str.starts_evaluation b = false →
  loads (a +:+ b) = Some (JObj kvs) →
  exec (Client.process_content loads write stream b)
       (exec (Client.process_content loads write stream a) l)
  = Client.set_block false ""
      (Client.set_trace_id
         (default (Client.l_trace_id l) (Py.dict_lookup kvs "traceId"))
         (Client.set_evaluations
            (default JNull (Py.dict_lookup kvs "evaluations"))
            (Client.append_buffer b (Client.set_block true a l)))).
Proof.
  intros Ha Hb Hl. unfold exec.
  rewrite (ClientFacts.process_content_start loads write stream a l Ha). cbn [fst].
  rewrite ClientFacts.process_content_accumulate by done.
  by rewrite (ClientFacts.try_commit_object loads
                (Client.append_buffer b (Client.set_block true a l)) kvs Hl).
Qed.

Lemma client_opening_fragment_stored loads write stream a l :
  Str.starts_evaluation a = true →
  exec (Client.process_content loads write stream a) l = Client.set_block true a l.
Proof.
  intros Ha. unfold exec. by rewrite ClientFacts.process_content_start.
Qed.

(** C1.  A body whose single content fragment is the whole evaluation
    payload of the specification, read by [Client.chat]: the payload is a
    JSON object with its evaluations and its trace identifier, the
    fragment opens a block, and the call returns with no evaluations, no
    trace identifier and an empty response.  The payload is never
    decoded. *)
Theorem chat_single_fragment_pending :
  fragments_of Json.loads Examples.single_fragment = [Examples.payload] ∧
  Str.starts_evaluation Examples.payload = true ∧
  Json.loads Examples.payload
  = Some (JObj [("evaluations", Examples.payload_evaluations);
                ("traceId", JStr "abc")]) ∧
  Client.chat Json.loads Examples.terminal Examples.a_client
    (Examples.serving (Examples.ok_stream Examples.single_fragment None)) "hi" false
  = ([], inr {| Client.cr_response := "";
                Client.cr_prompt := JStr "hi";
                Client.cr_evaluations := None;
                Client.cr_enable_evaluations := true;
                Client.cr_trace_id := JNull;
                Client.cr_model := JNull;
                Client.cr_raw_chunks := chunks_of Json.loads Examples.single_fragment |}).
Proof. vm_compute. repeat split. Qed.

(** C2.  The payload of the specification cut in two fragments, the first
    of which opens a block, and the same payload in one fragment, both read
    by [Client.chat]'s loop: the two fragments yield the evaluations and
    the trace identifier of the payload, the single fragment yields
    neither. *)
Theorem chat_split_differs_from_single :
  (∃ a b, fragments_of Json.loads Examples.split_fragments = [a; b] ∧
          a +:+ b = Examples.payload ∧ Str.starts_evaluation a = true) ∧
  fragments_of Json.loads Examples.single_fragment = [Examples.payload] ∧
  evaluations (Client.assemble Json.loads Examples.terminal false Examples.split_fragments)
  = Examples.payload_evaluations ∧
  trace_id (Client.assemble Json.loads Examples.terminal false Examples.split_fragments) = JStr "abc" ∧
  response (Client.assemble Json.loads Examples.terminal false Examples.split_fragments) = "" ∧
  evaluations (Client.assemble Json.loads Examples.terminal false Examples.single_fragment) = JNull ∧
  trace_id (Client.assemble Json.loads Examples.terminal false Examples.single_fragment) = JNull ∧
  response (Client.assemble Json.loads Examples.terminal false Examples.single_fragment) = "".
Proof.
  split.
  - eexists _, _. vm_compute. repeat split.
  - vm_compute. repeat split.
Qed.

(** ** Bodies without evaluation payloads *)

(** For a body in which every line that carries a payload decodes to a
    Chunk, and no content fragment both starts with a brace and contains
    "evaluations", the response is the concatenation, in arrival order and
    with no separator, of every content fragment of every choice of every
    chunk: in [LLMLabsClient.chat], and in [Client.chat] when nothing is
    echoed or standard output takes every text. *)
Lemma plain_stream_response loads write stream ls :
  Client.echo_succeeds write stream →
  Forall (valid_line loads) ls →
  Forall (fun s => Str.starts_evaluation s = false) (fragments_of loads ls) →
  response (Client.assemble loads write stream ls) = join (fragments_of loads ls) ∧
  response (LLMLabs.assemble loads ls) = join (fragments_of loads ls).
Proof.
  intros Hw Hvalid Hplain. split.
  - rewrite ClientFacts.assemble_run. simpl.
    by rewrite ClientFacts.run_plain.
  - rewrite LLMLabsCalls.labs_assemble_run. simpl. unfold LLMLabs.run.
    by rewrite LLMLabsFacts.labs_run_plain.
Qed.

(** C3.  A body of one chunk with two choices, whose contents are a lone
    surrogate and ["x"], read by [Client.chat] with [stream=True] on a
    standard output in UTF-8.  The line is valid and neither fragment
    looks like an evaluation payload, so the response should be the two
    fragments end to end, and it is with [stream=False] and in
    [LLMLabsClient.chat]; with [stream=True] the [print] of line 331 raises
    on the first fragment, inside the [try] whose handler (lines 332-333)
    passes, the second choice is never reached, and the call returns a
    response that lacks it. *)
Theorem chat_echo_failure_drops_fragments :
  Forall (valid_line Json.loads) [Examples.surrogate_line] ∧
  fragments_of Json.loads [Examples.surrogate_line] = [Examples.lone_surrogate; "x"] ∧
  Forall (fun s => Str.starts_evaluation s = false)
         (fragments_of Json.loads [Examples.surrogate_line]) ∧
  response (LLMLabs.assemble Json.loads [Examples.surrogate_line])
  = Examples.lone_surrogate +:+ "x" ∧
  response (Client.assemble Json.loads Examples.terminal false [Examples.surrogate_line])
  = Examples.lone_surrogate +:+ "x" ∧
  response (Client.assemble Json.loads Examples.terminal true [Examples.surrogate_line])
  = Examples.lone_surrogate ∧
  ∃ cr, Client.chat Json.loads Examples.terminal Examples.a_client
          (Examples.serving (Examples.ok_stream [Examples.surrogate_line] None)) "hi" true
        = ([], inr cr) ∧
        Client.cr_response cr = Examples.lone_surrogate.
Proof.
  split.
  { repeat constructor. unfold valid_line. vm_compute.
    eexists _, _; split; reflexivity. }
  split; [vm_compute; reflexivity|]. split; [vm_compute; repeat constructor|].
  split; [vm_compute; reflexivity|]. split; [vm_compute; reflexivity|].
  split; [vm_compute; reflexivity|].
  eexists. split; [vm_compute; reflexivity | reflexivity].
Qed.

(** A chunk that is not a Chunk of the data model is outside this
    property: a content that is not a string makes [startswith] raise, and
    the rest of the chunk's choices is abandoned with it. *)
Lemma content_not_a_string_abandons_chunk :
  ¬ valid_line Json.loads Examples.null_content_line ∧
  response (Client.assemble Json.loads Examples.terminal false [Examples.null_content_line]) = "" ∧
  response (LLMLabs.assemble Json.loads [Examples.null_content_line]) = "" ∧
  length (raw_chunks (Client.assemble Json.loads Examples.terminal false [Examples.null_content_line])) = 1.
Proof.
  split; [|vm_compute; repeat split].
  unfold valid_line.
  assert (line_payload Examples.null_content_line
          = Some (wire "{'choices':[{'delta':{'content':null}},{'delta':{'content':'x'}}]}"))
    as -> by (vm_compute; reflexivity).
  intros (chunk & fs & Hl & Hfs). vm_compute in Hl. injection Hl as <-.
  vm_compute in Hfs. discriminate.
Qed.

(** ** Fragments taken as part of an evaluation payload *)

(** C4.  In [Client.chat], for every body: the response is made of exactly
    the fragments that were not taken as part of an evaluation payload, in
    arrival order; and when, from some line on, every fragment is taken as
    part of an evaluation payload and leaves the block open (the body ends
    while a buffer is being accumulated), the response and the evaluations
    are those the body had reached before that line: the unterminated
    buffer is dropped. *)
Theorem evaluation_fragments_kept_out loads write stream ls1 ls2 :
  response (Client.assemble loads write stream (ls1 ++ ls2))
  = join (Client.plain_fragments (Client.events loads write stream (ls1 ++ ls2) Client.init)) ∧
  (Forall (fun e => Client.as_evaluation e = true ∧ Client.open_after e = true)
          (Client.events loads write stream ls2 (Client.run loads write stream ls1 Client.init)) →
   response (Client.assemble loads write stream (ls1 ++ ls2))
   = response (Client.assemble loads write stream ls1) ∧
   evaluations (Client.assemble loads write stream (ls1 ++ ls2))
   = evaluations (Client.assemble loads write stream ls1)).
Proof.
  rewrite !ClientFacts.assemble_run. simpl. split.
  - by rewrite ClientFacts.run_response.
  - intros Hev. rewrite ClientFacts.run_app.
    by apply ClientFacts.run_unterminated.
Qed.

Lemma evaluation_fragments_kept_out_witness :
  Forall (fun e => Client.as_evaluation e = true ∧ Client.open_after e = true)
         (Client.events Json.loads Examples.terminal false
            [Examples.content_line Examples.payload_literal_1]
            (Client.run Json.loads Examples.terminal false Examples.hello_lines Client.init)) ∧
  response (Client.assemble Json.loads Examples.terminal false
              (Examples.hello_lines ++ [Examples.content_line Examples.payload_literal_1]))
  = response (Client.assemble Json.loads Examples.terminal false Examples.hello_lines) ∧
  evaluations (Client.assemble Json.loads Examples.terminal false
                 (Examples.hello_lines ++ [Examples.content_line Examples.payload_literal_1]))
  = evaluations (Client.assemble Json.loads Examples.terminal false Examples.hello_lines).
Proof.
  assert (Forall (fun e => Client.as_evaluation e = true ∧ Client.open_after e = true)
            (Client.events Json.loads Examples.terminal false
               [Examples.content_line Examples.payload_literal_1]
               (Client.run Json.loads Examples.terminal false Examples.hello_lines Client.init))) as Hev.
  { vm_compute. repeat constructor. }
  split; [exact Hev|].
  exact (proj2 (evaluation_fragments_kept_out Json.loads Examples.terminal false Examples.hello_lines
                  [Examples.content_line Examples.payload_literal_1]) Hev).
Defined.

(** ** A connection that breaks while the body is read *)

(** C5 as the specification states it does not hold of [Client.chat]: a
    body of one chunk after which the connection breaks makes the call
    raise [ValueError]; the text read so far is not returned. *)
Lemma chat_broken_stream_raises :
  Client.chat Json.loads Examples.terminal Examples.a_client (Examples.serving Examples.broken_stream)
    "hi" false
  = ([], inl (Exn ValueError "Request failed: Connection broken: IncompleteRead")) ∧
  ¬ ∃ res, snd (Client.chat Json.loads Examples.terminal Examples.a_client
                  (Examples.serving Examples.broken_stream) "hi" false) = inr res.
Proof.
  split; [vm_compute; reflexivity|].
  intros [res H]. vm_compute in H. discriminate.
Qed.

(** C5, amended.  When the connection breaks while the body is read:
    [LLMLabsClient.chat] prints the error and returns what the lines read
    so far have assembled; [Client.chat] raises [ValueError] with the
    message of the transport's exception, whatever request exception it
    is, and returns nothing. *)
Theorem broken_stream_outcomes loads write auth post1 c w prompt mv name mt stream r e :
  prompt ≠ "" → Str.strip prompt ≠ "" →
  post1 (LLMLabs.chat_request auth prompt (Some mv) (Some name) (Some mt)) = inr r →
  Client.post w (Client.chat_request c prompt) = inr r →
  (200 <= status_code r < 300)%Z →
  broken r = Some e →
  exn_cls e = ChunkedEncodingError →
  LLMLabs.chat loads auth post1 prompt (Some mv) (Some name) (Some mt)
  = (["Stream broken: " +:+ exn_msg e +:+ Str.newline],
     inr (LLMLabs.assemble loads (lines r))) ∧
  snd (Client.chat loads write c w prompt stream)
  = inl (Exn ValueError ("Request failed: " +:+ exn_msg e)).
Proof.
  intros Hp Hps Hpost1 Hpost Hcode Hbroken Hcls. split.
  - rewrite (LLMLabsCalls.labs_chat_answered loads auth post1 prompt mv name mt r Hp Hpost1 Hcode).
    rewrite Hbroken. unfold isinstance. by rewrite Hcls.
  - rewrite (ClientCalls.client_chat_answered loads write c w prompt stream r Hps Hpost).
    + rewrite Hbroken. simpl. unfold isinstance. by rewrite Hcls.
    + unfold Client.is_2xx. apply andb_true_iff. split; [apply Z.leb_le | apply Z.ltb_lt]; lia.
Qed.

Lemma broken_stream_outcomes_witness :
  LLMLabs.chat Json.loads Examples.an_auth (fun _ => inr Examples.broken_stream)
    "hi" (Some "v1") (Some "mine") (Some "default")
  = (["Stream broken: Connection broken: IncompleteRead" +:+ Str.newline],
     inr (LLMLabs.assemble Json.loads (lines Examples.broken_stream))) ∧
  snd (Client.chat Json.loads Examples.terminal Examples.a_client (Examples.serving Examples.broken_stream)
         "hi" true)
  = inl (Exn ValueError "Request failed: Connection broken: IncompleteRead").
Proof.
  apply (broken_stream_outcomes Json.loads Examples.terminal Examples.an_auth
           (fun _ => inr Examples.broken_stream) Examples.a_client
           (Examples.serving Examples.broken_stream) "hi" "v1" "mine" "default" true
           Examples.broken_stream Examples.broken_end).
  - discriminate.
  - vm_compute. discriminate.
  - reflexivity.
  - reflexivity.
  - cbn. lia.
  - reflexivity.
  - reflexivity.
Defined.

(** ** Lines that do not decode *)

(** C6.  A line whose payload fails to decode is discarded and the lines
    after it are processed as if it had not been there: the result of the
    whole body is that of the body without the line, and the raw chunks are
    the chunks of the lines before it followed by the chunks of the lines
    after it; in [Client.chat] and in [LLMLabsClient.chat] alike. *)
Theorem malformed_line_discarded loads write stream ls1 bad ls2 p :
  line_payload bad = Some p → loads p = None →
  (Client.assemble loads write stream (ls1 ++ bad :: ls2)
   = Client.assemble loads write stream (ls1 ++ ls2) ∧
   raw_chunks (Client.assemble loads write stream (ls1 ++ bad :: ls2))
   = chunks_of loads ls1 ++ chunks_of loads ls2) ∧
  (LLMLabs.assemble loads (ls1 ++ bad :: ls2) = LLMLabs.assemble loads (ls1 ++ ls2) ∧
   raw_chunks (LLMLabs.assemble loads (ls1 ++ bad :: ls2))
   = chunks_of loads ls1 ++ chunks_of loads ls2).
Proof.
  intros Hp Hl.
  assert (line_chunk loads bad = None) as Hbad.
  { by rewrite (line_chunk_payload loads bad p Hp). }
  assert (chunks_of loads (ls1 ++ ls2) = chunks_of loads ls1 ++ chunks_of loads ls2) as Happ.
  { unfold chunks_of. apply omap_app. }
  split.
  - assert (Client.assemble loads write stream (ls1 ++ bad :: ls2)
            = Client.assemble loads write stream (ls1 ++ ls2)) as Heq.
    { rewrite !ClientFacts.assemble_run, !ClientFacts.run_app, ClientFacts.run_cons.
      by rewrite ClientFacts.exec_process_line, Hbad. }
    split; [exact Heq|]. rewrite Heq, ClientFacts.assemble_run. simpl.
    by rewrite ClientFacts.run_results, Happ.
  - assert (LLMLabs.assemble loads (ls1 ++ bad :: ls2)
            = LLMLabs.assemble loads (ls1 ++ ls2)) as Heq.
    { rewrite !LLMLabsCalls.labs_assemble_run, !LLMLabsCalls.labs_run_app, LLMLabsCalls.labs_run_cons.
      by rewrite LLMLabsFacts.labs_exec_process_line, Hbad. }
    split; [exact Heq|]. rewrite Heq, LLMLabsCalls.labs_assemble_run. simpl.
    unfold LLMLabs.run. by rewrite LLMLabsFacts.labs_run_results, Happ.
Qed.

Lemma malformed_line_discarded_witness :
  line_payload Examples.bad_line = Some "not-json" ∧
  Json.loads "not-json" = None ∧
  (let valid := Examples.content_line (wire "'Hel'") in
   let valid' := Examples.content_line (wire "'lo'") in
   (Client.assemble Json.loads Examples.terminal false ([valid] ++ Examples.bad_line :: [valid'])
    = Client.assemble Json.loads Examples.terminal false ([valid] ++ [valid']) ∧
    raw_chunks (Client.assemble Json.loads Examples.terminal false ([valid] ++ Examples.bad_line :: [valid']))
    = chunks_of Json.loads [valid] ++ chunks_of Json.loads [valid']) ∧
   (LLMLabs.assemble Json.loads ([valid] ++ Examples.bad_line :: [valid'])
    = LLMLabs.assemble Json.loads ([valid] ++ [valid']) ∧
    raw_chunks (LLMLabs.assemble Json.loads ([valid] ++ Examples.bad_line :: [valid']))
    = chunks_of Json.loads [valid] ++ chunks_of Json.loads [valid'])).
Proof.
  split; [vm_compute; reflexivity|]. split; [vm_compute; reflexivity|].
  apply (malformed_line_discarded Json.loads Examples.terminal false
           [Examples.content_line (wire "'Hel'")] Examples.bad_line
           [Examples.content_line (wire "'lo'")] "not-json").
  - vm_compute. reflexivity.
  - vm_compute. reflexivity.
Defined.

(** ** Batches *)

(** C7 as the specification states it does not hold: of three prompts
    whose second call raises, completed in the order 2, 0, 1, [batch_chat]
    returns the two responses of the first and the third, in that order;
    its result has length two and no slot stands for the failed item. *)
Lemma batch_drops_failed_slot :
  to_option (snd (Client.chat Json.loads Examples.terminal Examples.a_client (Examples.batch_worlds 1)
                    "b" false)) = None ∧
  (∃ r0 r2,
     to_option (snd (Client.chat Json.loads Examples.terminal Examples.a_client (Examples.batch_worlds 0)
                       "a" false)) = Some r0 ∧
     to_option (snd (Client.chat Json.loads Examples.terminal Examples.a_client (Examples.batch_worlds 2)
                       "c" false)) = Some r2 ∧
     Client.batch_chat Json.loads Examples.terminal Examples.a_client Examples.batch_worlds
       ["a"; "b"; "c"] 3 [2; 0; 1] = inr [r0; r2]) ∧
  ¬ ∃ l, Client.batch_chat Json.loads Examples.terminal Examples.a_client Examples.batch_worlds
           ["a"; "b"; "c"] 3 [2; 0; 1] = inr l ∧ length l = 3.
Proof.
  split; [vm_compute; reflexivity|]. split.
  - eexists _, _. vm_compute. repeat split.
  - intros (l & H & Hlen). vm_compute in H. injection H as <-. discriminate.
Qed.

(** C7, amended.  Whatever the order in which the calls complete, each of
    [batch_chat], [batch_evaluate] and [batch_safety_evaluation] returns
    the results of the calls that succeeded, in the order of their inputs;
    a call that raises is left out of the list and does not affect the
    others. *)
Theorem batch_keeps_input_order loads write c worlds prompts pairs max_workers completed completed' :
  prompts ≠ [] → pairs ≠ [] → (0 < max_workers)%Z →
  completed ≡ₚ seq 0 (length prompts) →
  completed' ≡ₚ seq 0 (length pairs) →
  Client.batch_chat loads write c worlds prompts max_workers completed
  = inr (omap id (imap (fun i prompt =>
                          to_option (snd (Client.chat loads write c (worlds i) prompt false)))
                       prompts)) ∧
  Client.batch_evaluate loads c worlds pairs max_workers completed'
  = inr (omap id (imap (fun i pair =>
                          to_option
                            (Client.evaluate loads c (worlds i) (fst pair) (snd pair) None))
                       pairs)) ∧
  Client.batch_safety_evaluation loads c worlds prompts max_workers completed
  = inr (omap id (imap (fun i prompt =>
                          to_option
                            (Client.safety_evaluation loads c (worlds i) prompt None))
                       prompts)).
Proof.
  intros Hp Hpairs Hw Hperm Hperm'.
  unfold Client.batch_chat, Client.batch_evaluate, Client.batch_safety_evaluation.
  repeat split; by apply ClientCalls.batch_spec.
Qed.

Lemma batch_keeps_input_order_witness :
  Client.batch_chat Json.loads Examples.terminal Examples.a_client Examples.batch_worlds
    ["a"; "b"; "c"] 3 [2; 0; 1]
  = inr (omap id (imap (fun i prompt =>
                          to_option
                            (snd (Client.chat Json.loads Examples.terminal Examples.a_client
                                    (Examples.batch_worlds i) prompt false)))
                       ["a"; "b"; "c"])).
Proof.
  refine (proj1 (batch_keeps_input_order Json.loads Examples.terminal Examples.a_client
                   Examples.batch_worlds ["a"; "b"; "c"] [("p", "r")] 3
                   [2; 0; 1] [0] _ _ _ _ _)).
  - discriminate.
  - discriminate.
  - lia.
  - apply (bool_decide_unpack _). vm_compute. exact I.
  - reflexivity.
Defined.

(** ** HTTP status errors *)

Lemma startswith_other a p b q rest :
  a ≠ b → Str.startswith (String a p) (String b q +:+ rest) = false.
Proof.
  intros Hne. unfold Str.startswith. rewrite append_cons. cbn [String.prefix].
  by destruct (ascii_dec a b).
Qed.

(** C8 as the specification states it does not hold of the call that
    does not stream: status 404 with the body "not found" makes [evaluate]
    raise a [ValueError] whose message carries the code and the body but
    names no kind, and that differs from the error for status 503 in the
    digits of the code only. *)
Lemma evaluate_not_found_has_no_kind :
  Client.evaluate Json.loads Examples.a_client (Examples.serving Examples.not_found)
    "What is 2+2?" "4" None
  = inl (Exn ValueError "Evaluation API error 404: not found") ∧
  Client.evaluate Json.loads Examples.a_client (Examples.serving Examples.unavailable)
    "What is 2+2?" "4" None
  = inl (Exn ValueError "Evaluation API error 503: not found") ∧
  kind_of_status 404 = ClientErrorKind ∧
  kind_of_error (Exn ValueError "Evaluation API error 404: not found")
  ≠ Some ClientErrorKind.
Proof. vm_compute. repeat split. discriminate. Qed.

(** C8, amended.  For every response whose status is not 2xx:
    [LLMLabsClient.chat] raises a [ValueError] whose message opens with the
    words of the kind the status range calls for (client error for 4xx,
    server error for 5xx, unexpected status otherwise), followed by the
    status code and the body of the response; [Client.evaluate] raises a
    [ValueError] whose message is "Evaluation API error", the status code
    and the body, the same for every range. *)
Theorem status_errors loads auth post1 c w prompt response tid mv name mt r :
  prompt ≠ "" → Str.strip prompt ≠ "" → Str.strip response ≠ "" →
  post1 (LLMLabs.chat_request auth prompt (Some mv) (Some name) (Some mt)) = inr r →
  Client.post w (Client.evaluate_request c w prompt response
                   (JStr (Client.chosen_trace_id w tid))) = inr r →
  ¬ (200 <= status_code r < 300)%Z →
  (∃ e, LLMLabs.chat loads auth post1 prompt (Some mv) (Some name) (Some mt) = ([], inl e) ∧
        exn_cls e = ValueError ∧
        kind_of_error e = Some (kind_of_status (status_code r)) ∧
        exn_msg e = kind_label (kind_of_status (status_code r))
                    +:+ Str.of_int (status_code r) +:+ ": " +:+ text r) ∧
  (∃ e, Client.evaluate loads c w prompt response tid = inl e ∧
        exn_cls e = ValueError ∧
        kind_of_error e = None ∧
        exn_msg e = "Evaluation API error " +:+ Str.of_int (status_code r)
                    +:+ ": " +:+ text r).
Proof.
  intros Hp Hps Hrs Hpost1 Hpost Hcode. split.
  - eexists. split; [|split; [|split]].
    + unfold LLMLabs.chat. apply String.eqb_neq in Hp. rewrite Hp. simpl.
      rewrite Hpost1. by rewrite (LLMLabsCalls.labs_check_status_error r Hcode).
    + reflexivity.
    + apply LLMLabsCalls.labs_kind_of_labelled.
    + reflexivity.
  - eexists. split; [|split; [|split]].
    + rewrite (ClientCalls.evaluate_answered loads c w prompt response tid r Hps Hrs Hpost).
      assert (Client.is_2xx (status_code r) = false) as ->; [|reflexivity].
      unfold Client.is_2xx. apply andb_false_iff.
      destruct (Z.leb_spec 200 (status_code r)); [right|by left].
      apply Z.ltb_ge. lia.
    + reflexivity.
    + unfold kind_of_error, Client.api_error.
      cbn [isinstance exn_cls exn_msg issubclass negb].
      rewrite !startswith_other by discriminate. reflexivity.
    + reflexivity.
Qed.

Lemma status_errors_witness :
  (∃ e, LLMLabs.chat Json.loads Examples.an_auth (fun _ => inr Examples.not_found)
          "hi" (Some "v1") (Some "mine") (Some "default") = ([], inl e) ∧
        exn_cls e = ValueError ∧
        kind_of_error e = Some ClientErrorKind ∧
        exn_msg e = "Client error 404: not found") ∧
  (∃ e, Client.evaluate Json.loads Examples.a_client (Examples.serving Examples.not_found)
          "What is 2+2?" "4" None = inl e ∧
        exn_cls e = ValueError ∧
        kind_of_error e = None ∧
        exn_msg e = "Evaluation API error 404: not found").
Proof.
  apply (status_errors Json.loads Examples.an_auth (fun _ => inr Examples.not_found)
           Examples.a_client (Examples.serving Examples.not_found)
           "What is 2+2?" "4" None "v1" "mine" "default" Examples.not_found).
  - discriminate.
  - vm_compute. discriminate.
  - vm_compute. discriminate.
  - reflexivity.
  - reflexivity.
  - cbn. lia.
Defined.

(** ** The model *)

(** Two chunks whose model values differ, the first a string that is not
    empty: the result's model is the first chunk's. *)
Lemma model_of_two_chunks loads write stream line1 line2 m1 m2 a b :
  line_chunk loads line1 = Some (JObj m1) → Py.dict_lookup m1 "model" = Some (JStr a) →
  line_chunk loads line2 = Some (JObj m2) → Py.dict_lookup m2 "model" = Some b →
  a ≠ "" →
  model (Client.assemble loads write stream [line1; line2]) = JStr a ∧
  model (LLMLabs.assemble loads [line1; line2]) = JStr a.
Proof.
  intros H1 Ha H2 Hb Hne%String.eqb_neq.
  assert (capture JNull (models_of loads [line1; line2]) = JStr a) as Hm.
  { unfold models_of, chunks_of. simpl. rewrite H1, H2. simpl. rewrite Ha, Hb. simpl.
    unfold capture. simpl. by rewrite Hne. }
  split.
  - rewrite ClientFacts.assemble_run. unfold Client.assembled. cbn [model].
    by rewrite ClientFacts.run_model.
  - rewrite LLMLabsCalls.labs_assemble_run. unfold LLMLabs.namespace, LLMLabs.run.
    cbn [model]. by rewrite LLMLabsFacts.labs_run_model.
Qed.

(** C9 as the specification states it does not hold: of two chunks whose
    models are the empty string and "b", the first value that is not null
    is the empty string, and the result's model is "b". *)
Lemma model_empty_first_loses :
  models_of Json.loads (Examples.model_lines "" "b") = [JStr ""; JStr "b"] ∧
  first_non_null (models_of Json.loads (Examples.model_lines "" "b")) = JStr "" ∧
  model (Client.assemble Json.loads Examples.terminal false (Examples.model_lines "" "b")) = JStr "b" ∧
  model (LLMLabs.assemble Json.loads (Examples.model_lines "" "b")) = JStr "b" ∧
  model (Client.assemble Json.loads Examples.terminal false (Examples.model_lines "" "b"))
  ≠ first_non_null (models_of Json.loads (Examples.model_lines "" "b")).
Proof. vm_compute. repeat split. discriminate. Qed.

(** C9, amended.  For every body, the result's model is the first model
    value seen that is true (a string that is not empty, for a string);
    when no model value is true it is the last model value seen, and
    [None] when no chunk carries one; in [Client.chat] and in
    [LLMLabsClient.chat] alike. *)
Theorem model_first_true_wins loads write stream ls :
  model (Client.assemble loads write stream ls) = first_true_else_last (models_of loads ls) ∧
  model (LLMLabs.assemble loads ls) = first_true_else_last (models_of loads ls).
Proof.
  split.
  - rewrite ClientFacts.assemble_run. simpl.
    by rewrite ClientFacts.run_model, capture_first_true_else_last.
  - rewrite LLMLabsCalls.labs_assemble_run. simpl. unfold LLMLabs.run.
    by rewrite LLMLabsFacts.labs_run_model, capture_first_true_else_last.
Qed.

(** ** Trace identifiers *)

(** In the streaming path the trace identifier of a decoded payload
    replaces the one read from the chunks. *)
Lemma commit_takes_payload_trace_id loads l kvs t :
  loads (Client.evaluation_buffer l) = Some (JObj kvs) →
  Py.dict_lookup kvs "traceId" = Some t →
  Client.l_trace_id (exec (Client.try_commit loads) l) = t.
Proof.
  intros Hl Ht. unfold exec. rewrite (ClientFacts.try_commit_object loads l kvs Hl).
  simpl. by rewrite Ht.
Qed.

(** C10.  When the server answers an evaluation or a safety evaluation
    with a 2xx status and a JSON object, the call returns a result whose
    trace identifier is the caller's, when the caller passed a string that
    is not empty, and the generated UUID otherwise, whatever [traceId] the
    object in the body holds; whereas in the streaming path the [traceId]
    of a decoded evaluation payload replaces the trace identifier read so
    far. *)
Theorem evaluation_trace_id_is_callers loads c w prompt response tid r r' kvs kvs' :
  Str.strip prompt ≠ "" → Str.strip response ≠ "" → Client.uuid4 w ≠ "" →
  Client.post w (Client.evaluate_request c w prompt response
                   (JStr (Client.chosen_trace_id w tid))) = inr r →
  Client.is_2xx (status_code r) = true → loads (text r) = Some (JObj kvs) →
  Client.post w (Client.safety_request c w prompt
                   (JStr (Client.chosen_trace_id w tid))) = inr r' →
  Client.is_2xx (status_code r') = true → loads (text r') = Some (JObj kvs') →
  Client.evaluate loads c w prompt response tid
  = inr {| Client.er_evaluations := default (JArr []) (Py.dict_lookup kvs "evaluations");
           Client.er_trace_id := JStr (Client.chosen_trace_id w tid);
           Client.er_prompt := JStr prompt;
           Client.er_response := JStr response |} ∧
  Client.safety_evaluation loads c w prompt tid
  = inr {| Client.er_evaluations := default (JArr []) (Py.dict_lookup kvs' "evaluations");
           Client.er_trace_id := JStr (Client.chosen_trace_id w tid);
           Client.er_prompt := JStr prompt;
           Client.er_response := JNull |} ∧
  (∀ l m t, loads (Client.evaluation_buffer l) = Some (JObj m) →
            Py.dict_lookup m "traceId" = Some t →
            Client.l_trace_id (exec (Client.try_commit loads) l) = t).
Proof.
  intros Hp Hr Hu Hpost H2 Hl Hpost' H2' Hl'.
  pose proof (ClientCalls.chosen_truthy w tid Hu) as Ht.
  split; [|split].
  - rewrite (ClientCalls.evaluate_answered loads c w prompt response tid r Hp Hr Hpost), H2.
    unfold Client.response_json. rewrite Hl.
    by rewrite ClientCalls.new_EvaluationResult_object.
  - rewrite (ClientCalls.safety_answered loads c w prompt tid r' Hp Hpost'), H2'.
    unfold Client.response_json. rewrite Hl'.
    by rewrite ClientCalls.new_EvaluationResult_object.
  - intros l m t. apply commit_takes_payload_trace_id.
Qed.

Lemma evaluation_trace_id_is_callers_witness :
  Client.evaluate Json.loads Examples.a_client (Examples.serving Examples.evaluation_reply)
    "What is 2+2?" "4" (Some "mine")
  = inr {| Client.er_evaluations := Examples.payload_evaluations;
           Client.er_trace_id := JStr "mine";
           Client.er_prompt := JStr "What is 2+2?";
           Client.er_response := JStr "4" |} ∧
  Client.safety_evaluation Json.loads Examples.a_client
    (Examples.serving Examples.evaluation_reply) "What is 2+2?" (Some "mine")
  = inr {| Client.er_evaluations := Examples.payload_evaluations;
           Client.er_trace_id := JStr "mine";
           Client.er_prompt := JStr "What is 2+2?";
           Client.er_response := JNull |}.
Proof.
  pose proof (evaluation_trace_id_is_callers Json.loads Examples.a_client
                (Examples.serving Examples.evaluation_reply) "What is 2+2?" "4"
                (Some "mine") Examples.evaluation_reply Examples.evaluation_reply
                [("evaluations", Examples.payload_evaluations); ("traceId", JStr "abc")]
                [("evaluations", Examples.payload_evaluations); ("traceId", JStr "abc")])
    as H.
  refine (let H' := H _ _ _ _ _ _ _ _ _ in conj (proj1 H') (proj1 (proj2 H'))).
  - vm_compute. discriminate.
  - vm_compute. discriminate.
  - vm_compute. discriminate.
  - reflexivity.
  - reflexivity.
  - vm_compute. reflexivity.
  - reflexivity.
  - reflexivity.
  - vm_compute. reflexivity.
Defined.

(** * Further properties of the code *)

(** ** What the loop keeps of a body *)

(** X1.  The raw chunks of a result are the chunks the lines of the body
    decode to, in arrival order, each once, whatever happens while a chunk
    is processed; in [Client.chat] and in [LLMLabsClient.chat] alike. *)
Theorem raw_chunks_are_decoded_chunks loads write stream ls :
  raw_chunks (Client.assemble loads write stream ls) = chunks_of loads ls ∧
  raw_chunks (LLMLabs.assemble loads ls) = chunks_of loads ls.
Proof.
  split.
  - rewrite ClientFacts.assemble_run. unfold Client.assembled. cbn [raw_chunks].
    by rewrite ClientFacts.run_results.
  - rewrite LLMLabsCalls.labs_assemble_run. unfold LLMLabs.namespace, LLMLabs.run.
    cbn [raw_chunks]. by rewrite LLMLabsFacts.labs_run_results.
Qed.

Lemma no_payload line :
  line = "" ∨ Str.startswith "data:" line = false ∨
  Str.strip (Str.drop 5 line) = "" ∨ Str.strip (Str.drop 5 line) = "[START]" →
  line_payload line = None.
Proof.
  unfold line_payload. intros [->|[H|[H|H]]].
  - reflexivity.
  - rewrite H. by rewrite andb_false_r.
  - rewrite H. cbn. by destruct (_ && _).
  - rewrite H. cbn. by destruct (_ && _).
Qed.

(** X2.  A line that is empty, or does not start with [data:], or whose
    text after [data:] is blank or the sentinel [START] once stripped, has
    no effect: the result of the body is that of the body without the
    line; in both clients. *)
Theorem line_without_payload_ignored loads write stream ls1 line ls2 :
  line = "" ∨ Str.startswith "data:" line = false ∨
  Str.strip (Str.drop 5 line) = "" ∨ Str.strip (Str.drop 5 line) = "[START]" →
  Client.assemble loads write stream (ls1 ++ line :: ls2)
  = Client.assemble loads write stream (ls1 ++ ls2) ∧
  LLMLabs.assemble loads (ls1 ++ line :: ls2) = LLMLabs.assemble loads (ls1 ++ ls2).
Proof.
  intros H%no_payload.
  assert (line_chunk loads line = None) as Hc by (unfold line_chunk; by rewrite H).
  split.
  - rewrite !ClientFacts.assemble_run, !ClientFacts.run_app, ClientFacts.run_cons.
    by rewrite ClientFacts.exec_process_line, Hc.
  - rewrite !LLMLabsCalls.labs_assemble_run, !LLMLabsCalls.labs_run_app,
      LLMLabsCalls.labs_run_cons.
    by rewrite LLMLabsFacts.labs_exec_process_line, Hc.
Qed.

Lemma line_without_payload_ignored_witness :
  Str.strip (Str.drop 5 "data:   [START]  ") = "[START]" ∧
  Client.assemble Json.loads Examples.terminal true
    ([Examples.content_line (wire "'Hel'")] ++ "data:   [START]  "
       :: [Examples.content_line (wire "'lo'")])
  = Client.assemble Json.loads Examples.terminal true
      ([Examples.content_line (wire "'Hel'")] ++ [Examples.content_line (wire "'lo'")]) ∧
  LLMLabs.assemble Json.loads
    ([Examples.content_line (wire "'Hel'")] ++ "data:   [START]  "
       :: [Examples.content_line (wire "'lo'")])
  = LLMLabs.assemble Json.loads
      ([Examples.content_line (wire "'Hel'")] ++ [Examples.content_line (wire "'lo'")]).
Proof.
  split; [vm_compute; reflexivity|].
  apply (line_without_payload_ignored Json.loads Examples.terminal true
           [Examples.content_line (wire "'Hel'")] "data:   [START]  "
           [Examples.content_line (wire "'lo'")]).
  right. right. right. vm_compute. reflexivity.
Defined.

(** ** The single-chunk strategy on every valid body *)

Section LabsMarkers.

Variable loads : string → option pyval.

Lemma labs_process_choice_marker c s l :
  choice_content c = Some s → Str.starts_evaluation s = true →
  LLMLabs.process_choice loads c l = labs_decode loads s l.
Proof.
  intros Hc Hs. unfold choice_content in Hc. unfold LLMLabs.process_choice.
  destruct c as [| | | | | | | |kvs]; try discriminate. cbn [Py.get].
  destruct (default (JObj []) (Py.dict_lookup kvs "delta")) as [| | | | | | | |d];
    try discriminate.
  unfold bind at 1, lift at 1. cbn [Py.get].
  destruct (default (JStr "") (Py.dict_lookup d "content")); try discriminate.
  injection Hc as ->. unfold bind at 1, lift at 1. by rewrite Hs.
Qed.

Lemma labs_decode_total s l : snd (labs_decode loads s l) = inr tt.
Proof.
  unfold labs_decode, try_except.
  match goal with |- context [let (_, _) := ?x in _] => destruct x as [l' [e|[]]] end;
    reflexivity.
Qed.

Lemma labs_decode_keeps_response s :
  steps (keeps LLMLabs.stitched_response) (labs_decode loads s).
Proof. unfold labs_decode. steps_tac. Qed.

Lemma labs_process_choice_valid c s l :
  choice_content c = Some s →
  snd (LLMLabs.process_choice loads c l) = inr tt ∧
  LLMLabs.stitched_response (fst (LLMLabs.process_choice loads c l))
  = LLMLabs.stitched_response l +:+ (if plain s then s else "").
Proof.
  intros Hc. unfold plain. destruct (Str.starts_evaluation s) eqn:Hs; cbn [negb].
  - rewrite (labs_process_choice_marker c s l Hc Hs), append_nil_r.
    split; [apply labs_decode_total | apply labs_decode_keeps_response].
  - rewrite (LLMLabsFacts.labs_process_choice_plain loads c s l Hc Hs). split; reflexivity.
Qed.

Lemma labs_choices_valid cs fs l :
  mapM choice_content cs = Some fs →
  snd (for_each cs (LLMLabs.process_choice loads) l) = inr tt ∧
  LLMLabs.stitched_response (fst (for_each cs (LLMLabs.process_choice loads) l))
  = LLMLabs.stitched_response l +:+ join (List.filter plain fs).
Proof.
  revert fs l. induction cs as [|c cs IH]; intros fs l Hfs.
  - injection Hfs as <-. cbn. by rewrite append_nil_r.
  - rewrite mapM_Some in Hfs. destruct fs as [|f fs]; [inversion Hfs|].
    apply Forall2_cons_1 in Hfs as [Hc Hfs]. apply mapM_Some in Hfs.
    destruct (labs_process_choice_valid c f l Hc) as [Hok Hr].
    cbn [for_each]. unfold bind.
    destruct (LLMLabs.process_choice loads c l) as [l1 r]. cbn [fst snd] in Hok, Hr.
    subst r. destruct (IH fs l1 Hfs) as [IHok IHr]. split; [exact IHok|].
    rewrite IHr, Hr. cbn [List.filter].
    destruct (plain f).
    + cbn [join foldr]. by rewrite append_assoc.
    + by rewrite append_nil_r.
Qed.

Lemma labs_process_chunk_valid chunk fs l :
  chunk_fragments chunk = Some fs →
  LLMLabs.stitched_response (exec (LLMLabs.process_chunk loads chunk) l)
  = LLMLabs.stitched_response l +:+ join (List.filter plain fs).
Proof.
  intros Hfs. unfold LLMLabs.process_chunk. rewrite exec_bind. cbn [modify].
  rewrite exec_bind.
  assert (∃ kvs, chunk = JObj kvs) as [kvs ->].
  { destruct chunk; try discriminate. eauto. }
  pose proof (LLMLabsFacts.labs_extract_metadata_object kvs
                (LLMLabs.append_result (JObj kvs) l)) as Hok.
  pose proof (LLMLabsFacts.labs_extract_metadata_keeps_response (JObj kvs)
                (LLMLabs.append_result (JObj kvs) l)) as Hk.
  destruct (LLMLabs.extract_metadata _ _) as [l1 r]. simpl in Hok, Hk. subst r.
  rewrite LLMLabsFacts.labs_exec_process_choices.
  apply chunk_fragments_choices in Hfs.
  destruct (labs_choices_valid _ fs l1 Hfs) as [_ Hr]. unfold exec. rewrite Hr.
  unfold keeps in Hk. simpl in Hk. by rewrite Hk.
Qed.

Lemma labs_run_valid ls l :
  Forall (valid_line loads) ls →
  LLMLabs.stitched_response (LLMLabs.run loads ls l)
  = LLMLabs.stitched_response l +:+ join (List.filter plain (fragments_of loads ls)).
Proof.
  revert l. induction ls as [|line ls IH]; intros l Hvalid.
  - cbn. by rewrite append_nil_r.
  - apply Forall_cons in Hvalid as [Hline Hvalid].
    rewrite LLMLabsCalls.labs_run_cons, (IH _ Hvalid), LLMLabsFacts.labs_exec_process_line.
    unfold fragments_of, chunks_of in *. cbn [omap list_omap flat_map].
    unfold valid_line in Hline. unfold line_chunk in *.
    destruct (line_payload line) as [p|]; cbn [mbind option_bind]; [|reflexivity].
    destruct Hline as (chunk & fs & Hl & Hfs). rewrite Hl. cbn [flat_map].
    rewrite Hfs. cbn [default from_option].
    rewrite (labs_process_chunk_valid chunk fs l Hfs).
    by rewrite List.filter_app, join_app, append_assoc.
Qed.

End LabsMarkers.

(** X3.  In [LLMLabsClient.chat], for every body whose payload lines
    decode to Chunks, the response is the concatenation, in arrival order,
    of the content fragments that do not look like an evaluation payload;
    a fragment that starts with a brace and contains "evaluations" never
    reaches the response, whether it decodes or not. *)
Theorem labs_response_leaves_out_payloads loads ls :
  Forall (valid_line loads) ls →
  response (LLMLabs.assemble loads ls)
  = join (List.filter (fun s => negb (Str.starts_evaluation s)) (fragments_of loads ls)).
Proof.
  intros Hvalid. rewrite LLMLabsCalls.labs_assemble_run.
  unfold LLMLabs.namespace. cbn [response].
  by rewrite (labs_run_valid loads ls LLMLabs.init Hvalid).
Qed.

Lemma labs_response_leaves_out_payloads_witness :
  Forall (valid_line Json.loads) Examples.split_fragments ∧
  response (LLMLabs.assemble Json.loads Examples.split_fragments)
  = join (List.filter (fun s => negb (Str.starts_evaluation s))
            (fragments_of Json.loads Examples.split_fragments)).
Proof.
  assert (Forall (valid_line Json.loads) Examples.split_fragments) as Hvalid.
  { repeat constructor; unfold valid_line; vm_compute;
      eexists _, _; split; reflexivity. }
  split; [exact Hvalid|].
  exact (labs_response_leaves_out_payloads Json.loads Examples.split_fragments Hvalid).
Defined.

(** ** An evaluation payload in any number of fragments *)

Lemma append_buffer_nil l : Client.append_buffer "" l = l.
Proof. destruct l. unfold Client.append_buffer. cbn. by rewrite append_nil_r. Qed.

Lemma append_buffer_append a b l :
  Client.append_buffer b (Client.append_buffer a l) = Client.append_buffer (a +:+ b) l.
Proof. unfold Client.append_buffer. cbn. by rewrite append_assoc. Qed.

Lemma feed_cons loads write stream f fs l :
  feed loads write stream (f :: fs) l
  = feed loads write stream fs (exec (Client.process_content loads write stream f) l).
Proof. reflexivity. Qed.

Lemma feed_app loads write stream fs1 fs2 l :
  feed loads write stream (fs1 ++ fs2) l = feed loads write stream fs2 (feed loads write stream fs1 l).
Proof. apply foldl_app. Qed.

(** While a block is open and the buffer does not decode, every fragment
    is added to the buffer and to nothing else. *)
Lemma feed_accumulates loads write stream bs l :
  Client.in_evaluation_block l = true →
  Forall (fun b => Str.starts_evaluation b = false) bs →
  (∀ k, 0 < k <= length bs →
        loads (Client.evaluation_buffer l +:+ join (take k bs)) = None) →
  feed loads write stream bs l = Client.append_buffer (join bs) l.
Proof.
  revert l. induction bs as [|b bs IH]; intros l Hopen Hplain Hfail.
  - cbn. by rewrite append_buffer_nil.
  - apply Forall_cons in Hplain as [Hb Hplain].
    rewrite feed_cons. unfold exec.
    rewrite (ClientFacts.process_content_accumulate loads write stream b l Hb Hopen).
    rewrite ClientFacts.try_commit_pending.
    + cbn [fst]. rewrite IH; [by rewrite append_buffer_append | done | done |].
      intros k Hk. cbn. rewrite append_assoc.
      apply (Hfail (S k)). cbn. lia.
    + cbn. specialize (Hfail 1). cbn in Hfail. rewrite append_nil_r in Hfail.
      apply Hfail. lia.
Qed.

(** X4.  In [Client.chat], an evaluation payload that arrives in any
    number of fragments after the one that opens the block is reassembled:
    as long as the buffer does not decode the fragments are only
    accumulated, and when it decodes to an object its evaluations and its
    trace identifier are committed, the block is closed and the buffer
    emptied; nothing of it reaches the response or the output. *)
Theorem payload_reassembled loads write stream a bs kvs l :
  Str.starts_evaluation a = true →
  Forall (fun b => Str.starts_evaluation b = false) bs →
  bs ≠ [] →
  (∀ k, 0 < k < length bs → loads (a +:+ join (take k bs)) = None) →
  loads (a +:+ join bs) = Some (JObj kvs) →
  feed loads write stream (a :: bs) l
  = Client.set_block false ""
      (Client.set_trace_id
         (default (Client.l_trace_id l) (Py.dict_lookup kvs "traceId"))
         (Client.set_evaluations
            (default JNull (Py.dict_lookup kvs "evaluations")) l)).
Proof.
  intros Ha Hplain Hne Hfail Hl.
  destruct (exists_last Hne) as (bs0 & b & ->).
  apply Forall_app in Hplain as [Hplain0 Hb]. apply List.Forall_inv in Hb.
  rewrite feed_cons, feed_app. unfold exec at 1.
  rewrite (ClientFacts.process_content_start loads write stream a l Ha). cbn [fst].
  rewrite (feed_accumulates loads write stream bs0 (Client.set_block true a l));
    [|done|done|].
  - rewrite feed_cons. unfold feed. cbn [foldl]. unfold exec.
    rewrite (ClientFacts.process_content_accumulate loads write stream b
               (Client.append_buffer (join bs0) (Client.set_block true a l)) Hb eq_refl).
    rewrite (ClientFacts.try_commit_object loads _ kvs).
    + reflexivity.
    + cbn. rewrite join_app in Hl. cbn in Hl.
      by rewrite append_nil_r, <- append_assoc in Hl.
  - intros k Hk. cbn. rewrite <- (take_app_le bs0 [b]) by lia.
    apply Hfail. rewrite length_app. cbn. lia.
Qed.

Lemma payload_reassembled_witness :
  feed Json.loads Examples.terminal true
    [MoreExamples.opening; MoreExamples.middle; MoreExamples.closing] Client.init
  = Client.set_block false ""
      (Client.set_trace_id (JStr "abc")
         (Client.set_evaluations Examples.payload_evaluations Client.init)).
Proof.
  apply (payload_reassembled Json.loads Examples.terminal true MoreExamples.opening
           [MoreExamples.middle; MoreExamples.closing]
           [("evaluations", Examples.payload_evaluations); ("traceId", JStr "abc")]
           Client.init).
  - vm_compute. reflexivity.
  - repeat constructor; vm_compute; reflexivity.
  - discriminate.
  - intros k Hk. cbn in Hk. assert (k = 1) as -> by lia. vm_compute. reflexivity.
  - vm_compute. reflexivity.
Defined.

(** ** Echoing the response *)

Section Sim.

Context {S : Type} (R : relation S).

Lemma sim_ret {A} (a : A) : sim R (ret a) (ret a).
Proof. intros s s' H. by split. Qed.

Lemma sim_lift {A} (r : result A) : sim R (lift r) (lift r).
Proof. intros s s' H. by split. Qed.

Lemma sim_gets {A} (f : S → A) :
  (∀ s s', R s s' → f s = f s') → sim R (gets f) (gets f).
Proof. intros Hf s s' H. split; [exact H|]. cbn. by rewrite (Hf s s' H). Qed.

Lemma sim_modify (f g : S → S) :
  (∀ s s', R s s' → R (f s) (g s')) → sim R (modify f) (modify g).
Proof. intros Hf s s' H. split; [by apply Hf | reflexivity]. Qed.

Lemma sim_bind {A B} (m m' : M S A) (k k' : A → M S B) :
  sim R m m' → (∀ a, sim R (k a) (k' a)) → sim R (bind m k) (bind m' k').
Proof.
  intros Hm Hk s s' H. unfold bind. destruct (Hm s s' H) as [HR Hres].
  destruct (m s) as [s1 r1], (m' s') as [s1' r1']. cbn [fst snd] in *. subst r1'.
  destruct r1 as [e|a]; [by split|]. by apply Hk.
Qed.

Lemma sim_try_except {A} (m m' : M S A) cls (h h' : exn → M S A) :
  sim R m m' → (∀ e, sim R (h e) (h' e)) →
  sim R (try_except m cls h) (try_except m' cls h').
Proof.
  intros Hm Hh s s' H. unfold try_except. destruct (Hm s s' H) as [HR Hres].
  destruct (m s) as [s1 r1], (m' s') as [s1' r1']. cbn [fst snd] in *. subst r1'.
  destruct r1 as [e|a]; [|by split].
  destruct (isinstance e cls); [by apply Hh | by split].
Qed.

Lemma sim_try_pass (m m' : M S unit) : sim R m m' → sim R (try_pass m) (try_pass m').
Proof. intros Hm s s' H. split; [apply (Hm s s' H) | reflexivity]. Qed.

Lemma sim_when (b : bool) (m m' : M S unit) :
  sim R m m' → sim R (when b m) (when b m').
Proof. intros Hm. destruct b; [exact Hm | apply sim_ret]. Qed.

Lemma sim_for_each {A} (l : list A) (body body' : A → M S unit) :
  (∀ x, sim R (body x) (body' x)) → sim R (for_each l body) (for_each l body').
Proof.
  intros Hb. induction l as [|x l IH]; cbn [for_each].
  - apply sim_ret.
  - apply sim_bind; [apply Hb | intros _; exact IH].
Qed.

End Sim.

Ltac sim_step :=
  lazymatch goal with
  | |- sim _ (ret _) (ret _) => apply sim_ret
  | |- sim _ (lift _) (lift _) => apply sim_lift
  | |- sim _ (gets _) (gets _) => apply sim_gets
  | |- sim _ (bind _ _) (bind _ _) => apply sim_bind; [|intros ?]
  | |- sim _ (try_except _ _ _) (try_except _ _ _) => apply sim_try_except; [|intros ?]
  | |- sim _ (try_pass _) (try_pass _) => apply sim_try_pass
  | |- sim _ (when ?b _) (when ?b _) => apply sim_when
  | |- sim _ (for_each _ _) (for_each _ _) => apply sim_for_each; intros ?
  | |- sim _ (modify _) (modify _) => apply sim_modify
  | |- sim _ (if ?b then _ else _) (if ?b then _ else _) => destruct b
  | |- sim _ (match ?x with _ => _ end) (match ?x with _ => _ end) => destruct x
  end.

Lemma same_but_stdout_field {X} (f : Client.locals → X) l l' :
  (∀ l, f (quiet l) = f l) → same_but_stdout l l' → f l = f l'.
Proof. intros Hf H. rewrite <- (Hf l), <- (Hf l'). by rewrite H. Qed.

Lemma same_but_stdout_update (f : Client.locals → Client.locals) l l' :
  (∀ l, quiet (f l) = quiet (f (quiet l))) →
  same_but_stdout l l' → same_but_stdout (f l) (f l').
Proof.
  intros Hf H. unfold same_but_stdout in *. by rewrite (Hf l), (Hf l'), H.
Qed.

Ltac quiet_tac :=
  first
    [ intros ? ? ?; eapply same_but_stdout_field; [|eassumption]; intros []; reflexivity
    | intros ? ? ?; eapply same_but_stdout_update; [|eassumption]; intros []; reflexivity ].

(** An echo that standard output takes changes what has been printed and
    nothing else. *)
Lemma echo_quiet write b s :
  Client.accepts write →
  sim same_but_stdout (when b (Client.print write s)) (when false (Client.print write s)).
Proof.
  intros Hw l l' H. destruct b; [|by split].
  unfold when, Client.print, bind, gets. cbn [fst snd]. rewrite Hw.
  split; [|reflexivity]. unfold same_but_stdout in *. cbn. destruct l, l'. exact H.
Qed.

(** Echoing, on a standard output that takes every text, changes what is
    printed and nothing else. *)
Lemma process_line_echo loads write line :
  Client.accepts write →
  sim same_but_stdout (Client.process_line loads write true line)
      (Client.process_line loads write false line).
Proof.
  intros Hw. unfold Client.process_line.
  repeat first [sim_step | quiet_tac].
  all: unfold Client.process_chunk, Client.extract_metadata, Client.process_choices,
         Client.process_choice, Client.process_content, Client.try_commit.
  all: repeat first [sim_step | quiet_tac].
  all: cbn [andb]; by apply echo_quiet.
Qed.

#[export] Instance echoed_preorder : PreOrder echoed.
Proof. split; [intros l H; exact H | intros a b c H1 H2 H; exact (H2 (H1 H))]. Qed.

Lemma content_echoed write s :
  Client.accepts write →
  steps echoed
    (modify (Client.append_response s) ;;
     when (true && negb (String.eqb s "")) (Client.print write s)).
Proof.
  intros Hw l H. unfold echoed, echo_in_step in *.
  unfold bind, modify, when, Client.print, gets. cbn.
  destruct (String.eqb_spec s "") as [->|Hs]; cbn.
  - by rewrite append_nil_r.
  - rewrite Hw. cbn. rewrite join_app, H. f_equal. unfold join. cbn. apply append_nil_r.
Qed.

Lemma process_line_echoed loads write line :
  Client.accepts write →
  steps echoed (Client.process_line loads write true line).
Proof.
  intros Hw.
  unfold Client.process_line, Client.process_chunk, Client.extract_metadata,
    Client.process_choices, Client.process_choice, Client.process_content,
    Client.try_commit.
  repeat first [apply (content_echoed write _ Hw) | steps_step].
  all: intros H; exact H.
Qed.

Lemma steps_when_false {S} (R : relation S) `{!PreOrder R} (m : M S unit) :
  steps R (when false m).
Proof. intros s. reflexivity. Qed.

Lemma process_line_silent loads write line :
  steps (keeps Client.stdout) (Client.process_line loads write false line).
Proof.
  unfold Client.process_line, Client.process_chunk, Client.extract_metadata,
    Client.process_choices, Client.process_choice, Client.process_content,
    Client.try_commit.
  repeat first [apply steps_when_false | steps_step].
Qed.

Lemma consume_echo loads write r :
  Client.accepts write →
  sim same_but_stdout (Client.consume loads write true r) (Client.consume loads write false r).
Proof.
  intros Hw. unfold Client.consume, for_lines.
  apply sim_bind; [apply sim_for_each; intros line; by apply process_line_echo|].
  intros _. destruct (broken r); [apply sim_lift | apply sim_ret].
Qed.

Lemma consume_echoed loads write r :
  Client.accepts write → steps echoed (Client.consume loads write true r).
Proof.
  intros Hw. unfold Client.consume, for_lines.
  apply steps_bind; [typeclasses eauto | apply steps_for_each; [typeclasses eauto|] |].
  - intros line. by apply process_line_echoed.
  - intros _. destruct (broken r); [apply steps_lift | apply steps_ret]; typeclasses eauto.
Qed.

Lemma consume_silent loads write r : steps (keeps Client.stdout) (Client.consume loads write false r).
Proof.
  unfold Client.consume, for_lines.
  apply steps_bind; [typeclasses eauto | apply steps_for_each; [typeclasses eauto|] |].
  - apply process_line_silent.
  - intros _. destruct (broken r); [apply steps_lift | apply steps_ret]; typeclasses eauto.
Qed.

Lemma wrap_request_error_inr {A} label (r : result A) (a : A) :
  Client.wrap_request_error label r = inr a → r = inr a.
Proof.
  destruct r as [e|a']; [|done]. unfold Client.wrap_request_error, raise.
  destruct (isinstance e RequestException); discriminate.
Qed.

(** X5. [Client.chat], lines 327-331: on a standard output that takes
    every text it is given, the [stream] flag decides what is printed and
    nothing else.  A call returns the same value or raises the same
    exception with [stream=True] and with [stream=False]; with
    [stream=False] it prints nothing; and when a call with [stream=True]
    returns, the pieces it has printed, put end to end, are the [response]
    of the [ChatResponse] it returns. *)
Theorem stream_flag_only_prints loads write c w prompt :
  Client.accepts write →
  snd (Client.chat loads write c w prompt true) = snd (Client.chat loads write c w prompt false)
  ∧ fst (Client.chat loads write c w prompt false) = []
  ∧ ∀ cr, snd (Client.chat loads write c w prompt true) = inr cr →
          join (fst (Client.chat loads write c w prompt true)) = Client.cr_response cr.
Proof.
  intros Hw. unfold Client.chat.
  destruct (String.eqb (Str.strip prompt) ""); [by repeat split|].
  destruct (Client.post w (Client.chat_request c prompt)) as [e|r].
  { repeat split. cbn [fst snd]. by intros cr H%wrap_request_error_inr. }
  destruct (negb (Client.is_2xx (status_code r))); [by repeat split|].
  pose proof (consume_echo loads write r Hw Client.init Client.init eq_refl) as [Hsame Hres].
  pose proof (consume_echoed loads write r Hw Client.init eq_refl) as Hecho.
  pose proof (consume_silent loads write r Client.init) as Hsilent.
  unfold keeps in Hsilent. unfold echo_in_step in Hecho.
  destruct (Client.consume loads write true r Client.init) as [l res].
  destruct (Client.consume loads write false r Client.init) as [l' res'].
  cbn [fst snd] in *. subst res'.
  assert (Hfields : Client.chat_response c prompt l = Client.chat_response c prompt l').
  { unfold same_but_stdout in Hsame. destruct l, l'. by injection Hsame as -> -> -> -> -> -> ->. }
  destruct res as [e|[]]; cbn [fst snd].
  - repeat split; [exact Hsilent|]. by intros cr H%wrap_request_error_inr.
  - rewrite !ClientCalls.new_ChatResponse_spec, Hfields.
    repeat split; [exact Hsilent|].
    intros cr H%wrap_request_error_inr. injection H as <-.
    rewrite Hecho. by rewrite <- Hfields.
Qed.

Lemma stream_flag_only_prints_witness :
  Client.accepts MoreExamples.lenient ∧
  fst (Client.chat Json.loads MoreExamples.lenient Examples.a_client
         MoreExamples.hello_world "hi" true)
  = ["Hel"; "lo"] ∧
  fst (Client.chat Json.loads MoreExamples.lenient Examples.a_client
         MoreExamples.hello_world "hi" false) = [] ∧
  ∃ cr, snd (Client.chat Json.loads MoreExamples.lenient Examples.a_client
               MoreExamples.hello_world "hi" false)
        = inr cr ∧ Client.cr_response cr = "Hello".
Proof.
  assert (Client.accepts MoreExamples.lenient) as Hw by (intros out s; reflexivity).
  split; [exact Hw|].
  destruct (stream_flag_only_prints Json.loads MoreExamples.lenient Examples.a_client
              MoreExamples.hello_world "hi" Hw) as (Hsame & Hsilent & Hecho).
  split; [vm_compute; reflexivity|]. split; [exact Hsilent|].
  rewrite <- Hsame.
  destruct (snd (Client.chat Json.loads MoreExamples.lenient Examples.a_client
                   MoreExamples.hello_world "hi" true))
    as [e|cr] eqn:Hcr; [vm_compute in Hcr; discriminate|].
  exists cr. split; [reflexivity|].
  rewrite <- (Hecho cr eq_refl). vm_compute. reflexivity.
Defined.

(** ** The trace identifier of a body without evaluation payloads *)

Lemma last_id_step {A} (t v : A) vs :
  default t (last (v :: vs)) = default v (last vs).
Proof.
  revert t v. induction vs as [|v' vs IH]; intros t v; [reflexivity|].
  rewrite last_cons_cons. rewrite (IH t v'). symmetry. apply IH.
Qed.

Section PlainMetadata.

Variable loads : string → option pyval.
Variable write : list string → string → option exn.

Lemma choices_plain_keeps {X} (f : Client.locals → X) stream cs fs l :
  (∀ s l, f (Client.append_response s l) = f l) →
  (∀ s l, f (Client.written s l) = f l) →
  mapM choice_content cs = Some fs →
  Forall (fun s => Str.starts_evaluation s = false) fs →
  Client.in_evaluation_block l = false →
  f (exec (for_each cs (Client.process_choice loads write stream)) l) = f l ∧
  Client.in_evaluation_block
    (exec (for_each cs (Client.process_choice loads write stream)) l) = false.
Proof.
  intros Hr Hp. revert fs l. induction cs as [|c cs IH]; intros fs l Hfs Hplain Hb.
  - done.
  - rewrite mapM_Some in Hfs. destruct fs as [|s fs]; [inversion Hfs|].
    apply Forall2_cons_1 in Hfs as [Hc Hfs]. apply mapM_Some in Hfs.
    apply Forall_cons in Hplain as [Hs Hplain].
    cbn [for_each]. rewrite exec_bind.
    rewrite (ClientFacts.process_choice_content loads write stream c s l Hc).
    rewrite (ClientFacts.process_content_plain loads write stream s l Hs Hb).
    pose proof (ClientFacts.echo_keeps write f stream s Hp (Client.append_response s l))
      as Hf.
    pose proof (ClientFacts.echo_keeps write Client.in_evaluation_block stream s
                  (fun _ _ => eq_refl) (Client.append_response s l)) as Hk.
    unfold keeps in Hf, Hk. rewrite Hr in Hf. cbn [Client.append_response
      Client.in_evaluation_block] in Hk. rewrite Hb in Hk.
    destruct (Client.echo write stream s (Client.append_response s l)) as [l' [e|[]]];
      cbn [fst] in Hf, Hk.
    + done.
    + destruct (IH fs l' Hfs Hplain Hk) as [IHf IHk]. by rewrite IHf.
Qed.

Lemma extract_metadata_trace_id kvs l :
  Client.l_trace_id (exec (Client.extract_metadata (JObj kvs)) l)
  = default (Client.l_trace_id l) (Py.dict_lookup kvs "id") ∧
  Client.l_evaluations (exec (Client.extract_metadata (JObj kvs)) l)
  = Client.l_evaluations l ∧
  Client.in_evaluation_block (exec (Client.extract_metadata (JObj kvs)) l)
  = Client.in_evaluation_block l.
Proof.
  unfold Client.extract_metadata, exec, bind, gets, lift, when, Py.contains, Py.getitem,
    Py.has_key.
  destruct (negb _); simpl;
    destruct (Py.dict_lookup kvs "model"); simpl;
    destruct (Py.dict_lookup kvs "id"); done.
Qed.

Lemma process_chunk_plain_metadata stream chunk fs l :
  chunk_fragments chunk = Some fs →
  Forall (fun s => Str.starts_evaluation s = false) fs →
  Client.in_evaluation_block l = false →
  Client.l_trace_id (exec (Client.process_chunk loads write stream chunk) l)
  = default (Client.l_trace_id l) (chunk_id chunk) ∧
  Client.l_evaluations (exec (Client.process_chunk loads write stream chunk) l)
  = Client.l_evaluations l ∧
  Client.in_evaluation_block (exec (Client.process_chunk loads write stream chunk) l)
  = false.
Proof.
  intros Hfs Hplain Hb.
  assert (∃ kvs, chunk = JObj kvs) as [kvs ->].
  { destruct chunk; try discriminate. eauto. }
  apply chunk_fragments_choices in Hfs.
  pose proof (ClientFacts.process_chunk_cases loads write stream (JObj kvs) l) as Hc.
  pose proof (ClientFacts.extract_metadata_object kvs (Client.append_result (JObj kvs) l)) as Hok.
  destruct (extract_metadata_trace_id kvs (Client.append_result (JObj kvs) l))
    as (Ht & He & Hk).
  unfold exec in Ht, He, Hk.
  destruct (Client.extract_metadata _ _) as [l1 r]. simpl in Hok, Ht, He, Hk. subst r.
  destruct Hc as [-> _]. rewrite Hb in Hk.
  destruct (choices_plain_keeps Client.l_trace_id stream _ fs l1
              (fun _ _ => eq_refl) (fun _ _ => eq_refl) Hfs Hplain Hk) as [-> ->].
  destruct (choices_plain_keeps Client.l_evaluations stream _ fs l1
              (fun _ _ => eq_refl) (fun _ _ => eq_refl) Hfs Hplain Hk) as [-> _].
  done.
Qed.

Lemma run_plain_metadata stream ls l :
  Forall (valid_line loads) ls →
  Forall (fun s => Str.starts_evaluation s = false) (fragments_of loads ls) →
  Client.in_evaluation_block l = false →
  Client.l_trace_id (Client.run loads write stream ls l)
  = default (Client.l_trace_id l) (last (ids_of loads ls)) ∧
  Client.l_evaluations (Client.run loads write stream ls l) = Client.l_evaluations l.
Proof.
  revert l. induction ls as [|line ls IH]; intros l Hvalid Hplain Hb.
  - done.
  - apply Forall_cons in Hvalid as [Hline Hvalid].
    rewrite ClientFacts.run_cons, ClientFacts.exec_process_line.
    unfold ids_of, fragments_of, chunks_of in *. simpl in *.
    unfold valid_line in Hline. unfold line_chunk in *.
    destruct (line_payload line) as [p|]; simpl in *; [|by apply IH].
    destruct Hline as (chunk & fs & Hl & Hfs). rewrite Hl in *. simpl in *.
    rewrite Hfs in *. simpl in *.
    apply Forall_app in Hplain as [Hfs_plain Hplain].
    destruct (process_chunk_plain_metadata stream chunk fs l Hfs Hfs_plain Hb)
      as (Ht & He & Hb').
    destruct (IH _ Hvalid Hplain Hb') as [IHt IHe].
    rewrite IHt, IHe, Ht, He. split; [|reflexivity].
    destruct (chunk_id chunk) as [v|]; simpl; [|reflexivity].
    by rewrite last_id_step.
Qed.

End PlainMetadata.

Section LabsPlainMetadata.

Variable loads : string → option pyval.

Lemma labs_extract_metadata_trace_id kvs l :
  LLMLabs.l_trace_id (exec (LLMLabs.extract_metadata (JObj kvs)) l)
  = default (LLMLabs.l_trace_id l) (Py.dict_lookup kvs "id") ∧
  LLMLabs.l_evaluations (exec (LLMLabs.extract_metadata (JObj kvs)) l)
  = LLMLabs.l_evaluations l.
Proof.
  unfold LLMLabs.extract_metadata, exec, bind, gets, lift, when, Py.contains, Py.getitem,
    Py.has_key.
  destruct (negb _); simpl;
    destruct (Py.dict_lookup kvs "model"); simpl;
    destruct (Py.dict_lookup kvs "id"); done.
Qed.

Lemma labs_process_chunk_plain_metadata chunk fs l :
  chunk_fragments chunk = Some fs →
  Forall (fun s => Str.starts_evaluation s = false) fs →
  LLMLabs.l_trace_id (exec (LLMLabs.process_chunk loads chunk) l)
  = default (LLMLabs.l_trace_id l) (chunk_id chunk) ∧
  LLMLabs.l_evaluations (exec (LLMLabs.process_chunk loads chunk) l)
  = LLMLabs.l_evaluations l.
Proof.
  intros Hfs Hplain. unfold LLMLabs.process_chunk. rewrite exec_bind. simpl.
  rewrite exec_bind.
  assert (∃ kvs, chunk = JObj kvs) as [kvs ->].
  { destruct chunk; try discriminate. eauto. }
  pose proof (LLMLabsFacts.labs_extract_metadata_object kvs
                (LLMLabs.append_result (JObj kvs) l)) as Hok.
  destruct (labs_extract_metadata_trace_id kvs (LLMLabs.append_result (JObj kvs) l))
    as [Ht He].
  unfold exec in Ht, He.
  destruct (LLMLabs.extract_metadata _ _) as [l1 r]. simpl in Hok, Ht, He. subst r.
  rewrite LLMLabsFacts.labs_exec_process_choices.
  apply chunk_fragments_choices in Hfs.
  unfold exec. rewrite (LLMLabsFacts.labs_choices_plain loads _ fs l1 Hfs Hplain). done.
Qed.

Lemma labs_run_plain_metadata ls l :
  Forall (valid_line loads) ls →
  Forall (fun s => Str.starts_evaluation s = false) (fragments_of loads ls) →
  LLMLabs.l_trace_id (LLMLabs.run loads ls l)
  = default (LLMLabs.l_trace_id l) (last (ids_of loads ls)) ∧
  LLMLabs.l_evaluations (LLMLabs.run loads ls l) = LLMLabs.l_evaluations l.
Proof.
  revert l. induction ls as [|line ls IH]; intros l Hvalid Hplain.
  - done.
  - apply Forall_cons in Hvalid as [Hline Hvalid].
    rewrite LLMLabsCalls.labs_run_cons, LLMLabsFacts.labs_exec_process_line.
    unfold ids_of, fragments_of, chunks_of in *. simpl in *.
    unfold valid_line in Hline. unfold line_chunk in *.
    destruct (line_payload line) as [p|]; simpl in *; [|by apply IH].
    destruct Hline as (chunk & fs & Hl & Hfs). rewrite Hl in *. simpl in *.
    rewrite Hfs in *. simpl in *.
    apply Forall_app in Hplain as [Hfs_plain Hplain].
    destruct (labs_process_chunk_plain_metadata chunk fs l Hfs Hfs_plain) as [Ht He].
    destruct (IH (exec (LLMLabs.process_chunk loads chunk) l) Hvalid Hplain) as [IHt IHe].
    rewrite IHt, IHe, Ht, He. split; [|reflexivity].
    destruct (chunk_id chunk) as [v|]; simpl; [|reflexivity].
    by rewrite last_id_step.
Qed.

End LabsPlainMetadata.

(** X6. [Client.chat], lines 297-301, and [LLMLabsClient.chat], lines
    65-69: when every line of the body is valid and no content fragment
    looks like an evaluation payload, the trace identifier that comes back
    is the [id] of the last chunk that has one ([None] when no chunk has
    one), and the evaluations are [None]. *)
Theorem plain_stream_trace_id loads write stream ls :
  Forall (valid_line loads) ls →
  Forall (fun s => Str.starts_evaluation s = false) (fragments_of loads ls) →
  (trace_id (Client.assemble loads write stream ls) = default JNull (last (ids_of loads ls)) ∧
   evaluations (Client.assemble loads write stream ls) = JNull) ∧
  (trace_id (LLMLabs.assemble loads ls) = default JNull (last (ids_of loads ls)) ∧
   evaluations (LLMLabs.assemble loads ls) = JNull).
Proof.
  intros Hvalid Hplain. split.
  - rewrite ClientFacts.assemble_run. simpl.
    exact (run_plain_metadata loads write stream ls Client.init Hvalid Hplain eq_refl).
  - rewrite LLMLabsCalls.labs_assemble_run. simpl.
    exact (labs_run_plain_metadata loads ls LLMLabs.init Hvalid Hplain).
Qed.

Lemma plain_stream_trace_id_witness :
  Forall (valid_line Json.loads) MoreExamples.id_lines ∧
  trace_id (Client.assemble Json.loads Examples.terminal false MoreExamples.id_lines) = JStr "t2" ∧
  trace_id (LLMLabs.assemble Json.loads MoreExamples.id_lines) = JStr "t2".
Proof.
  assert (Forall (valid_line Json.loads) MoreExamples.id_lines) as Hvalid.
  { repeat constructor; unfold valid_line; vm_compute;
      eexists _, _; split; reflexivity. }
  assert (Forall (fun s => Str.starts_evaluation s = false)
                 (fragments_of Json.loads MoreExamples.id_lines)) as Hplain.
  { vm_compute. repeat constructor. }
  destruct (plain_stream_trace_id Json.loads Examples.terminal false MoreExamples.id_lines Hvalid Hplain)
    as [[Hc _] [Hl _]].
  split; [exact Hvalid|]. split.
  - rewrite Hc. vm_compute. reflexivity.
  - rewrite Hl. vm_compute. reflexivity.
Defined.

(** ** The evaluations [LLMLabsClient.chat] returns *)

Section LabsEvaluations.

Variable loads : string → option pyval.

Lemma labs_decode_evaluations s l :
  Str.starts_evaluation s = true →
  LLMLabs.l_evaluations (fst (labs_decode loads s l)) = labs_offer loads s (LLMLabs.l_evaluations l).
Proof.
  intros Hs. unfold labs_offer, payload_object, labs_decode, try_except, bind, lift,
    Py.json_loads. rewrite Hs.
  destruct (loads s) as [v|]; [|reflexivity].
  destruct v; reflexivity.
Qed.

Lemma labs_process_choice_evaluations c s l :
  choice_content c = Some s →
  LLMLabs.l_evaluations (fst (LLMLabs.process_choice loads c l))
  = labs_offer loads s (LLMLabs.l_evaluations l).
Proof.
  intros Hc. destruct (Str.starts_evaluation s) eqn:Hs.
  - rewrite (labs_process_choice_marker loads c s l Hc Hs).
    by apply labs_decode_evaluations.
  - rewrite (LLMLabsFacts.labs_process_choice_plain loads c s l Hc Hs).
    unfold labs_offer, payload_object. by rewrite Hs.
Qed.

Lemma labs_choices_evaluations cs fs l :
  mapM choice_content cs = Some fs →
  LLMLabs.l_evaluations (fst (for_each cs (LLMLabs.process_choice loads) l))
  = foldl (fun ev s => labs_offer loads s ev) (LLMLabs.l_evaluations l) fs.
Proof.
  revert fs l. induction cs as [|c cs IH]; intros fs l Hfs.
  - by injection Hfs as <-.
  - rewrite mapM_Some in Hfs. destruct fs as [|f fs]; [inversion Hfs|].
    apply Forall2_cons_1 in Hfs as [Hc Hfs]. apply mapM_Some in Hfs.
    destruct (labs_process_choice_valid loads c f l Hc) as [Hok _].
    pose proof (labs_process_choice_evaluations c f l Hc) as He.
    cbn [for_each foldl]. unfold bind.
    destruct (LLMLabs.process_choice loads c l) as [l1 r]. cbn [fst snd] in Hok, He.
    subst r. by rewrite (IH fs l1 Hfs), He.
Qed.

Lemma labs_process_chunk_evaluations chunk fs l :
  chunk_fragments chunk = Some fs →
  LLMLabs.l_evaluations (exec (LLMLabs.process_chunk loads chunk) l)
  = foldl (fun ev s => labs_offer loads s ev) (LLMLabs.l_evaluations l) fs.
Proof.
  intros Hfs. unfold LLMLabs.process_chunk. rewrite exec_bind. cbn [modify].
  rewrite exec_bind.
  assert (∃ kvs, chunk = JObj kvs) as [kvs ->].
  { destruct chunk; try discriminate. eauto. }
  pose proof (LLMLabsFacts.labs_extract_metadata_object kvs
                (LLMLabs.append_result (JObj kvs) l)) as Hok.
  destruct (labs_extract_metadata_trace_id kvs (LLMLabs.append_result (JObj kvs) l))
    as [_ He].
  unfold exec in He.
  destruct (LLMLabs.extract_metadata _ _) as [l1 r]. simpl in Hok, He. subst r.
  rewrite LLMLabsFacts.labs_exec_process_choices.
  apply chunk_fragments_choices in Hfs.
  unfold exec. by rewrite (labs_choices_evaluations _ fs l1 Hfs), He.
Qed.

Lemma labs_run_evaluations ls l :
  Forall (valid_line loads) ls →
  LLMLabs.l_evaluations (LLMLabs.run loads ls l)
  = foldl (fun ev s => labs_offer loads s ev) (LLMLabs.l_evaluations l) (fragments_of loads ls).
Proof.
  revert l. induction ls as [|line ls IH]; intros l Hvalid.
  - reflexivity.
  - apply Forall_cons in Hvalid as [Hline Hvalid].
    rewrite LLMLabsCalls.labs_run_cons, (IH _ Hvalid), LLMLabsFacts.labs_exec_process_line.
    unfold fragments_of, chunks_of in *. cbn [omap list_omap flat_map].
    unfold valid_line in Hline. unfold line_chunk in *.
    destruct (line_payload line) as [p|]; cbn [mbind option_bind]; [|reflexivity].
    destruct Hline as (chunk & fs & Hl & Hfs). rewrite Hl. cbn [flat_map].
    rewrite Hfs. cbn [default from_option].
    rewrite (labs_process_chunk_evaluations chunk fs l Hfs).
    by rewrite foldl_app.
Qed.

Lemma labs_offer_last fs ev :
  foldl (fun ev s => labs_offer loads s ev) ev fs
  = default ev (payload_evaluations_of <$> last (omap (payload_object loads) fs)).
Proof.
  revert ev. induction fs as [|s fs IH]; intros ev; [reflexivity|].
  cbn [foldl omap list_omap]. rewrite IH. unfold labs_offer.
  destruct (payload_object loads s) as [kvs|]; [|reflexivity].
  destruct (last (omap (payload_object loads) fs)) as [kvs'|] eqn:Hlast.
  - rewrite last_cons, Hlast. reflexivity.
  - rewrite last_cons, Hlast. reflexivity.
Qed.

End LabsEvaluations.

(** X7.  [LLMLabsClient.chat], lines 76-83: for a body whose payload lines
    decode to Chunks, the evaluations that come back are those of the last
    content fragment that looks like an evaluation payload and decodes to
    an object (its [evaluations] entry, [None] when it has none), and
    [None] when there is no such fragment; earlier payloads are
    overwritten, and fragments that fail to decode change nothing. *)
Theorem labs_evaluations_of_last_payload loads ls :
  Forall (valid_line loads) ls →
  evaluations (LLMLabs.assemble loads ls)
  = default JNull (payload_evaluations_of <$> last (payloads_of loads ls)).
Proof.
  intros Hvalid. rewrite LLMLabsCalls.labs_assemble_run.
  unfold LLMLabs.namespace. cbn [evaluations].
  rewrite (labs_run_evaluations loads ls LLMLabs.init Hvalid).
  apply labs_offer_last.
Qed.

Lemma labs_evaluations_of_last_payload_witness :
  Forall (valid_line Json.loads) Examples.single_fragment ∧
  evaluations (LLMLabs.assemble Json.loads Examples.single_fragment)
  = Examples.payload_evaluations.
Proof.
  assert (Forall (valid_line Json.loads) Examples.single_fragment) as Hvalid.
  { repeat constructor; unfold valid_line; vm_compute;
      eexists _, _; split; reflexivity. }
  split; [exact Hvalid|].
  rewrite (labs_evaluations_of_last_payload Json.loads Examples.single_fragment Hvalid).
  vm_compute. reflexivity.
Defined.

(** ** What the calls of [Client] raise *)

Lemma wrap_request_error_raises {A} label (r : result A) e :
  Client.wrap_request_error label r = inl e → isinstance e RequestException = false.
Proof.
  destruct r as [e0|a]; [|discriminate]. unfold Client.wrap_request_error, raise.
  destruct (isinstance e0 RequestException) eqn:He0; intros [= <-]; [reflexivity | exact He0].
Qed.

(** X8.  [Client.chat], [Client.evaluate] and [Client.safety_evaluation]:
    no [requests] exception leaves these calls.  Whatever the server does,
    whether the connection fails, the body breaks off or the reply cannot
    be decoded, an exception that one of them raises is not a
    [RequestException]. *)
Theorem client_raises_no_request_exception loads write c w prompt response stream tid e :
  snd (Client.chat loads write c w prompt stream) = inl e ∨
  Client.evaluate loads c w prompt response tid = inl e ∨
  Client.safety_evaluation loads c w prompt tid = inl e →
  isinstance e RequestException = false.
Proof.
  intros [H|[H|H]].
  - unfold Client.chat in H.
    destruct (String.eqb (Str.strip prompt) ""); [by injection H as <-|].
    destruct (Client.post w (Client.chat_request c prompt)) as [e0|r].
    { cbn [snd] in H. by apply wrap_request_error_raises in H. }
    destruct (negb (Client.is_2xx (status_code r))); [by injection H as <-|].
    destruct (Client.consume loads write stream r Client.init) as [l [e0|[]]];
      cbn [snd] in H; by apply wrap_request_error_raises in H.
  - unfold Client.evaluate in H.
    destruct (String.eqb (Str.strip prompt) ""); [by injection H as <-|].
    destruct (String.eqb (Str.strip response) ""); [by injection H as <-|].
    by apply wrap_request_error_raises in H.
  - unfold Client.safety_evaluation in H.
    destruct (String.eqb (Str.strip prompt) ""); [by injection H as <-|].
    by apply wrap_request_error_raises in H.
Qed.

Lemma client_raises_no_request_exception_witness :
  snd (Client.chat Json.loads Examples.terminal Examples.a_client (Examples.serving Examples.broken_stream)
         "hi" false)
  = inl (Exn ValueError "Request failed: Connection broken: IncompleteRead") ∧
  isinstance (Exn ValueError "Request failed: Connection broken: IncompleteRead")
    RequestException = false.
Proof.
  assert (snd (Client.chat Json.loads Examples.terminal Examples.a_client
                 (Examples.serving Examples.broken_stream) "hi" false)
          = inl (Exn ValueError "Request failed: Connection broken: IncompleteRead")) as H.
  { vm_compute. reflexivity. }
  split; [exact H|].
  exact (client_raises_no_request_exception Json.loads Examples.terminal Examples.a_client
           (Examples.serving Examples.broken_stream) "hi" "" false None _ (or_introl H)).
Defined.

(** ** A batch in which every call is answered *)

Lemma omap_id_Some {A} (l : list A) : omap id (Some <$> l) = l.
Proof. induction l as [|x l IH]; [reflexivity|]. cbn. by rewrite IH. Qed.

(** X9.  [Client.batch_chat], lines 369-393, with [Client.chat]: when no
    prompt is blank and every request is answered with a 2xx status and a
    body that is read to its end, the batch returns one [ChatResponse] per
    prompt, in the order of the prompts and whatever the order in which
    the calls complete, and the one at position [i] is made of what the
    loop of [chat] leaves after the body of the [i]-th reply. *)
Theorem batch_chat_complete loads write c worlds replies prompts max_workers completed :
  prompts ≠ [] → (0 < max_workers)%Z →
  completed ≡ₚ seq 0 (length prompts) →
  (∀ i p, prompts !! i = Some p →
          Str.strip p ≠ "" ∧
          Client.post (worlds i) (Client.chat_request c p) = inr (replies i) ∧
          Client.is_2xx (status_code (replies i)) = true ∧
          broken (replies i) = None) →
  Client.batch_chat loads write c worlds prompts max_workers completed
  = inr (imap (fun i p =>
                 Client.chat_response c p
                   (Client.run loads write false (lines (replies i)) Client.init))
              prompts).
Proof.
  intros Hne Hw Hperm Hall. unfold Client.batch_chat.
  rewrite (ClientCalls.batch_spec _ _ _ _ _ Hne Hw Hperm). f_equal.
  etrans; [|apply omap_id_Some]. f_equal.
  rewrite fmap_imap. apply imap_ext. intros i p Hp. cbn [compose].
  destruct (Hall i p Hp) as (Hstrip & Hpost & Hcode & Hend).
  rewrite (ClientCalls.client_chat_answered loads write c (worlds i) p false (replies i)
             Hstrip Hpost Hcode).
  cbn [snd]. by rewrite Hend.
Qed.

Lemma batch_chat_complete_witness :
  ∃ first second,
    Client.batch_chat Json.loads Examples.terminal Examples.a_client (fun _ => MoreExamples.hello_world)
      ["a"; "b"] 3 [1; 0] = inr [first; second] ∧
    Client.cr_prompt first = JStr "a" ∧ Client.cr_prompt second = JStr "b" ∧
    Client.cr_response first = "Hello".
Proof.
  eexists _, _. split.
  - apply (batch_chat_complete Json.loads Examples.terminal Examples.a_client
             (fun _ => MoreExamples.hello_world)
             (fun _ => Examples.ok_stream Examples.hello_lines None)
             ["a"; "b"] 3 [1; 0]).
    + discriminate.
    + lia.
    + apply (bool_decide_unpack _). vm_compute. exact I.
    + intros i p Hp. split; [|by repeat split].
      destruct i as [|[|i]]; cbn in Hp; [| |discriminate];
        injection Hp as <-; vm_compute; discriminate.
  - split; [reflexivity|]. split; [reflexivity|]. vm_compute. reflexivity.
Defined.

(** ** [insightfinder/auth.py] *)

Lemma set_all_snoc calls u k a :
  AuthFile.set_all (calls ++ [(u, k)]) a
  = AuthFile.set_credentials u k (AuthFile.set_all calls a).
Proof. unfold AuthFile.set_all. by rewrite foldl_app. Qed.

(** X10.  [Auth], lines 1-14, with the headers of [LLMLabsClient.chat],
    lines 22-25: after any sequence of [set_credentials] calls on a new
    [Auth], [get_credentials] returns the pair of the last call, and the
    pair of [None]s when there was no call; [is_authenticated] holds
    exactly when neither value of that pair is [None], so that an empty
    string counts as a credential; and these two values are the
    [X-User-Name] and [X-Api-Key] headers of the request that [chat]
    sends. *)
Theorem auth_last_credentials_win calls prompt mv name mt :
  let auth := AuthFile.set_all calls AuthFile.new_Auth in
  let last_call := default (JNull, JNull) (last calls) in
  AuthFile.get_credentials auth = last_call ∧
  AuthFile.is_authenticated auth
  = negb (is_null (fst last_call)) && negb (is_null (snd last_call)) ∧
  req_headers (LLMLabs.chat_request auth prompt mv name mt)
  = [("X-Api-Key", snd last_call); ("X-User-Name", fst last_call)].
Proof.
  cbv zeta.
  assert (AuthFile.get_credentials (AuthFile.set_all calls AuthFile.new_Auth)
          = default (JNull, JNull) (last calls)) as Hget.
  { destruct calls as [|c calls _] using rev_ind; [reflexivity|].
    destruct c as [u k]. by rewrite set_all_snoc, last_snoc. }
  split; [exact Hget|].
  unfold AuthFile.get_credentials in Hget.
  unfold AuthFile.is_authenticated, LLMLabs.chat_request. cbn [req_headers].
  destruct (default (JNull, JNull) (last calls)) as [u k].
  by injection Hget as -> ->.
Qed.

(** ** More about strings *)

Lemma length_append a b :
  String.length (a +:+ b) = String.length a + String.length b.
Proof. induction a as [|c a IH]; [reflexivity|]. rewrite append_cons. cbn. by rewrite IH. Qed.

Lemma drop_add a b n : Str.drop (String.length a + n) (a +:+ b) = Str.drop n b.
Proof. induction a as [|c a IH]; [reflexivity|]. rewrite append_cons. exact IH. Qed.

Lemma drop_append a b : Str.drop (String.length a) (a +:+ b) = b.
Proof. rewrite <- (Nat.add_0_r (String.length a)). by rewrite drop_add. Qed.

Lemma take_append a b : PyStr.take (String.length a) (a +:+ b) = a.
Proof.
  induction a as [|c a IH]; [by destruct b|]. rewrite append_cons. cbn. by rewrite IH.
Qed.

Lemma endswith_append p a : PyStr.endswith p (a +:+ p) = true.
Proof.
  unfold PyStr.endswith. rewrite length_append.
  replace (String.length a + String.length p - String.length p) with (String.length a) by lia.
  rewrite drop_append, String.eqb_refl, andb_true_r. apply Nat.leb_le. lia.
Qed.

Lemma drop_end_append p a : PyStr.drop_end (String.length p) (a +:+ p) = a.
Proof.
  unfold PyStr.drop_end. rewrite length_append.
  replace (String.length a + String.length p - String.length p) with (String.length a) by lia.
  apply take_append.
Qed.

(** A string that ends with [q] ends with [p] only if [q] does, when [p]
    is no longer than [q]. *)
Lemma endswith_suffix p q a :
  String.length p ≤ String.length q →
  PyStr.endswith p (a +:+ q) = PyStr.endswith p q.
Proof.
  intros Hle. unfold PyStr.endswith. rewrite length_append.
  replace (String.length a + String.length q - String.length p)
    with (String.length a + (String.length q - String.length p)) by lia.
  rewrite drop_add. f_equal.
  destruct (Nat.leb_spec (String.length p) (String.length q)); [|lia].
  apply Nat.leb_le. lia.
Qed.

(** Splitting and joining. *)
Lemma split_nonempty sep s : PyStr.split sep s ≠ [].
Proof.
  destruct s as [|c s]; [discriminate|]. cbn.
  destruct (Ascii.eqb c sep); [discriminate|]. by destruct (PyStr.split sep s).
Qed.

Lemma join_cons sep p q ps :
  PyStr.join sep (p :: q :: ps) = p +:+ sep +:+ PyStr.join sep (q :: ps).
Proof. reflexivity. Qed.

Lemma join_split sep s :
  PyStr.join (String sep "") (PyStr.split sep s) = s.
Proof.
  induction s as [|c s IH]; [reflexivity|]. cbn [PyStr.split].
  destruct (Ascii.eqb_spec c sep) as [->|Hc].
  - pose proof (split_nonempty sep s) as Hne.
    destruct (PyStr.split sep s) as [|p ps]; [done|].
    rewrite join_cons, IH. reflexivity.
  - pose proof (split_nonempty sep s) as Hne.
    destruct (PyStr.split sep s) as [|p ps]; [done|].
    destruct ps as [|q ps].
    + cbn in *. by rewrite IH.
    + rewrite join_cons in *. rewrite append_cons. by rewrite IH.
Qed.

Lemma split_append sep a rest :
  PyStr.free_of sep a = true →
  PyStr.split sep (a +:+ String sep rest) = a :: PyStr.split sep rest.
Proof.
  induction a as [|c a IH]; intros Ha.
  - change ("" +:+ String sep rest) with (String sep rest).
    cbn [PyStr.split]. by rewrite Ascii.eqb_refl.
  - cbn in Ha. apply andb_true_iff in Ha as [Hc Ha]. apply negb_true_iff in Hc.
    rewrite append_cons. cbn [PyStr.split]. rewrite Hc, (IH Ha). reflexivity.
Qed.

(** ** [ChatResponse._extract_model_version] *)

Lemma drop_end_llmTrace name : PyStr.drop_end 9 (name +:+ "-llmTrace") = name.
Proof. exact (drop_end_append "-llmTrace" name). Qed.

Lemma drop_end_Prompt name : PyStr.drop_end 7 (name +:+ "-Prompt") = name.
Proof. exact (drop_end_append "-Prompt" name). Qed.

Lemma append_not_empty name rest : name ≠ "" → String.eqb (name +:+ rest) "" = false.
Proof. intros Hname. destruct name as [|c name]; [done|]. by rewrite append_cons. Qed.

(** The two suffixes are cut off, whether the second is there or not. *)
Lemma strip_suffixes name session :
  name ≠ "" →
  ModelChatResponse.extract_model_version (name +:+ "-llmTrace") session
  = match session with
    | Some s =>
        if negb (String.eqb s "") && Str.startswith (s +:+ "-") name then
          let model_version := Str.drop (String.length s + 1) name in
          if String.eqb model_version "" then None else Some model_version
        else ModelChatResponse.fallback name
    | None => ModelChatResponse.fallback name
    end ∧
  ModelChatResponse.extract_model_version (name +:+ "-llmTrace" +:+ "-Prompt") session
  = ModelChatResponse.extract_model_version (name +:+ "-llmTrace") session.
Proof.
  intros Hname.
  assert (ModelChatResponse.extract_model_version (name +:+ "-llmTrace") session
    = match session with
      | Some s =>
          if negb (String.eqb s "") && Str.startswith (s +:+ "-") name then
            let model_version := Str.drop (String.length s + 1) name in
            if String.eqb model_version "" then None else Some model_version
          else ModelChatResponse.fallback name
      | None => ModelChatResponse.fallback name
      end) as Hone.
  { unfold ModelChatResponse.extract_model_version.
    rewrite (append_not_empty _ _ Hname).
    rewrite (endswith_suffix "-Prompt" "-llmTrace" name) by (cbn; lia).
    change (PyStr.endswith "-Prompt" "-llmTrace") with false. cbv iota.
    by rewrite endswith_append, drop_end_llmTrace. }
  split; [exact Hone|]. rewrite Hone.
  unfold ModelChatResponse.extract_model_version.
  rewrite (append_not_empty _ _ Hname). rewrite <- append_assoc.
  rewrite (endswith_append "-Prompt"), drop_end_Prompt.
  by rewrite endswith_append, drop_end_llmTrace.
Qed.

(** The session name and its hyphen are cut off the front. *)
Lemma session_prefix_dropped s v :
  s ≠ "" → v ≠ "" →
  (if negb (String.eqb s "") && Str.startswith (s +:+ "-") (s +:+ "-" +:+ v) then
     let model_version := Str.drop (String.length s + 1) (s +:+ "-" +:+ v) in
     if String.eqb model_version "" then None else Some model_version
   else ModelChatResponse.fallback (s +:+ "-" +:+ v)) = Some v.
Proof.
  intros Hs Hv.
  apply String.eqb_neq in Hs. rewrite Hs. cbn [negb andb].
  rewrite <- (append_assoc s "-" v).
  rewrite (LLMLabsCalls.labs_startswith_append (s +:+ "-") v).
  replace (String.length s + 1) with (String.length (s +:+ "-"))
    by (rewrite length_append; reflexivity).
  rewrite drop_append. cbv zeta.
  apply String.eqb_neq in Hv. by rewrite Hv.
Qed.

(** X11.  [ChatResponse._extract_model_version], lines 38-56: a project
    name made of a session name, a hyphen, a model version and the suffix
    "-llmTrace", with or without the "-Prompt" that [_get_project_name]
    appends, gives that model version back when the session name is
    passed, for every session name and model version that are not
    empty. *)
Theorem model_version_round_trip s v :
  s ≠ "" → v ≠ "" →
  ModelChatResponse.extract_model_version
    ((s +:+ "-" +:+ v) +:+ "-llmTrace" +:+ "-Prompt") (Some s) = Some v ∧
  ModelChatResponse.extract_model_version
    ((s +:+ "-" +:+ v) +:+ "-llmTrace") (Some s) = Some v.
Proof.
  intros Hs Hv.
  assert (s +:+ "-" +:+ v ≠ "") as Hname.
  { destruct s as [|c s]; [done|]. by rewrite append_cons. }
  destruct (strip_suffixes (s +:+ "-" +:+ v) (Some s) Hname) as [Hone Htwo].
  rewrite Htwo, Hone. split; by apply session_prefix_dropped.
Qed.

Lemma model_version_round_trip_witness :
  ModelChatResponse.extract_model_version
    "TinyLLama-TinyLLma-v1-TinyLlama-1-1B-Chat-v1-0-llmTrace-Prompt"
    (Some "TinyLLama-TinyLLma-v1")
  = Some "TinyLlama-1-1B-Chat-v1-0".
Proof.
  refine (proj1 (model_version_round_trip "TinyLLama-TinyLLma-v1"
                   "TinyLlama-1-1B-Chat-v1-0" _ _)); discriminate.
Defined.

(** X12.  [ChatResponse._extract_model_version], lines 58-67: when no
    session name is passed, or an empty one, or one that the project name
    does not start with, the part of the project name before its first
    hyphen is dropped with that hyphen, and what follows it, up to the
    suffixes, is returned unchanged. *)
Theorem model_version_fallback a rest session :
  PyStr.free_of "-" a = true →
  match session with
  | Some s => s = "" ∨ Str.startswith (s +:+ "-") (a +:+ "-" +:+ rest) = false
  | None => True
  end →
  ModelChatResponse.extract_model_version
    ((a +:+ "-" +:+ rest) +:+ "-llmTrace" +:+ "-Prompt") session = Some rest ∧
  ModelChatResponse.extract_model_version
    ((a +:+ "-" +:+ rest) +:+ "-llmTrace") session = Some rest.
Proof.
  intros Ha Hsession.
  assert (a +:+ "-" +:+ rest ≠ "") as Hname.
  { destruct a as [|c a]; [done|]. by rewrite append_cons. }
  destruct (strip_suffixes (a +:+ "-" +:+ rest) session Hname) as [Hone Htwo].
  rewrite Htwo, Hone.
  assert (ModelChatResponse.fallback (a +:+ "-" +:+ rest) = Some rest) as Hfall.
  { unfold ModelChatResponse.fallback.
    change (a +:+ "-" +:+ rest) with (a +:+ String "-"%char rest).
    rewrite (split_append "-" a rest Ha).
    pose proof (split_nonempty "-" rest) as Hne.
    pose proof (join_split "-" rest) as Hjoin.
    destruct (PyStr.split "-" rest) as [|p ps]; [done|].
    cbn [length tail Nat.ltb Nat.leb]. by rewrite Hjoin. }
  destruct session as [s|]; [|split; exact Hfall].
  destruct Hsession as [->|Hno].
  - split; exact Hfall.
  - rewrite Hno, andb_false_r. split; exact Hfall.
Qed.

Lemma model_version_fallback_witness :
  ModelChatResponse.extract_model_version "demo-gpt-4o-mini-llmTrace-Prompt" None
  = Some "gpt-4o-mini" ∧
  ModelChatResponse.extract_model_version "demo-gpt-4o-mini-llmTrace-Prompt" (Some "other")
  = Some "gpt-4o-mini".
Proof.
  split.
  - refine (proj1 (model_version_fallback "demo" "gpt-4o-mini" None _ _));
      [reflexivity | exact I].
  - refine (proj1 (model_version_fallback "demo" "gpt-4o-mini" (Some "other") _ _));
      [reflexivity | right; reflexivity].
Defined.

(** ** [Client.__init__] *)

Module ClientInitFacts.

Section WithConfig.

Variables DEFAULT_API_URL CHATBOT_ENDPOINT EVALUATION_ENDPOINT
          SAFETY_EVALUATION_ENDPOINT TRACE_PROJECT_NAME_ENDPOINT : string.
Variable getenv : string → option string.
Variable post : Request → result Response.

Lemma base_url_ends_with_slash url : PyStr.endswith "/" (ClientInit.base_url DEFAULT_API_URL url) = true.
Proof.
  unfold ClientInit.base_url.
  destruct (PyStr.endswith "/" (if ClientInit.missing url then _ else _)) eqn:He;
    cbn [negb]; [exact He | apply endswith_append].
Qed.

Lemma base_url_slash u :
  u ≠ "" → PyStr.endswith "/" u = false →
  ClientInit.base_url DEFAULT_API_URL (Some (u +:+ "/")) = ClientInit.base_url DEFAULT_API_URL (Some u).
Proof.
  intros Hu He. unfold ClientInit.base_url. cbn [ClientInit.missing default from_option].
  rewrite (append_not_empty u "/" Hu). apply String.eqb_neq in Hu. rewrite Hu.
  cbv iota. unfold id. by rewrite endswith_append, He.
Qed.

Lemma missing_or_env a b :
  ClientInit.missing (ClientInit.or_env a b) = false →
  ∃ s, ClientInit.or_env a b = Some s ∧ s ≠ "" ∧
       (∀ x, a = Some x → x ≠ "" → s = x) ∧
       (a = None ∨ a = Some "" → b = Some s).
Proof.
  unfold ClientInit.or_env, ClientInit.missing.
  destruct a as [x|].
  - destruct (String.eqb_spec x "") as [->|Hx].
    + destruct b as [s|]; [|discriminate]. intros Hs%String.eqb_neq.
      exists s. split_and!; [done|done| |done]. by intros x [= <-].
    + intros _. exists x. split_and!; [done|done| |].
      * by intros y [= <-].
      * intros [H|H]; [discriminate | by injection H].
  - destruct b as [s|]; [|discriminate]. intros Hs%String.eqb_neq.
    exists s. split_and!; [done|done| |done]. discriminate.
Qed.

(** What a constructor call that returns has gone through. *)
Lemma new_Client_returns session url username api_key enable c :
  ClientInit.new_Client DEFAULT_API_URL CHATBOT_ENDPOINT EVALUATION_ENDPOINT
    SAFETY_EVALUATION_ENDPOINT TRACE_PROJECT_NAME_ENDPOINT getenv post
    session url username api_key enable = inr c →
  ∃ u k r,
    ClientInit.or_env username (getenv "INSIGHTFINDER_USERNAME") = Some u ∧ u ≠ "" ∧
    ClientInit.or_env api_key (getenv "INSIGHTFINDER_API_KEY") = Some k ∧ k ≠ "" ∧
    session ≠ "" ∧
    post (ClientInit.project_name_request DEFAULT_API_URL TRACE_PROJECT_NAME_ENDPOINT url (ClientInit.under_construction DEFAULT_API_URL CHATBOT_ENDPOINT EVALUATION_ENDPOINT
       SAFETY_EVALUATION_ENDPOINT session u k url enable)) = inr r ∧
    Client.is_2xx (status_code r) = true ∧
    c = ClientInit.set_project_name (Str.strip (text r) +:+ "-Prompt")
          (ClientInit.under_construction DEFAULT_API_URL CHATBOT_ENDPOINT EVALUATION_ENDPOINT
       SAFETY_EVALUATION_ENDPOINT session u k url enable).
Proof.
  unfold ClientInit.new_Client. intros H.
  destruct (ClientInit.missing (ClientInit.or_env username _)) eqn:Hu; [discriminate|].
  destruct (ClientInit.missing (ClientInit.or_env api_key _)) eqn:Hk; [discriminate|].
  destruct (String.eqb_spec session "") as [|Hs]; [discriminate|].
  destruct (missing_or_env _ _ Hu) as (u & Hu' & Hune & _).
  destruct (missing_or_env _ _ Hk) as (k & Hk' & Hkne & _).
  rewrite Hu', Hk' in H. cbn [default from_option] in H.
  exists u, k. unfold ClientInit.get_project_name in H.
  destruct (post _) as [e|r] eqn:Hpost.
  { unfold Client.wrap_request_error, raise in H.
    destruct (isinstance e RequestException); discriminate. }
  exists r. destruct (Client.is_2xx (status_code r)) eqn:H2; cbn in H; [|discriminate].
  injection H as <-. done.
Qed.

End WithConfig.

End ClientInitFacts.

Section ClientInitProperties.

Variables DEFAULT_API_URL CHATBOT_ENDPOINT EVALUATION_ENDPOINT
          SAFETY_EVALUATION_ENDPOINT TRACE_PROJECT_NAME_ENDPOINT : string.
Variable getenv : string → option string.
Variable post : Request → result Response.

(** X13.  [Client.__init__], lines 186-194: a URL with and without its
    final slash give the same outcome, the same client or the same
    exception: the constructor adds the slash that is missing before it
    builds the endpoint URLs and asks for the project name. *)
Theorem trailing_slash_is_optional session u username api_key enable :
  u ≠ "" → PyStr.endswith "/" u = false →
  ClientInit.new_Client DEFAULT_API_URL CHATBOT_ENDPOINT EVALUATION_ENDPOINT
    SAFETY_EVALUATION_ENDPOINT TRACE_PROJECT_NAME_ENDPOINT getenv post
    session (Some (u +:+ "/")) username api_key enable
  = ClientInit.new_Client DEFAULT_API_URL CHATBOT_ENDPOINT EVALUATION_ENDPOINT
      SAFETY_EVALUATION_ENDPOINT TRACE_PROJECT_NAME_ENDPOINT getenv post
      session (Some u) username api_key enable.
Proof.
  intros Hu He.
  unfold ClientInit.new_Client, ClientInit.get_project_name,
    ClientInit.project_name_request, ClientInit.trace_project_name_url,
    ClientInit.under_construction.
  by rewrite (ClientInitFacts.base_url_slash DEFAULT_API_URL u Hu He).
Qed.

(** X14.  [Client.__init__], lines 186-197, and [_get_project_name],
    lines 226-240: a constructor call that returns has asked the server
    for the project name and been answered with a 2xx status; the client
    it returns has the three endpoint URLs made of one base URL that ends
    with a slash, and a project name that is the body of that answer,
    stripped, followed by "-Prompt". *)
Theorem constructed_client_urls session url username api_key enable c :
  ClientInit.new_Client DEFAULT_API_URL CHATBOT_ENDPOINT EVALUATION_ENDPOINT
    SAFETY_EVALUATION_ENDPOINT TRACE_PROJECT_NAME_ENDPOINT getenv post
    session url username api_key enable = inr c →
  ∃ base r,
    base = ClientInit.base_url DEFAULT_API_URL url ∧
    PyStr.endswith "/" base = true ∧
    Client.chat_url c = base +:+ CHATBOT_ENDPOINT ∧
    Client.evaluation_url c = base +:+ EVALUATION_ENDPOINT ∧
    Client.safety_url c = base +:+ SAFETY_EVALUATION_ENDPOINT ∧
    post (ClientInit.project_name_request DEFAULT_API_URL TRACE_PROJECT_NAME_ENDPOINT url c)
    = inr r ∧
    req_url (ClientInit.project_name_request DEFAULT_API_URL TRACE_PROJECT_NAME_ENDPOINT
               url c) = base +:+ TRACE_PROJECT_NAME_ENDPOINT ∧
    Client.is_2xx (status_code r) = true ∧
    Client.project_name c = Str.strip (text r) +:+ "-Prompt".
Proof.
  intros H.
  destruct (ClientInitFacts.new_Client_returns _ _ _ _ _ _ _ _ _ _ _ _ _ H)
    as (u & k & r & _ & _ & _ & _ & _ & Hpost & H2 & ->).
  exists (ClientInit.base_url DEFAULT_API_URL url), r.
  split_and!; try done. apply ClientInitFacts.base_url_ends_with_slash.
Qed.

(** X15.  [Client.__init__], lines 172-178: the client a constructor call
    returns has a user name and an API key that are not empty; each is the
    argument when the argument is a string that is not empty, and the
    value of the environment variable otherwise. *)
Theorem constructed_client_credentials session url username api_key enable c :
  ClientInit.new_Client DEFAULT_API_URL CHATBOT_ENDPOINT EVALUATION_ENDPOINT
    SAFETY_EVALUATION_ENDPOINT TRACE_PROJECT_NAME_ENDPOINT getenv post
    session url username api_key enable = inr c →
  (Client.username c ≠ "" ∧ Client.api_key c ≠ "") ∧
  (∀ x, username = Some x → x ≠ "" → Client.username c = x) ∧
  (username = None ∨ username = Some "" →
   getenv "INSIGHTFINDER_USERNAME" = Some (Client.username c)) ∧
  (∀ x, api_key = Some x → x ≠ "" → Client.api_key c = x) ∧
  (api_key = None ∨ api_key = Some "" →
   getenv "INSIGHTFINDER_API_KEY" = Some (Client.api_key c)).
Proof.
  intros H. unfold ClientInit.new_Client in H.
  destruct (ClientInit.missing (ClientInit.or_env username _)) eqn:Hu; [discriminate|].
  destruct (ClientInit.missing (ClientInit.or_env api_key _)) eqn:Hk; [discriminate|].
  destruct (String.eqb session ""); [discriminate|].
  destruct (ClientInitFacts.missing_or_env _ _ Hu) as (u & Hu' & Hune & Hu1 & Hu2).
  destruct (ClientInitFacts.missing_or_env _ _ Hk) as (k & Hk' & Hkne & Hk1 & Hk2).
  rewrite Hu', Hk' in H. cbn [default from_option] in H.
  destruct (ClientInit.get_project_name _ _ _ _ _) as [e|name]; [discriminate|].
  injection H as <-. cbn. split_and!; auto.
Qed.

(** X16.  [Client._get_project_name], lines 237-240, with
    [ChatResponse._extract_model_version], lines 44-56: when the server
    names the trace project by the session name, a hyphen, a model version
    and "-llmTrace", the project name of the client that the constructor
    returns, read with its session name, gives that model version back. *)
Theorem project_name_gives_model_version session url username api_key enable c r v :
  ClientInit.new_Client DEFAULT_API_URL CHATBOT_ENDPOINT EVALUATION_ENDPOINT
    SAFETY_EVALUATION_ENDPOINT TRACE_PROJECT_NAME_ENDPOINT getenv post
    session url username api_key enable = inr c →
  post (ClientInit.project_name_request DEFAULT_API_URL TRACE_PROJECT_NAME_ENDPOINT url c)
  = inr r →
  Str.strip (text r) = (session +:+ "-" +:+ v) +:+ "-llmTrace" → v ≠ "" →
  ModelChatResponse.extract_model_version (Client.project_name c)
    (Some (Client.session_name c)) = Some v.
Proof.
  intros H Hpost Hr Hv.
  destruct (ClientInitFacts.new_Client_returns _ _ _ _ _ _ _ _ _ _ _ _ _ H)
    as (u & k & r' & _ & _ & _ & _ & Hs & Hpost' & _ & ->).
  change (post (ClientInit.project_name_request DEFAULT_API_URL TRACE_PROJECT_NAME_ENDPOINT
                  url (ClientInit.under_construction DEFAULT_API_URL CHATBOT_ENDPOINT
                         EVALUATION_ENDPOINT SAFETY_EVALUATION_ENDPOINT session u k url
                         enable)) = inr r) in Hpost.
  rewrite Hpost' in Hpost. injection Hpost as ->.
  cbn [ClientInit.set_project_name Client.project_name Client.session_name
       ClientInit.under_construction].
  rewrite Hr, append_assoc.
  assert (session +:+ "-" +:+ v ≠ "") as Hname.
  { destruct session as [|a session]; [done|]. by rewrite append_cons. }
  destruct (strip_suffixes (session +:+ "-" +:+ v) (Some session) Hname) as [Hone Htwo].
  rewrite Htwo, Hone. by apply session_prefix_dropped.
Qed.

End ClientInitProperties.

Lemma trailing_slash_is_optional_witness :
  MoreExamples.construct (Some "https://example.org/api/") None None
  = MoreExamples.construct (Some "https://example.org/api") None None.
Proof.
  apply (trailing_slash_is_optional MoreExamples.api_url MoreExamples.chatbot_endpoint
           MoreExamples.evaluation_endpoint MoreExamples.safety_endpoint
           MoreExamples.trace_endpoint MoreExamples.environment
           (fun _ => inr MoreExamples.project_reply) "demo" "https://example.org/api").
  - discriminate.
  - reflexivity.
Defined.

Lemma constructed_client_urls_witness :
  ∃ c, MoreExamples.construct None None None = inr c ∧
       Client.chat_url c
       = "https://ai.insightfinder.com/api/external/v1/chatbot/stream-with-type" ∧
       Client.project_name c = "demo-gpt-4o-mini-llmTrace-Prompt".
Proof.
  destruct (MoreExamples.construct None None None) as [e|c] eqn:Hc;
    [vm_compute in Hc; discriminate|].
  exists c. split; [reflexivity|].
  destruct (constructed_client_urls _ _ _ _ _ _ _ _ _ _ _ _ _ Hc)
    as (base & r & -> & _ & -> & _ & _ & Hpost & _ & _ & ->).
  injection Hpost as <-. split; vm_compute; reflexivity.
Defined.

Lemma constructed_client_credentials_witness :
  ∃ c, MoreExamples.construct None (Some "me") (Some "") = inr c ∧
       Client.username c = "me" ∧ Client.api_key c = "env-key".
Proof.
  destruct (MoreExamples.construct None (Some "me") (Some "")) as [e|c] eqn:Hc;
    [vm_compute in Hc; discriminate|].
  exists c. split; [reflexivity|].
  destruct (constructed_client_credentials _ _ _ _ _ _ _ _ _ _ _ _ _ Hc)
    as (_ & Hu & _ & _ & Hk).
  split; [apply Hu; [reflexivity | discriminate]|].
  specialize (Hk (or_intror eq_refl)). by injection Hk as <-.
Defined.

Lemma project_name_gives_model_version_witness :
  ∃ c, MoreExamples.construct None None None = inr c ∧
       ModelChatResponse.extract_model_version (Client.project_name c)
         (Some (Client.session_name c)) = Some "gpt-4o-mini".
Proof.
  destruct (MoreExamples.construct None None None) as [e|c] eqn:Hc;
    [vm_compute in Hc; discriminate|].
  exists c. split; [reflexivity|].
  apply (project_name_gives_model_version _ _ _ _ _ _ _ _ _ _ _ _ _
           MoreExamples.project_reply "gpt-4o-mini" Hc).
  - reflexivity.
  - vm_compute. reflexivity.
  - discriminate.
Defined.

(** ** The display of results *)

Module DisplayFacts.

Section WithStr.

Variable str : pyval → string.

(** What has been written before the loop is left as it is. *)
Lemma format_items_prefix a i len items text :
  Display.format_items str i len items (a +:+ text)
  = match Display.format_items str i len items text with
    | inr t => inr (a +:+ t)
    | inl e => inl e
    end.
Proof.
  revert i text. induction items as [|item items IH]; intros i text; [reflexivity|].
  cbn [Display.format_items].
  destruct (Py.get item "evaluationType" _) as [e|eval_type]; [reflexivity|].
  destruct (Py.get item "score" _) as [e|score]; [reflexivity|].
  destruct (Py.get item "explanation" _) as [e|explanation]; [reflexivity|].
  cbv zeta. rewrite <- IH. f_equal.
  destruct (i <? len)%nat; by rewrite !append_assoc.
Qed.

Lemma format_evaluations_prefix a evaluations text :
  Display.format_evaluations str evaluations (a +:+ text)
  = match Display.format_evaluations str evaluations text with
    | inr t => inr (a +:+ t)
    | inl e => inl e
    end.
Proof.
  unfold Display.format_evaluations.
  destruct (Py.iter evaluations) as [e|items]; [reflexivity|].
  apply format_items_prefix.
Qed.

(** The display of what [chat] returns. *)
Lemma ChatResponse_str_chat c prompt l :
  Display.ChatResponse_str str (Client.chat_response c prompt l)
  = let text := Display.chat_heading str (Client.chat_response c prompt l) in
    if Client.enable_evaluations c then
      if Py.truthy (Client.l_evaluations l) then
        match Display.format_evaluations str (Client.l_evaluations l)
                (("Evaluations:" +:+ Display.nl) +:+ Display.rule +:+ Display.nl) with
        | inl e => inl e
        | inr block => inr (text +:+ Display.nl +:+ block)
        end
      else inr (Display.passed text)
    else inr text.
Proof.
  assert (Client.cr_enable_evaluations (Client.chat_response c prompt l)
          = Client.enable_evaluations c) as Hen by reflexivity.
  assert (Client.cr_evaluations (Client.chat_response c prompt l)
          = let evs := if Client.enable_evaluations c then Client.l_evaluations l
                       else JNull in
            if Py.truthy evs
            then Some {| Client.er_evaluations := evs;
                         Client.er_trace_id := Py.or_ (Client.l_trace_id l) (JStr "");
                         Client.er_prompt := JStr prompt;
                         Client.er_response := JStr (Client.stitched_response l) |}
            else None) as Hev by reflexivity.
  unfold Display.ChatResponse_str. cbv zeta in *.
  generalize dependent (Client.chat_response c prompt l). intros cr -> ->.
  destruct (Client.enable_evaluations c); [|reflexivity].
  destruct (Py.truthy (Client.l_evaluations l)) eqn:Ht; [|reflexivity].
  cbn [Client.er_evaluations]. rewrite Ht.
  unfold Display.format_for_chat. cbn [Client.er_evaluations]. rewrite Ht. cbn [negb].
  cbv zeta. by rewrite !append_assoc.
Qed.

End WithStr.

End DisplayFacts.

Lemma chat_returns loads write c w prompt stream cr :
  snd (Client.chat loads write c w prompt stream) = inr cr →
  ∃ l, cr = Client.chat_response c prompt l.
Proof.
  unfold Client.chat.
  destruct (String.eqb (Str.strip prompt) ""); [discriminate|].
  destruct (Client.post w (Client.chat_request c prompt)) as [e|r].
  { cbn [snd]. by intros H%wrap_request_error_inr. }
  destruct (negb (Client.is_2xx (status_code r))); [discriminate|].
  destruct (Client.consume loads write stream r Client.init) as [l [e|[]]]; cbn [snd].
  - by intros H%wrap_request_error_inr.
  - rewrite ClientCalls.new_ChatResponse_spec. intros [= <-]. by exists l.
Qed.

(** X17.  [EvaluationResult.__str__], lines 23-60, and
    [EvaluationResult.format_for_chat], lines 62-81: the display of an
    evaluation result is its heading (the trace identifier, the prompt and
    the response) followed by exactly the text of [format_for_chat], the
    numbered evaluations or "PASSED" when there are none; and the one
    raises whenever the other does, with the same exception. *)
Theorem evaluation_display_ends_with_chat_block str self :
  Display.EvaluationResult_str str self
  = match Display.format_for_chat str self with
    | inr block => inr (Display.evaluation_heading str self +:+ block)
    | inl e => inl e
    end.
Proof.
  unfold Display.EvaluationResult_str, Display.format_for_chat.
  destruct (Py.truthy (Client.er_evaluations self)); cbn [negb]; cbv zeta.
  - rewrite <- DisplayFacts.format_evaluations_prefix. by rewrite !append_assoc.
  - by rewrite !append_assoc.
Qed.

(** X18.  [Client.chat] with [ChatResponse.__str__], lines 110-117: a
    reply whose lines are valid and that carries no evaluation payload is
    displayed, when evaluations are enabled, as the heading followed by an
    "Evaluations" block that reads "PASSED", although no evaluation was
    received; when they are disabled the display ends with the response.
    This holds with and without echo, whatever standard output does. *)
Theorem plain_reply_displayed_as_passed loads write str c w prompt stream r :
  Str.strip prompt ≠ "" →
  Client.post w (Client.chat_request c prompt) = inr r →
  Client.is_2xx (status_code r) = true → broken r = None →
  Forall (valid_line loads) (lines r) →
  Forall (fun s => Str.starts_evaluation s = false) (fragments_of loads (lines r)) →
  ∃ cr, snd (Client.chat loads write c w prompt stream) = inr cr ∧
        Display.ChatResponse_str str cr
        = inr (if Client.enable_evaluations c
               then Display.passed (Display.chat_heading str cr)
               else Display.chat_heading str cr).
Proof.
  intros Hp Hpost H2 Hend Hvalid Hplain.
  rewrite (ClientCalls.client_chat_answered loads write c w prompt stream r Hp Hpost H2), Hend.
  eexists. split; [reflexivity|].
  rewrite DisplayFacts.ChatResponse_str_chat. cbv zeta.
  destruct (run_plain_metadata loads write stream (lines r) Client.init Hvalid Hplain eq_refl)
    as [_ ->].
  cbn [Client.l_evaluations Client.init Py.truthy].
  by destruct (Client.enable_evaluations c).
Qed.

Lemma plain_reply_displayed_as_passed_witness :
  ∃ cr, snd (Client.chat Json.loads Examples.terminal Examples.a_client
               MoreExamples.hello_world "hi" true)
        = inr cr ∧
        Display.ChatResponse_str MoreExamples.str_scalar cr
        = inr ("[Chat Response]
Trace ID : N/A
Model    : Unknown

Prompt:
>> hi

Response:
>> Hello


Evaluations:
----------------------------------------
PASSED")%string.
Proof.
  assert (Forall (valid_line Json.loads) Examples.hello_lines) as Hvalid.
  { repeat constructor; unfold valid_line; vm_compute; try exact I;
      eexists _, _; split; reflexivity. }
  assert (Forall (fun s => Str.starts_evaluation s = false)
                 (fragments_of Json.loads Examples.hello_lines)) as Hplain.
  { vm_compute. repeat constructor. }
  assert (Str.strip "hi" ≠ "") as Hp by (vm_compute; discriminate).
  destruct (plain_reply_displayed_as_passed Json.loads Examples.terminal
              MoreExamples.str_scalar Examples.a_client MoreExamples.hello_world "hi" true
              (Examples.ok_stream Examples.hello_lines None)
              Hp eq_refl eq_refl eq_refl Hvalid Hplain)
    as (cr & Hcr & Hstr).
  exists cr. split; [exact Hcr|]. rewrite Hstr.
  vm_compute in Hcr. injection Hcr as <-. vm_compute. reflexivity.
Defined.

(** X19.  [Client.chat], lines 336-344, with [ChatResponse.__str__], lines
    110-117: with evaluations disabled, whatever the server sends, the
    [ChatResponse] that [chat] returns holds no evaluations and its
    display ends with the response, with no "Evaluations" block. *)
Theorem disabled_evaluations_never_displayed loads write str c w prompt stream cr :
  Client.enable_evaluations c = false →
  snd (Client.chat loads write c w prompt stream) = inr cr →
  Client.cr_evaluations cr = None ∧
  Display.ChatResponse_str str cr = inr (Display.chat_heading str cr).
Proof.
  intros Hoff Hcr. destruct (chat_returns loads write c w prompt stream cr Hcr) as [l ->].
  split.
  - cbn [Client.chat_response Client.cr_evaluations]. by rewrite Hoff.
  - rewrite DisplayFacts.ChatResponse_str_chat. cbv zeta. by rewrite Hoff.
Qed.

Lemma disabled_evaluations_never_displayed_witness :
  evaluations (Client.assemble Json.loads Examples.terminal false Examples.split_fragments)
  = Examples.payload_evaluations ∧
  ∃ cr, snd (Client.chat Json.loads Examples.terminal MoreExamples.plain_client MoreExamples.evaluating_world
               "hi" false) = inr cr ∧
        Client.cr_evaluations cr = None ∧
        Display.ChatResponse_str MoreExamples.str_scalar cr
        = inr (Display.chat_heading MoreExamples.str_scalar cr).
Proof.
  split; [vm_compute; reflexivity|].
  destruct (snd (Client.chat Json.loads Examples.terminal MoreExamples.plain_client
                   MoreExamples.evaluating_world "hi" false)) as [e|cr] eqn:Hcr;
    [vm_compute in Hcr; discriminate|].
  exists cr. split; [reflexivity|].
  exact (disabled_evaluations_never_displayed Json.loads Examples.terminal MoreExamples.str_scalar
           MoreExamples.plain_client MoreExamples.evaluating_world "hi" false cr
           eq_refl Hcr).
Defined.

Lemma new_EvaluationResult_fields data tid prompt response er :
  Client.new_EvaluationResult data tid prompt response = inr er →
  Client.er_prompt er = prompt ∧ Client.er_response er = response.
Proof.
  unfold Client.new_EvaluationResult.
  destruct (Py.get data "evaluations" _) as [e|evs]; [discriminate|].
  destruct (if Py.truthy tid then _ else _) as [e|t]; [discriminate|].
  by intros [= <-].
Qed.

Lemma not_blank_truthy s : Str.strip s ≠ "" → Py.truthy (JStr s) = true.
Proof.
  intros Hs. cbn [Py.truthy]. apply negb_true_iff, String.eqb_neq. by intros ->.
Qed.

(** X20.  [Client.evaluate] and [Client.safety_evaluation] with
    [EvaluationResult.__str__], lines 25-38: the result of an evaluation,
    whatever the server answered, is displayed under a heading that shows
    the trace identifier, the caller's prompt and the caller's response,
    and the result of a safety evaluation under a heading that shows the
    trace identifier and the prompt and no response. *)
Theorem evaluation_display_heading loads str c w prompt response tid shown er :
  (shown = Some response ∧ Client.evaluate loads c w prompt response tid = inr er) ∨
  (shown = None ∧ Client.safety_evaluation loads c w prompt tid = inr er) →
  Display.evaluation_heading str er
  = ("[Evaluation Results]" +:+ Display.nl)
    +:+ ("Trace ID : " +:+ str (Client.er_trace_id er) +:+ Display.nl)
    +:+ Display.nl
    +:+ ("Prompt:" +:+ Display.nl) +:+ (">> " +:+ str (JStr prompt) +:+ Display.nl)
    +:+ Display.nl
    +:+ match shown with
        | Some response =>
            ("Response:" +:+ Display.nl)
            +:+ (">> " +:+ str (JStr response) +:+ Display.nl) +:+ Display.nl
        | None => ""
        end.
Proof.
  intros [[-> H]|[-> H]].
  - unfold Client.evaluate in H.
    destruct (String.eqb_spec (Str.strip prompt) "") as [|Hp]; [discriminate|].
    destruct (String.eqb_spec (Str.strip response) "") as [|Hr]; [discriminate|].
    apply wrap_request_error_inr in H.
    destruct (Client.post w _) as [e|r]; [discriminate|].
    destruct (negb (Client.is_2xx (status_code r))); [discriminate|].
    destruct (Client.response_json loads r) as [e|data]; [discriminate|].
    apply new_EvaluationResult_fields in H as [Hprompt Hresponse].
    unfold Display.evaluation_heading. rewrite Hprompt, Hresponse.
    rewrite (not_blank_truthy prompt Hp), (not_blank_truthy response Hr).
    cbv zeta. by rewrite !append_assoc.
  - unfold Client.safety_evaluation in H.
    destruct (String.eqb_spec (Str.strip prompt) "") as [|Hp]; [discriminate|].
    apply wrap_request_error_inr in H.
    destruct (Client.post w _) as [e|r]; [discriminate|].
    destruct (negb (Client.is_2xx (status_code r))); [discriminate|].
    destruct (Client.response_json loads r) as [e|data]; [discriminate|].
    apply new_EvaluationResult_fields in H as [Hprompt Hresponse].
    unfold Display.evaluation_heading. rewrite Hprompt, Hresponse.
    rewrite (not_blank_truthy prompt Hp). cbn [Py.truthy].
    cbv zeta. by rewrite !append_assoc, append_nil_r.
Qed.

Lemma evaluation_display_heading_witness :
  ∃ er, Client.safety_evaluation Json.loads Examples.a_client
          (Examples.serving Examples.evaluation_reply) "What is 2+2?" (Some "mine")
        = inr er ∧
        Display.evaluation_heading MoreExamples.str_scalar er
        = ("[Evaluation Results]
Trace ID : mine

Prompt:
>> What is 2+2?

")%string.
Proof.
  destruct (Client.safety_evaluation Json.loads Examples.a_client
              (Examples.serving Examples.evaluation_reply) "What is 2+2?" (Some "mine"))
    as [e|er] eqn:Her; [vm_compute in Her; discriminate|].
  exists er. split; [reflexivity|].
  rewrite (evaluation_display_heading Json.loads MoreExamples.str_scalar Examples.a_client
             (Examples.serving Examples.evaluation_reply) "What is 2+2?" "" (Some "mine")
             None er (or_intror (conj eq_refl Her))).
  vm_compute in Her. injection Her as <-. vm_compute. reflexivity.
Defined.

(** ** The two clients on the same body *)

(** X21.  [Client.chat], lines 289-333, and [LLMLabsClient.chat], lines
    58-87: on a body whose lines are valid and that carries no evaluation
    payload the two loops agree, when [Client.chat] echoes nothing or
    standard output takes every text: they leave the same response, the
    same evaluations ([None]), the same trace identifier, the same model
    and the same raw chunks. *)
Theorem clients_agree_on_plain_bodies loads write stream ls :
  Client.echo_succeeds write stream →
  Forall (valid_line loads) ls →
  Forall (fun s => Str.starts_evaluation s = false) (fragments_of loads ls) →
  Client.assemble loads write stream ls = LLMLabs.assemble loads ls.
Proof.
  intros Hw Hvalid Hplain.
  rewrite ClientFacts.assemble_run, LLMLabsCalls.labs_assemble_run.
  unfold Client.assembled, LLMLabs.namespace.
  destruct (run_plain_metadata loads write stream ls Client.init Hvalid Hplain eq_refl)
    as [-> ->].
  destruct (labs_run_plain_metadata loads ls LLMLabs.init Hvalid Hplain) as [-> ->].
  rewrite (ClientFacts.run_plain loads write stream ls Client.init Hw Hvalid Hplain eq_refl).
  unfold LLMLabs.run at 1.
  rewrite (LLMLabsFacts.labs_run_plain loads ls LLMLabs.init Hvalid Hplain).
  rewrite ClientFacts.run_model, ClientFacts.run_results.
  unfold LLMLabs.run.
  by rewrite LLMLabsFacts.labs_run_model, LLMLabsFacts.labs_run_results.
Qed.

Lemma clients_agree_on_plain_bodies_witness :
  Client.echo_succeeds MoreExamples.lenient true ∧
  Forall (valid_line Json.loads) MoreExamples.id_lines ∧
  Client.assemble Json.loads MoreExamples.lenient true MoreExamples.id_lines
  = LLMLabs.assemble Json.loads MoreExamples.id_lines ∧
  response (LLMLabs.assemble Json.loads MoreExamples.id_lines) = "Hello" ∧
  model (LLMLabs.assemble Json.loads MoreExamples.id_lines) = JStr "m".
Proof.
  assert (Client.echo_succeeds MoreExamples.lenient true) as Hw.
  { right. intros out s. reflexivity. }
  assert (Forall (valid_line Json.loads) MoreExamples.id_lines) as Hvalid.
  { repeat constructor; unfold valid_line; vm_compute;
      eexists _, _; split; reflexivity. }
  assert (Forall (fun s => Str.starts_evaluation s = false)
                 (fragments_of Json.loads MoreExamples.id_lines)) as Hplain.
  { vm_compute. repeat constructor. }
  split; [exact Hw|]. split; [exact Hvalid|]. split.
  - exact (clients_agree_on_plain_bodies Json.loads MoreExamples.lenient true
             MoreExamples.id_lines Hw Hvalid Hplain).
  - split; vm_compute; reflexivity.
Defined.

(** ** Transport errors that [LLMLabsClient.chat] does not catch *)

(** X22.  [LLMLabsClient.chat], lines 57-89: the handler around the loop
    catches [ChunkedEncodingError] and nothing else.  When reading the
    body ends with any other exception, that exception leaves the call as
    it is, nothing is printed, and what the lines read so far had
    assembled is lost. *)
Theorem labs_other_stream_errors_propagate loads auth post prompt mv name mt r e :
  prompt ≠ "" →
  post (LLMLabs.chat_request auth prompt (Some mv) (Some name) (Some mt)) = inr r →
  (200 <= status_code r < 300)%Z →
  broken r = Some e → exn_cls e ≠ ChunkedEncodingError →
  LLMLabs.chat loads auth post prompt (Some mv) (Some name) (Some mt) = ([], inl e).
Proof.
  intros Hp Hpost Hcode Hbroken Hcls.
  rewrite (LLMLabsCalls.labs_chat_answered loads auth post prompt mv name mt r
             Hp Hpost Hcode), Hbroken.
  assert (isinstance e ChunkedEncodingError = false) as ->; [|reflexivity].
  unfold isinstance. by destruct (exn_cls e).
Qed.

Lemma labs_other_stream_errors_propagate_witness :
  LLMLabs.chat Json.loads Examples.an_auth
    (fun _ => inr (Examples.ok_stream Examples.hello_lines
                     (Some (Exn ConnectionError "Read timed out."))))
    "hi" (Some "v1") (Some "mine") (Some "default")
  = ([], inl (Exn ConnectionError "Read timed out.")).
Proof.
  apply (labs_other_stream_errors_propagate Json.loads Examples.an_auth _ "hi"
           "v1" "mine" "default"
           (Examples.ok_stream Examples.hello_lines
              (Some (Exn ConnectionError "Read timed out.")))).
  - discriminate.
  - reflexivity.
  - cbn. lia.
  - reflexivity.
  - discriminate.
Defined.

(** ** Blank inputs in a batch *)

Lemma omap_imap_bounded {A B} (keep : A → bool) (f : nat → A → option B) l :
  (∀ i a, keep a = false → f i a = None) →
  length (omap id (imap f l)) ≤ length (List.filter keep l).
Proof.
  revert f. induction l as [|a l IH]; intros f Hf; [reflexivity|].
  cbn [imap omap list_omap List.filter].
  specialize (IH (f ∘ S) (fun i a => Hf (S i) a)).
  destruct (keep a) eqn:Ha.
  - destruct (f 0 a); cbn [id length]; lia.
  - rewrite (Hf 0 a Ha). cbn [id]. exact IH.
Qed.

Lemma batch_bounded {A B} (keep : A → bool) msg (call : nat → A → result B)
    items max_workers completed out :
  (∀ i a, keep a = false → to_option (call i a) = None) →
  completed ≡ₚ seq 0 (length items) →
  Client.batch msg call items max_workers completed = inr out →
  length out ≤ length (List.filter keep items).
Proof.
  intros Hcall Hperm H.
  assert (items ≠ []) as Hne.
  { intros ->. discriminate. }
  assert (0 < max_workers)%Z as Hw.
  { unfold Client.batch in H. destruct items; [done|].
    destruct (Z.leb_spec max_workers 0); [discriminate | lia]. }
  rewrite (ClientCalls.batch_spec msg call items max_workers completed Hne Hw Hperm) in H.
  injection H as <-. by apply omap_imap_bounded.
Qed.

(** X23.  The three batch operations with the checks of [chat],
    [evaluate] and [safety_evaluation] on their inputs: a blank prompt, or
    a blank response in a pair, makes its call raise, and the batch leaves
    it out without a word; so a batch that returns holds at most as many
    results as it was given inputs that are not blank. *)
Theorem batch_leaves_out_blank_inputs loads write c worlds prompts pairs max_workers
    completed completed' :
  completed ≡ₚ seq 0 (length prompts) →
  completed' ≡ₚ seq 0 (length pairs) →
  (∀ out, Client.batch_chat loads write c worlds prompts max_workers completed = inr out →
          length out ≤ length (List.filter not_blank prompts)) ∧
  (∀ out, Client.batch_safety_evaluation loads c worlds prompts max_workers completed
          = inr out →
          length out ≤ length (List.filter not_blank prompts)) ∧
  (∀ out, Client.batch_evaluate loads c worlds pairs max_workers completed' = inr out →
          length out
          ≤ length (List.filter (fun pair => not_blank (fst pair) && not_blank (snd pair))
                      pairs)).
Proof.
  intros Hperm Hperm'. unfold not_blank. split_and!; intros out H.
  - refine (batch_bounded _ _ _ _ _ _ _ _ Hperm H).
    intros i p Hp%negb_false_iff. unfold Client.chat. by rewrite Hp.
  - refine (batch_bounded _ _ _ _ _ _ _ _ Hperm H).
    intros i p Hp%negb_false_iff. unfold Client.safety_evaluation. by rewrite Hp.
  - refine (batch_bounded _ _ _ _ _ _ _ _ Hperm' H).
    intros i [p r] Hpr. cbn [fst snd] in *. unfold Client.evaluate.
    destruct (String.eqb (Str.strip p) ""); [reflexivity|].
    cbn [negb andb] in Hpr. apply negb_false_iff in Hpr. by rewrite Hpr.
Qed.

Lemma batch_leaves_out_blank_inputs_witness :
  ∃ out, Client.batch_chat Json.loads Examples.terminal Examples.a_client (fun _ => MoreExamples.hello_world)
           ["a"; "  "; "c"] 3 [2; 0; 1] = inr out ∧
         length out = 2 ∧
         length (List.filter not_blank ["a"; "  "; "c"]) = 2.
Proof.
  destruct (Client.batch_chat Json.loads Examples.terminal Examples.a_client
              (fun _ => MoreExamples.hello_world) ["a"; "  "; "c"] 3 [2; 0; 1])
    as [e|out] eqn:Hout; [vm_compute in Hout; discriminate|].
  exists out. split; [reflexivity|].
  assert ([2; 0; 1] ≡ₚ seq 0 (length ["a"; "  "; "c"])) as Hperm.
  { apply (bool_decide_unpack _). vm_compute. exact I. }
  pose proof (proj1 (batch_leaves_out_blank_inputs Json.loads Examples.terminal Examples.a_client
                       (fun _ => MoreExamples.hello_world) ["a"; "  "; "c"]
                       [("p", "r")] 3 [2; 0; 1] [0] Hperm (reflexivity _)) out Hout)
    as Hle.
  assert (length (List.filter not_blank ["a"; "  "; "c"]) = 2) as Hlen
    by (vm_compute; reflexivity).
  split; [|exact Hlen].
  rewrite Hlen in Hle.
  assert (2 ≤ length out); [|lia].
  vm_compute in Hout. injection Hout as <-. cbn. lia.
Defined.

(** ** From the loop to the call *)

(** X24.  [LLMLabsClient.chat], lines 51-97, and [Client.chat], lines
    280-346: when the request is answered with a 2xx status and the body
    is read to its end, [LLMLabsClient.chat] prints nothing and returns
    what its loop has assembled from the lines of the body, and
    [Client.chat] returns a [ChatResponse] whose response, trace
    identifier, model and raw chunks are those its loop has assembled,
    whose prompt is the caller's, and whose evaluations are those
    assembled, wrapped with the trace identifier (or the empty string),
    the prompt and the response, when evaluations are enabled and not
    empty, and [None] otherwise. *)
Theorem chat_returns_what_the_loop_assembled loads write auth post c w prompt stream
    mv name mt r :
  prompt ≠ "" → Str.strip prompt ≠ "" →
  post (LLMLabs.chat_request auth prompt (Some mv) (Some name) (Some mt)) = inr r →
  Client.post w (Client.chat_request c prompt) = inr r →
  (200 <= status_code r < 300)%Z → broken r = None →
  LLMLabs.chat loads auth post prompt (Some mv) (Some name) (Some mt)
  = ([], inr (LLMLabs.assemble loads (lines r))) ∧
  snd (Client.chat loads write c w prompt stream)
  = inr (let a := Client.assemble loads write stream (lines r) in
         {| Client.cr_response := response a;
            Client.cr_prompt := JStr prompt;
            Client.cr_evaluations :=
              if Client.enable_evaluations c && Py.truthy (evaluations a)
              then Some {| Client.er_evaluations := evaluations a;
                           Client.er_trace_id := Py.or_ (trace_id a) (JStr "");
                           Client.er_prompt := JStr prompt;
                           Client.er_response := JStr (response a) |}
              else None;
            Client.cr_enable_evaluations := Client.enable_evaluations c;
            Client.cr_trace_id := trace_id a;
            Client.cr_model := model a;
            Client.cr_raw_chunks := raw_chunks a |}).
Proof.
  intros Hp Hps Hpost1 Hpost Hcode Hend. split.
  - by rewrite (LLMLabsCalls.labs_chat_answered loads auth post prompt mv name mt r
                  Hp Hpost1 Hcode), Hend.
  - assert (Client.is_2xx (status_code r) = true) as H2.
    { unfold Client.is_2xx. apply andb_true_iff.
      split; [apply Z.leb_le | apply Z.ltb_lt]; lia. }
    rewrite (ClientCalls.client_chat_answered loads write c w prompt stream r Hps Hpost H2), Hend.
    cbn [snd]. rewrite ClientFacts.assemble_run. cbv zeta.
    unfold Client.chat_response, Client.assembled.
    cbn [response evaluations trace_id model raw_chunks].
    by destruct (Client.enable_evaluations c).
Qed.

Lemma chat_returns_what_the_loop_assembled_witness :
  LLMLabs.chat Json.loads Examples.an_auth
    (fun _ => inr (Examples.ok_stream MoreExamples.id_lines None))
    "hi" (Some "v1") (Some "mine") (Some "default")
  = ([], inr {| response := "Hello"; evaluations := JNull; trace_id := JStr "t2";
                model := JStr "m";
                raw_chunks := chunks_of Json.loads MoreExamples.id_lines |}).
Proof.
  assert (Str.strip "hi" ≠ "") as Hps by (vm_compute; discriminate).
  assert ((200 <= status_code (Examples.ok_stream MoreExamples.id_lines None) < 300)%Z)
    as Hcode by (cbn; lia).
  rewrite (proj1 (chat_returns_what_the_loop_assembled Json.loads Examples.terminal Examples.an_auth
                    (fun _ => inr (Examples.ok_stream MoreExamples.id_lines None))
                    Examples.a_client
                    (Examples.serving (Examples.ok_stream MoreExamples.id_lines None))
                    "hi" false "v1" "mine" "default"
                    (Examples.ok_stream MoreExamples.id_lines None)
                    ltac:(discriminate) Hps eq_refl eq_refl Hcode eq_refl)).
  vm_compute. reflexivity.
Defined.

(** ** The identifier of a closing chunk *)

(** X25.  [Client.chat], lines 300-301, and [LLMLabsClient.chat], lines
    68-69: when the last line of a body carries a chunk that is an object
    with an [id] and no choices, the trace identifier that comes back is
    that [id], whatever came before it: it replaces the [id] of every
    earlier chunk and the [traceId] of every evaluation payload. *)
Theorem closing_chunk_id_wins loads write stream ls line kvs v :
  line_chunk loads line = Some (JObj kvs) →
  Py.dict_lookup kvs "id" = Some v →
  chunk_choices (JObj kvs) = [] →
  trace_id (Client.assemble loads write stream (ls ++ [line])) = v ∧
  trace_id (LLMLabs.assemble loads (ls ++ [line])) = v.
Proof.
  intros Hline Hid Hcs. split.
  - rewrite ClientFacts.assemble_run, ClientFacts.run_app.
    unfold Client.assembled. cbn [trace_id].
    rewrite ClientFacts.run_cons. cbn [Client.run foldl].
    rewrite ClientFacts.exec_process_line, Hline.
    set (l := Client.run loads write stream ls Client.init).
    pose proof (ClientFacts.process_chunk_cases loads write stream (JObj kvs) l) as Hc.
    pose proof (ClientFacts.extract_metadata_object kvs
                  (Client.append_result (JObj kvs) l)) as Hok.
    destruct (extract_metadata_trace_id kvs (Client.append_result (JObj kvs) l))
      as (Ht & _ & _).
    unfold exec in Ht.
    destruct (Client.extract_metadata _ _) as [l1 res]. cbn [fst snd] in Hok, Ht.
    subst res. destruct Hc as [-> _]. rewrite Hcs. cbn [for_each exec ret fst].
    by rewrite Ht, Hid.
  - rewrite LLMLabsCalls.labs_assemble_run, LLMLabsCalls.labs_run_app.
    unfold LLMLabs.namespace. cbn [trace_id].
    rewrite LLMLabsCalls.labs_run_cons. cbn [LLMLabs.run foldl].
    rewrite LLMLabsFacts.labs_exec_process_line, Hline.
    set (l := LLMLabs.run loads ls LLMLabs.init).
    unfold LLMLabs.process_chunk. rewrite exec_bind. cbn [modify]. rewrite exec_bind.
    pose proof (LLMLabsFacts.labs_extract_metadata_object kvs
                  (LLMLabs.append_result (JObj kvs) l)) as Hok.
    destruct (labs_extract_metadata_trace_id kvs (LLMLabs.append_result (JObj kvs) l))
      as [Ht _].
    unfold exec in Ht.
    destruct (LLMLabs.extract_metadata _ _) as [l1 res]. cbn [fst snd] in Hok, Ht.
    subst res. rewrite LLMLabsFacts.labs_exec_process_choices, Hcs.
    cbn [for_each exec ret fst]. by rewrite Ht, Hid.
Qed.

Lemma closing_chunk_id_wins_witness :
  trace_id (Client.assemble Json.loads Examples.terminal false Examples.split_fragments) = JStr "abc" ∧
  trace_id (Client.assemble Json.loads Examples.terminal false
              (Examples.split_fragments ++ [MoreExamples.closing_line])) = JStr "final" ∧
  trace_id (LLMLabs.assemble Json.loads
              (Examples.split_fragments ++ [MoreExamples.closing_line])) = JStr "final".
Proof.
  split; [vm_compute; reflexivity|].
  apply (closing_chunk_id_wins Json.loads Examples.terminal false Examples.split_fragments
           MoreExamples.closing_line [("id", JStr "final")] (JStr "final")).
  - vm_compute. reflexivity.
  - reflexivity.
  - reflexivity.
Defined.

(** ** Calls that fail before or at the request *)

(** X26.  [LLMLabsClient.chat], lines 10-20: a call with an empty prompt,
    or without a model version, a model id type or a model name, raises
    [ValueError] with a message that depends on the arguments only, and
    prints nothing; the outcome is the same whatever the credentials and
    whatever the server would have answered. *)
Theorem labs_incomplete_arguments_rejected loads prompt mv name mt :
  prompt = "" ∨ mv = None ∨ name = None ∨ mt = None →
  ∃ msg, ∀ auth post,
    LLMLabs.chat loads auth post prompt mv name mt = ([], inl (Exn ValueError msg)).
Proof.
  intros H. unfold LLMLabs.chat.
  destruct (String.eqb_spec prompt "") as [|Hp]; [by eexists|].
  destruct mv as [mv|]; [|by eexists].
  destruct mt as [mt|]; [|by eexists].
  destruct name as [name|]; [|by eexists].
  by destruct H as [?|[?|[?|?]]].
Qed.

Lemma labs_incomplete_arguments_rejected_witness :
  LLMLabs.chat Json.loads AuthFile.new_Auth
    (fun _ => inr (Examples.ok_stream Examples.hello_lines None))
    "" (Some "TinyLlama-1.1B-Chat-v1.0") (Some "mustafaTest1") (Some "default")
  = ([], inl (Exn ValueError "Prompt cannot be empty.")).
Proof.
  destruct (labs_incomplete_arguments_rejected Json.loads ""
              (Some "TinyLlama-1.1B-Chat-v1.0") (Some "mustafaTest1") (Some "default")
              (or_introl eq_refl)) as [msg Hmsg].
  rewrite Hmsg.
  specialize (Hmsg AuthFile.new_Auth (fun _ => raise ConnectionError "unreachable")).
  vm_compute in Hmsg. by injection Hmsg as <-.
Defined.

Lemma not_2xx code : ¬ (200 <= code < 300)%Z → Client.is_2xx code = false.
Proof.
  intros H. unfold Client.is_2xx. apply andb_false_iff.
  destruct (Z.leb_spec 200 code); [right | by left]. apply Z.ltb_ge. lia.
Qed.

(** X27.  [Client.chat], lines 277-278, and [Client.safety_evaluation],
    lines 522-523: a reply whose status is not 2xx makes the call raise
    [ValueError] with the words "API error" (for [chat]) or "Safety API
    error" (for [safety_evaluation]), the status code and the body of the
    reply, the same for every range of status; [chat] prints nothing and
    reads no line of the body. *)
Theorem chat_and_safety_status_errors loads write c w prompt stream tid r :
  Str.strip prompt ≠ "" →
  Client.post w (Client.chat_request c prompt) = inr r →
  Client.post w (Client.safety_request c w prompt (JStr (Client.chosen_trace_id w tid)))
  = inr r →
  ¬ (200 <= status_code r < 300)%Z →
  Client.chat loads write c w prompt stream
  = ([], inl (Exn ValueError
                ("API error " +:+ Str.of_int (status_code r) +:+ ": " +:+ text r))) ∧
  Client.safety_evaluation loads c w prompt tid
  = inl (Exn ValueError
           ("Safety API error " +:+ Str.of_int (status_code r) +:+ ": " +:+ text r)).
Proof.
  intros Hp Hpost Hpost' Hcode%not_2xx. split.
  - unfold Client.chat. apply String.eqb_neq in Hp. by rewrite Hp, Hpost, Hcode.
  - by rewrite (ClientCalls.safety_answered loads c w prompt tid r Hp Hpost'), Hcode.
Qed.

Lemma chat_and_safety_status_errors_witness :
  Client.chat Json.loads Examples.terminal Examples.a_client (Examples.serving Examples.unavailable)
    "hi" true
  = ([], inl (Exn ValueError "API error 503: not found")) ∧
  Client.safety_evaluation Json.loads Examples.a_client
    (Examples.serving Examples.unavailable) "hi" None
  = inl (Exn ValueError "Safety API error 503: not found").
Proof.
  assert (Str.strip "hi" ≠ "") as Hp by (vm_compute; discriminate).
  apply (chat_and_safety_status_errors Json.loads Examples.terminal Examples.a_client
           (Examples.serving Examples.unavailable) "hi" true None Examples.unavailable
           Hp eq_refl eq_refl).
  cbn. lia.
Defined.

(** X28.  When [requests.post] itself raises a [RequestException] (the
    connection is refused, the request times out): [Client.chat],
    [Client.evaluate] and [Client.safety_evaluation] raise [ValueError]
    with the words "Request failed: ", "Evaluation request failed: " and
    "Safety evaluation request failed: " followed by the text of the
    exception, whereas [LLMLabsClient.chat], which has no handler around
    the request, lets the exception through as it is. *)
Theorem refused_requests loads write auth post c w prompt response stream tid mv name mt e :
  prompt ≠ "" → Str.strip prompt ≠ "" → Str.strip response ≠ "" →
  isinstance e RequestException = true →
  post (LLMLabs.chat_request auth prompt (Some mv) (Some name) (Some mt)) = inl e →
  (∀ request, Client.post w request = inl e) →
  LLMLabs.chat loads auth post prompt (Some mv) (Some name) (Some mt) = ([], inl e) ∧
  Client.chat loads write c w prompt stream
  = ([], inl (Exn ValueError ("Request failed: " +:+ exn_msg e))) ∧
  Client.evaluate loads c w prompt response tid
  = inl (Exn ValueError ("Evaluation request failed: " +:+ exn_msg e)) ∧
  Client.safety_evaluation loads c w prompt tid
  = inl (Exn ValueError ("Safety evaluation request failed: " +:+ exn_msg e)).
Proof.
  intros Hp Hps Hrs He Hpost1 Hpost.
  apply String.eqb_neq in Hp, Hps, Hrs. split_and!.
  - unfold LLMLabs.chat. rewrite Hp. cbn. by rewrite Hpost1.
  - unfold Client.chat. rewrite Hps, Hpost. unfold Client.wrap_request_error.
    by rewrite He.
  - unfold Client.evaluate. rewrite Hps, Hrs, Hpost. unfold Client.wrap_request_error.
    by rewrite He.
  - unfold Client.safety_evaluation. rewrite Hps, Hpost. unfold Client.wrap_request_error.
    by rewrite He.
Qed.

Lemma refused_requests_witness :
  LLMLabs.chat Json.loads Examples.an_auth (fun _ => inl MoreExamples.refused)
    "hi" (Some "v1") (Some "mine") (Some "default")
  = ([], inl (Exn ConnectionError "Connection refused")) ∧
  Client.chat Json.loads Examples.terminal Examples.a_client MoreExamples.unreachable "hi" false
  = ([], inl (Exn ValueError "Request failed: Connection refused")) ∧
  Client.evaluate Json.loads Examples.a_client MoreExamples.unreachable "hi" "there" None
  = inl (Exn ValueError "Evaluation request failed: Connection refused") ∧
  Client.safety_evaluation Json.loads Examples.a_client MoreExamples.unreachable "hi" None
  = inl (Exn ValueError "Safety evaluation request failed: Connection refused").
Proof.
  assert (Str.strip "hi" ≠ "") as Hp by (vm_compute; discriminate).
  assert (Str.strip "there" ≠ "") as Hr by (vm_compute; discriminate).
  apply (refused_requests Json.loads Examples.terminal Examples.an_auth (fun _ => inl MoreExamples.refused)
           Examples.a_client MoreExamples.unreachable "hi" "there" false None
           "v1" "mine" "default" MoreExamples.refused);
    [discriminate | exact Hp | exact Hr | reflexivity | reflexivity | reflexivity].
Defined.

(** ** The constructor and the server *)

Section ClientInitOutcome.

Variables DEFAULT_API_URL CHATBOT_ENDPOINT EVALUATION_ENDPOINT
          SAFETY_EVALUATION_ENDPOINT TRACE_PROJECT_NAME_ENDPOINT : string.
Variable getenv : string → option string.
Variable post : Request → result Response.

(** X29.  [Client.__init__], lines 171-197, with [_get_project_name],
    lines 226-243: given a user name, an API key and a session name that
    are not empty, the constructor succeeds exactly when the request for
    the project name is answered with a 2xx status; a reply with another
    status makes it raise [ValueError] with "Trace project name API
    error", the status code and the body; a [RequestException] raised by
    the request makes it raise [ValueError] with "Failed to get trace
    project name: " and the text of the exception; any other exception
    leaves the constructor as it is. *)
Theorem constructor_outcome session url username api_key enable u k :
  ClientInit.or_env username (getenv "INSIGHTFINDER_USERNAME") = Some u → u ≠ "" →
  ClientInit.or_env api_key (getenv "INSIGHTFINDER_API_KEY") = Some k → k ≠ "" →
  session ≠ "" →
  ClientInit.new_Client DEFAULT_API_URL CHATBOT_ENDPOINT EVALUATION_ENDPOINT
    SAFETY_EVALUATION_ENDPOINT TRACE_PROJECT_NAME_ENDPOINT getenv post
    session url username api_key enable
  = let self := ClientInit.under_construction DEFAULT_API_URL CHATBOT_ENDPOINT
                  EVALUATION_ENDPOINT SAFETY_EVALUATION_ENDPOINT session u k url enable in
    match post (ClientInit.project_name_request DEFAULT_API_URL
                  TRACE_PROJECT_NAME_ENDPOINT url self) with
    | inr r =>
        if Client.is_2xx (status_code r)
        then inr (ClientInit.set_project_name (Str.strip (text r) +:+ "-Prompt") self)
        else inl (Exn ValueError
                    ("Trace project name API error " +:+ Str.of_int (status_code r)
                     +:+ ": " +:+ text r))
    | inl e =>
        if isinstance e RequestException
        then inl (Exn ValueError ("Failed to get trace project name: " +:+ exn_msg e))
        else inl e
    end.
Proof.
  intros Hu Hune%String.eqb_neq Hk Hkne%String.eqb_neq Hs%String.eqb_neq.
  unfold ClientInit.new_Client. rewrite Hu, Hk.
  cbn [ClientInit.missing default from_option]. rewrite Hune, Hkne, Hs. unfold id.
  cbv zeta. unfold ClientInit.get_project_name.
  destruct (post _) as [e|r].
  - unfold Client.wrap_request_error, raise.
    by destruct (isinstance e RequestException).
  - by destruct (Client.is_2xx (status_code r)).
Qed.

End ClientInitOutcome.

Lemma constructor_outcome_witness :
  ClientInit.new_Client MoreExamples.api_url MoreExamples.chatbot_endpoint
    MoreExamples.evaluation_endpoint MoreExamples.safety_endpoint
    MoreExamples.trace_endpoint MoreExamples.environment
    (fun _ => inr Examples.not_found) "demo" None None (Some "mine") true
  = inl (Exn ValueError "Trace project name API error 404: not found").
Proof.
  rewrite (constructor_outcome MoreExamples.api_url MoreExamples.chatbot_endpoint
             MoreExamples.evaluation_endpoint MoreExamples.safety_endpoint
             MoreExamples.trace_endpoint MoreExamples.environment
             (fun _ => inr Examples.not_found) "demo" None None (Some "mine") true
             "env-user" "mine"); [reflexivity | reflexivity | discriminate
                                 | reflexivity | discriminate | discriminate].
Defined.

(** ** A reply that is JSON and not an object *)

(** X30.  [Client.evaluate], lines 436-437, and
    [Client.safety_evaluation], lines 525-526, with
    [EvaluationResult.__init__], line 18: when the server answers with a
    2xx status and a body that decodes to a JSON value that is not an
    object (an array, a string, a number, [null]), the call raises
    [AttributeError], which its handler for [RequestException] does not
    turn into a [ValueError]. *)
Theorem evaluation_reply_not_an_object loads c w prompt response tid r r' v v' :
  Str.strip prompt ≠ "" → Str.strip response ≠ "" →
  Client.post w (Client.evaluate_request c w prompt response
                   (JStr (Client.chosen_trace_id w tid))) = inr r →
  Client.is_2xx (status_code r) = true →
  loads (text r) = Some v → (∀ kvs, v ≠ JObj kvs) →
  Client.post w (Client.safety_request c w prompt
                   (JStr (Client.chosen_trace_id w tid))) = inr r' →
  Client.is_2xx (status_code r') = true →
  loads (text r') = Some v' → (∀ kvs, v' ≠ JObj kvs) →
  (∃ e, Client.evaluate loads c w prompt response tid = inl e ∧
        exn_cls e = AttributeError) ∧
  (∃ e, Client.safety_evaluation loads c w prompt tid = inl e ∧
        exn_cls e = AttributeError).
Proof.
  intros Hp Hr Hpost H2 Hl Hv Hpost' H2' Hl' Hv'.
  assert (∀ x tid p q, (∀ kvs, x ≠ JObj kvs) →
            ∃ e, Client.wrap_request_error "Evaluation request failed: "
                   (Client.new_EvaluationResult x tid p q) = inl e ∧
                 exn_cls e = AttributeError) as Hnew.
  { intros x t p q Hx. destruct x as [| | | | | | | |kvs]; try (by eexists).
    by destruct (Hx kvs). }
  assert (∀ x tid p q, (∀ kvs, x ≠ JObj kvs) →
            ∃ e, Client.wrap_request_error "Safety evaluation request failed: "
                   (Client.new_EvaluationResult x tid p q) = inl e ∧
                 exn_cls e = AttributeError) as Hnew'.
  { intros x t p q Hx. destruct x as [| | | | | | | |kvs]; try (by eexists).
    by destruct (Hx kvs). }
  split.
  - rewrite (ClientCalls.evaluate_answered loads c w prompt response tid r Hp Hr Hpost), H2.
    unfold Client.response_json. rewrite Hl. by apply Hnew.
  - rewrite (ClientCalls.safety_answered loads c w prompt tid r' Hp Hpost'), H2'.
    unfold Client.response_json. rewrite Hl'. by apply Hnew'.
Qed.

Lemma evaluation_reply_not_an_object_witness :
  Client.evaluate Json.loads Examples.a_client (Examples.serving MoreExamples.list_reply)
    "What is 2+2?" "4" None
  = inl (Exn AttributeError "object has no attribute 'get'").
Proof.
  assert (Str.strip "What is 2+2?" ≠ "") as Hp by (vm_compute; discriminate).
  assert (Str.strip "4" ≠ "") as Hr by (vm_compute; discriminate).
  destruct (evaluation_reply_not_an_object Json.loads Examples.a_client
              (Examples.serving MoreExamples.list_reply) "What is 2+2?" "4" None
              MoreExamples.list_reply MoreExamples.list_reply (JArr []) (JArr [])
              Hp Hr eq_refl eq_refl ltac:(vm_compute; reflexivity) ltac:(discriminate)
              eq_refl eq_refl ltac:(vm_compute; reflexivity) ltac:(discriminate))
    as [[e [He _]] _].
  rewrite He. vm_compute in He. by injection He as <-.
Defined.
